(** * The bumpfee monitor: unconfirmed-transaction fee escalation

    A shallow embedding of the [main] loop of the bumpfee tool
    (src/unnamed/part_001, second program) and the properties of its
    transaction store, fee estimate and escalation decision.  The node
    behind [sendRpcRequest] is the environment; reading the
    configuration file and setting up the logger are left out, and a log
    line is kept as its kind and arguments.

    Go's [float64] is Rocq's primitive binary64 [float]; Go's [int] and
    [int64] are [Z] with the 64-bit wrap-around written out; the
    [map[string]*TxInfo] store is a [gmap string TxInfo]; values decoded
    by encoding/json into [interface{}] are the inductive [Value]. *)

From Stdlib Require Import ZArith Floats Uint63 String List Bool Lia.
From stdpp Require Import gmap strings list fin_maps relations.

Set Warnings "-register-all,-inexact-float".

Local Open Scope string_scope.
Local Open Scope list_scope.
Local Open Scope Z_scope.

(** ** Machine integers *)

Definition min_int64 : Z := - 2 ^ 63.
Definition max_int64 : Z := 2 ^ 63 - 1.

Definition in_int64 (z : Z) : bool := (min_int64 <=? z) && (z <=? max_int64).

(** Two's complement wrap-around of a 64-bit signed result. *)
Definition wrap64 (z : Z) : Z := (z + 2 ^ 63) mod 2 ^ 64 - 2 ^ 63.

Definition sub64 (a b : Z) : Z := wrap64 (a - b).
Definition mul64 (a b : Z) : Z := wrap64 (a * b).

(** ** float64 helpers *)

(** Exact truncation toward zero of a finite float; [None] on NaN and the
    infinities. *)
Definition trunc_float (f : float) : option Z :=
  match Prim2SF f with
  | S754_zero _ => Some 0
  | S754_finite sg m e =>
      let mag := if 0 <=? e then Zpos m * 2 ^ e else Zpos m / 2 ^ (- e) in
      Some (if sg then - mag else mag)
  | S754_infinity _ => None
  | S754_nan => None
  end.

(** [int(f)] and [int64(f)].  Go leaves the conversion of a value that
    does not fit implementation-specific; on amd64 the instruction
    yields the smallest int64, which is what is modelled here. *)
Definition int_of_float (f : float) : Z :=
  match trunc_float f with
  | Some z => if in_int64 z then z else min_int64
  | None => min_int64
  end.

(** [float64(n)] for a non-negative [int] below 2^63 (a length). *)
Definition float_of_int (n : Z) : float := of_uint63 (Uint63.of_Z n).

(** Nearest integer, halves away from zero, of a finite float. *)
Definition round_half_away (f : float) : option Z :=
  match Prim2SF f with
  | S754_zero _ => Some 0
  | S754_finite sg m e =>
      let mag :=
        if 0 <=? e then Zpos m * 2 ^ e
        else (2 * Zpos m + 2 ^ (- e)) / 2 ^ (- e + 1) in
      Some (if sg then - mag else mag)
  | S754_infinity _ => None
  | S754_nan => None
  end.

(** [math.Round]: the result is an integer-valued float (NaN and the
    infinities are returned as they are, a zero result keeps the sign). *)
Definition math_Round (f : float) : float :=
  match round_half_away f with
  | Some z =>
      if z =? 0 then (if get_sign f then (-0)%float else 0%float)
      else SF2Prim (binary_normalize prec emax z 0 false)
  | None => f
  end.

(** ** Values held by [interface{}] *)

Inductive Value : Type :=
  | VNil
  | VBool (b : bool)
  | VNum (f : float)                    (* float64, every decoded JSON number *)
  | VInt (n : Z)                        (* a Go int placed in a request *)
  | VStr (s : string)
  | VArr (l : list Value)               (* []interface{} *)
  | VObj (m : gmap string Value).       (* map[string]interface{} *)

(** Type assertions [v.(T)] with their [ok] flag. *)
Definition asString (v : Value) : option string :=
  match v with VStr s => Some s | _ => None end.
Definition asFloat64 (v : Value) : option float :=
  match v with VNum f => Some f | _ => None end.
Definition asArray (v : Value) : option (list Value) :=
  match v with VArr l => Some l | _ => None end.
Definition asObject (v : Value) : option (gmap string Value) :=
  match v with VObj m => Some m | _ => None end.

(** [m[key]] on a Go map: the zero value, a nil interface, when absent. *)
Definition index (m : gmap string Value) (key : string) : Value :=
  default VNil (m !! key).

(** ** Configuration and tracked state *)

Record Config : Type := mkConfig {
  URL : string;
  Username : string;
  Password : string;
  IsBump : bool;
  BlockCheckInterval : Z;
  BumpfeeBlockInterval : Z;
  FeeBumpAmount : float;
  FeeCap : float
}.

Record TxInfo : Type := mkTxInfo {
  WalletName : string;
  FirstBlockHeight : Z;
  CurrentFeerate : float
}.

(** What [sendRpcRequest] hands back: [(result, nil)] or [(nil, err)]. *)
Inductive RpcResult : Type :=
  | RpcOk (result : Value)
  | RpcErr (err : string).

(** ** Observable behaviour *)

Inductive LogLine : Type :=
  | LNewBlock (height : Z)
  | LFoundNew (wallet txid : string) (feerate : float)
  | LUnconfirmedFor (wallet txid : string) (blockHeightDiff : Z)
  | LBumpfee (txid : string) (newFeerateRounded : Z)
  | LNewTxid (newTxid : string) (newFeerateRounded : Z)
  | LIsBumpFalse (txid : string)
  | LSimulated (txid : string) (newFeerate : float)
  | LNoBumped
  | LError (msg : string).

Inductive Event : Type :=
  | ERpc (url method : string) (params : list Value)
  | ELog (line : LogLine)
  | ESleep (nanoseconds : Z).

(** The fee estimate of line 303. *)
Definition feerate_of (fee : float) (hex : string) : float :=
  (abs fee * 1e8 / float_of_int (Z.of_nat (String.length hex)) * 2)%float.

(** The capped candidate of lines 327-330. *)
Definition newFeerate_of (currentFeerate feeBumpAmount feeCap : float) : float :=
  let newFeerate := (currentFeerate + feeBumpAmount)%float in
  if (feeCap <? newFeerate)%float then feeCap else newFeerate.

(** The query options of line 220. *)
Definition queryOptions : Value :=
  VObj {[ "minimumAmount" := VNum 0.00002%float ]}.

Definition second : Z := 1000000000.

(** The request of line 336. *)
Definition bumpfeeParams (txid : string) (newFeerateRounded : Z) : list Value :=
  [VStr txid; VObj {[ "fee_rate" := VInt newFeerateRounded ]}].

(** ** Observations on the trace *)

(** A [bumpfee] request for the given transaction id. *)
Definition isBumpfeeOf (txid : string) (e : Event) : bool :=
  match e with
  | ERpc _ method (VStr t :: _) => String.eqb method "bumpfee" && String.eqb t txid
  | _ => false
  end.

(** A [bumpfee] request, for whichever id. *)
Definition isBumpfee (e : Event) : bool :=
  match e with
  | ERpc _ method _ => String.eqb method "bumpfee"
  | _ => false
  end.

Definition isRpc (e : Event) : bool :=
  match e with ERpc _ _ _ => true | _ => false end.

Definition isAgeReport (e : Event) : bool :=
  match e with ELog (LUnconfirmedFor _ _ _) => true | _ => false end.

Definition isSleep (e : Event) : bool :=
  match e with ESleep _ => true | _ => false end.

(** The log line that proposes an escalation of the given id. *)
Definition isProposalOf (txid : string) (e : Event) : bool :=
  match e with
  | ELog (LBumpfee t _) => String.eqb t txid
  | _ => false
  end.

Fixpoint count (p : Event -> bool) (l : list Event) : nat :=
  match l with
  | [] => O
  | e :: l' => if p e then S (count p l') else count p l'
  end.

(** The events of the code around the loop over outputs: the height and
    scan requests, the new-block and error lines, the sleep. *)
Definition isGlue (e : Event) : bool :=
  match e with
  | ERpc _ method _ => String.eqb method "getblockcount" || String.eqb method "listunspent"
  | ELog (LNewBlock _) => true
  | ELog (LError _) => true
  | ESleep _ => true
  | _ => false
  end.

(** The new-block line of lines 240-244. *)
Definition newBlockLine (cur : float) (last : Z) : list Event :=
  if last =? -1 then [ELog (LNewBlock (int_of_float cur))]
  else if negb (int_of_float cur =? last) then [ELog (LNewBlock (int_of_float cur))]
  else [].

(** The height of a [getblockcount] answer, when it is a number. *)
Definition heightOf (r : RpcResult) : option float :=
  match r with
  | RpcOk v => asFloat64 v
  | RpcErr _ => None
  end.

(** The age reports of one pass over the store, in [map_to_list] order. *)
Definition ageReports (walletName : string) (height : Z) (infos : gmap string TxInfo)
    : list Event :=
  (fun p => ELog (LUnconfirmedFor (WalletName p.2) p.1 (sub64 height (FirstBlockHeight p.2))))
    <$> filter (fun p => WalletName p.2 = walletName) (map_to_list infos).

(** A [bumpfee] answer that carries a replacement id, and one that does
    not (transport, protocol or schema error). *)
Definition replacementId (r : RpcResult) : option string :=
  match r with
  | RpcOk v =>
      match asObject v with
      | Some bumpInfo => asString (index bumpInfo "txid")
      | None => None
      end
  | RpcErr _ => None
  end.

(** The estimate as the specification words it: the size is
    [len(rawHex) / 2] and the rate [abs(fee) * UNIT_SCALE / size * 2]. *)
Definition spec_estimate (feeAbsolute : float) (rawHex : string) : float :=
  let size := float_of_int (Z.of_nat (String.length rawHex) / 2) in
  (abs feeAbsolute * 1e8 / size * 2)%float.

(** ** The monitor *)

Section Monitor.

(** The ledger node is the environment: [sendRpcRequest] is a
    transition of an arbitrary world, so that the same request may be
    answered differently from one call to the next. *)
Context {World : Type}.
Variable sendRpcRequest :
  World -> string -> string -> string -> string -> list Value -> RpcResult * World.
Variable config : Config.

(** The variables of [main] that live across iterations, the world and
    everything the process has done so far, oldest first. *)
Record State : Type := mkState {
  txInfos : gmap string TxInfo;
  lastBlockHeight : Z;
  world : World;
  trace : list Event
}.

(** A loop body: it runs to its end ([Some]) or leaves the iteration
    through [continue] ([None]); the state is threaded either way. *)
Definition M (A : Type) : Type := State -> option A * State.

Definition ret {A} (a : A) : M A := fun s => (Some a, s).
Definition bind {A B} (c : M A) (k : A -> M B) : M B :=
  fun s => match c s with
           | (Some a, s') => k a s'
           | (None, s') => (None, s')
           end.
Definition continue {A} : M A := fun s => (None, s).

Notation "x <-- c ;; k" := (bind c (fun x => k))
  (at level 100, c at next level, right associativity).
Notation "c ;;; k" := (bind c (fun _ => k))
  (at level 100, right associativity).

Definition emit (e : Event) : M unit :=
  fun s => (Some tt, mkState (txInfos s) (lastBlockHeight s) (world s) (trace s ++ [e])).
Definition logf (l : LogLine) : M unit := emit (ELog l).

Definition rpc (url method : string) (params : list Value) : M RpcResult :=
  fun s =>
    let '(r, w) := sendRpcRequest (world s) url (Username config) (Password config) method params in
    (Some r, mkState (txInfos s) (lastBlockHeight s) w (trace s ++ [ERpc url method params])).

Definition getTxInfos : M (gmap string TxInfo) := fun s => (Some (txInfos s), s).
Definition getLastBlockHeight : M Z := fun s => (Some (lastBlockHeight s), s).
Definition setTxInfo (txid : string) (info : TxInfo) : M unit :=
  fun s => (Some tt, mkState (<[txid := info]> (txInfos s)) (lastBlockHeight s) (world s) (trace s)).
Definition deleteTxInfo (txid : string) : M unit :=
  fun s => (Some tt, mkState (delete txid (txInfos s)) (lastBlockHeight s) (world s) (trace s)).
Definition setLastBlockHeight (h : Z) : M unit :=
  fun s => (Some tt, mkState (txInfos s) h (world s) (trace s)).

(** [for _, x := range l { body }]: a [continue] in the body moves on to
    the next element. *)
Definition forRange {A} (body : A -> M unit) (l : list A) : M unit :=
  fun s => (Some tt, fold_left (fun s x => snd (body x s)) l s).

(** [v, ok := e.(T); if !ok { log; continue }] *)
Definition assertOr {A} (o : option A) (msg : string) : M A :=
  match o with
  | Some a => ret a
  | None => logf (LError msg) ;;; continue
  end.

(** Lines 279-312: look the id up, and track it when it is new. *)
Definition track (walletName walletUrl : string) (currentBlockCount : float)
    (txid : string) : M TxInfo :=
  infos <-- getTxInfos ;;
  match infos !! txid with
  | Some info => ret info
  | None =>
      getTxResp <-- rpc walletUrl "gettransaction" [VStr txid] ;;
      match getTxResp with
      | RpcErr _ => logf (LError "Error getting transaction info") ;;; continue
      | RpcOk getTxResp =>
          getTxInfo <-- assertOr (asObject getTxResp) "Invalid gettransaction response" ;;
          fee <-- assertOr (asFloat64 (index getTxInfo "fee")) "Invalid fee in gettransaction response" ;;
          hex <-- assertOr (asString (index getTxInfo "hex")) "Invalid hex in gettransaction response" ;;
          let feerate := feerate_of fee hex in
          let info := mkTxInfo walletName (int_of_float currentBlockCount) feerate in
          setTxInfo txid info ;;;
          logf (LFoundNew walletName txid feerate) ;;;
          ret info
      end
  end.

(** Lines 314-324: the age report.  Go ranges over a map in an
    unspecified order; the order of [map_to_list] stands for it. *)
Definition reportAges (walletName : string) (currentBlockCount : float) : M unit :=
  last <-- getLastBlockHeight ;;
  if negb (int_of_float currentBlockCount =? last) && negb (last =? -1) then
    infos <-- getTxInfos ;;
    forRange (fun '(txid, info) =>
                if String.eqb (WalletName info) walletName then
                  logf (LUnconfirmedFor (WalletName info) txid
                          (sub64 (int_of_float currentBlockCount) (FirstBlockHeight info)))
                else ret tt)
             (map_to_list infos)
  else ret tt.

(** Lines 326-365: the escalation decision for one tracked entry. *)
Definition escalate (walletUrl : string) (currentBlockCount : float)
    (txid : string) (info : TxInfo) : M unit :=
  if BumpfeeBlockInterval config <=? sub64 (int_of_float currentBlockCount) (FirstBlockHeight info) then
    let newFeerate := newFeerate_of (CurrentFeerate info) (FeeBumpAmount config) (FeeCap config) in
    let newFeerateRounded := int_of_float (math_Round newFeerate) in
    if (1 <=? newFeerate - CurrentFeerate info)%float then
      logf (LBumpfee txid newFeerateRounded) ;;;
      if IsBump config then
        bumpResp <-- rpc walletUrl "bumpfee" (bumpfeeParams txid newFeerateRounded) ;;
        match bumpResp with
        | RpcErr _ => logf (LError "Error bumping fee") ;;; continue
        | RpcOk bumpResp =>
            bumpInfo <-- assertOr (asObject bumpResp) "Invalid bumpfee response" ;;
            newTxid <-- assertOr (asString (index bumpInfo "txid")) "Error retrieving new txid after bumpfee" ;;
            deleteTxInfo txid ;;;
            logf (LNewTxid newTxid newFeerateRounded)
        end
      else
        deleteTxInfo txid ;;;
        logf (LIsBumpFalse txid) ;;;
        logf (LSimulated txid newFeerate)
    else
      logf LNoBumped
  else ret tt.

(** Lines 266-366: the body of the loop over one wallet's outputs. *)
Definition processUnspent (walletName walletUrl : string) (currentBlockCount : float)
    (u : Value) : M unit :=
  unspentInfo <-- assertOr (asObject u) "Invalid unspent info" ;;
  txid <-- assertOr (asString (index unspentInfo "txid")) "Invalid txid" ;;
  info <-- track walletName walletUrl currentBlockCount txid ;;
  reportAges walletName currentBlockCount ;;;
  escalate walletUrl currentBlockCount txid info.

(** Lines 246-367: the body of the loop over the wallets. *)
Definition processWallet (currentBlockCount : float) (wallet : Value) : M unit :=
  walletName <-- assertOr (asString wallet) "Invalid wallet name in wallet list" ;;
  let walletUrl := (URL config ++ "/wallet/" ++ walletName)%string in
  unspentResp <-- rpc walletUrl "listunspent"
                    [VInt 0; VInt 0; VArr []; VBool true; queryOptions] ;;
  match unspentResp with
  | RpcErr _ => logf (LError "Error getting unconfirmed txids for wallet") ;;; continue
  | RpcOk unspentResp =>
      unspent <-- assertOr (asArray unspentResp) "Invalid unspent response for wallet" ;;
      forRange (processUnspent walletName walletUrl currentBlockCount) unspent
  end.

(** Lines 224-372: one iteration of the endless [for] of [main]. *)
Definition pollCycle (wallets : list Value) : M unit :=
  blockCountResp <-- rpc (URL config) "getblockcount" [] ;;
  match blockCountResp with
  | RpcErr _ => logf (LError "Error getting current block count") ;;; continue
  | RpcOk blockCountResp =>
      currentBlockCount <-- assertOr (asFloat64 blockCountResp) "Invalid block count response" ;;
      last <-- getLastBlockHeight ;;
      (if last =? -1 then logf (LNewBlock (int_of_float currentBlockCount))
       else if negb (int_of_float currentBlockCount =? last)
            then logf (LNewBlock (int_of_float currentBlockCount))
            else ret tt) ;;;
      forRange (processWallet currentBlockCount) wallets ;;;
      setLastBlockHeight (int_of_float currentBlockCount) ;;;
      emit (ESleep (mul64 (BlockCheckInterval config) second))
  end.

(** Lines 206-217: the state before the loop and the wallet list, which
    is fetched once.  The trace starts at line 206: the two information
    lines that lines 202-203 log before it (an empty one and the
    "Starting bumpfee" one, neither of them a request) are not
    recorded. *)
Definition startup (w : World) : list Value * State :=
  let s0 := mkState ∅ (-1) w [] in
  let '(walletListResp, s1) := rpc (URL config) "listwallets" [] s0 in
  match walletListResp with
  | Some (RpcOk walletListResp) =>
      match asArray walletListResp with
      | Some wallets => (wallets, s1)
      | None => ([], snd (logf (LError "Invalid wallet list response") s1))
      end
  | _ =>
      (* [err != nil]: the result is nil, so the assertion fails as well *)
      let s2 := snd (logf (LError "Error listing wallets") s1) in
      ([], snd (logf (LError "Invalid wallet list response") s2))
  end.

(** The first [n] iterations of the loop. *)
Fixpoint pollCycles (wallets : list Value) (n : nat) (s : State) : State :=
  match n with
  | O => s
  | S n' => pollCycles wallets n' (snd (pollCycle wallets s))
  end.

Definition main (w : World) (n : nat) : State :=
  let '(wallets, s) := startup w in pollCycles wallets n s.

(** *** Names for what the statements below talk about *)

(** The candidate rate and the age of an entry under the policy. *)
Definition candidate (info : TxInfo) : float :=
  newFeerate_of (CurrentFeerate info) (FeeBumpAmount config) (FeeCap config).
Definition ageBlocks (currentBlockCount : float) (info : TxInfo) : Z :=
  sub64 (int_of_float currentBlockCount) (FirstBlockHeight info).
Definition newFeerateRounded (info : TxInfo) : Z :=
  int_of_float (math_Round (candidate info)).

(** The state with more events on its trace. *)
Definition logged (s : State) (new : list Event) : State :=
  mkState (txInfos s) (lastBlockHeight s) (world s) (trace s ++ new).

(** The fee and the raw transaction of a [gettransaction] answer, when it
    has both. *)
Definition txDetailOf (r : RpcResult) : option (float * string) :=
  match r with
  | RpcOk v =>
      match asObject v with
      | Some getTxInfo =>
          match asFloat64 (index getTxInfo "fee"), asString (index getTxInfo "hex") with
          | Some fee, Some hex => Some (fee, hex)
          | _, _ => None
          end
      | None => None
      end
  | RpcErr _ => None
  end.

(** The outputs of a [listunspent] answer, when it is a list. *)
Definition unspentOf (r : RpcResult) : option (list Value) :=
  match r with
  | RpcOk v => asArray v
  | RpcErr _ => None
  end.

(** The id carried by a scanned output. *)
Definition txidOf (u : Value) : option string :=
  match asObject u with
  | Some unspentInfo => asString (index unspentInfo "txid")
  | None => None
  end.

Definition walletUrlOf (walletName : string) : string :=
  (URL config ++ "/wallet/" ++ walletName)%string.

(** *** The paths through the loop body, as relations

    Each constructor is one path of the source through lines 266-366; the
    lemmas [track_paths], [escalate_paths] and [processUnspent_paths]
    below show that the functions above always take one of them. *)

(** The state with more events on its trace and the node moved on. *)
Definition answered (s : State) (w' : World) (new : list Event) : State :=
  mkState (txInfos s) (lastBlockHeight s) w' (trace s ++ new).

Inductive Tracked (walletName walletUrl : string) (cur : float) (txid : string)
    (s : State) : option TxInfo -> State -> Prop :=
  | tracked_known info :
      txInfos s !! txid = Some info ->
      Tracked walletName walletUrl cur txid s (Some info) s
  | tracked_new r w' fee hex :
      txInfos s !! txid = None ->
      sendRpcRequest (world s) walletUrl (Username config) (Password config)
        "gettransaction" [VStr txid] = (r, w') ->
      txDetailOf r = Some (fee, hex) ->
      Tracked walletName walletUrl cur txid s
        (Some (mkTxInfo walletName (int_of_float cur) (feerate_of fee hex)))
        (mkState
           (<[txid := mkTxInfo walletName (int_of_float cur) (feerate_of fee hex)]> (txInfos s))
           (lastBlockHeight s) w'
           (trace s ++ [ERpc walletUrl "gettransaction" [VStr txid];
                        ELog (LFoundNew walletName txid (feerate_of fee hex))]))
  | tracked_fail r w' msg :
      txInfos s !! txid = None ->
      sendRpcRequest (world s) walletUrl (Username config) (Password config)
        "gettransaction" [VStr txid] = (r, w') ->
      txDetailOf r = None ->
      Tracked walletName walletUrl cur txid s None
        (answered s w' [ERpc walletUrl "gettransaction" [VStr txid]; ELog (LError msg)]).

Inductive Escalated (walletUrl : string) (cur : float) (txid : string) (info : TxInfo)
    (s : State) : State -> Prop :=
  | escalated_young :
      (BumpfeeBlockInterval config <=? ageBlocks cur info) = false ->
      Escalated walletUrl cur txid info s s
  | escalated_small :
      (BumpfeeBlockInterval config <=? ageBlocks cur info) = true ->
      (1 <=? candidate info - CurrentFeerate info)%float = false ->
      Escalated walletUrl cur txid info s (logged s [ELog LNoBumped])
  | escalated_dry :
      (BumpfeeBlockInterval config <=? ageBlocks cur info) = true ->
      (1 <=? candidate info - CurrentFeerate info)%float = true ->
      IsBump config = false ->
      Escalated walletUrl cur txid info s
        (mkState (delete txid (txInfos s)) (lastBlockHeight s) (world s)
           (trace s ++ [ELog (LBumpfee txid (newFeerateRounded info));
                        ELog (LIsBumpFalse txid);
                        ELog (LSimulated txid (candidate info))]))
  | escalated_bumped r w' newTxid :
      (BumpfeeBlockInterval config <=? ageBlocks cur info) = true ->
      (1 <=? candidate info - CurrentFeerate info)%float = true ->
      IsBump config = true ->
      sendRpcRequest (world s) walletUrl (Username config) (Password config)
        "bumpfee" (bumpfeeParams txid (newFeerateRounded info)) = (r, w') ->
      replacementId r = Some newTxid ->
      Escalated walletUrl cur txid info s
        (mkState (delete txid (txInfos s)) (lastBlockHeight s) w'
           (trace s ++ [ELog (LBumpfee txid (newFeerateRounded info));
                        ERpc walletUrl "bumpfee" (bumpfeeParams txid (newFeerateRounded info));
                        ELog (LNewTxid newTxid (newFeerateRounded info))]))
  | escalated_failed r w' msg :
      (BumpfeeBlockInterval config <=? ageBlocks cur info) = true ->
      (1 <=? candidate info - CurrentFeerate info)%float = true ->
      IsBump config = true ->
      sendRpcRequest (world s) walletUrl (Username config) (Password config)
        "bumpfee" (bumpfeeParams txid (newFeerateRounded info)) = (r, w') ->
      replacementId r = None ->
      Escalated walletUrl cur txid info s
        (answered s w' [ELog (LBumpfee txid (newFeerateRounded info));
                        ERpc walletUrl "bumpfee" (bumpfeeParams txid (newFeerateRounded info));
                        ELog (LError msg)]).

(** The age reports of one output's iteration, from the state [s] left by
    [track]. *)
Definition reportsAt (walletName : string) (cur : float) (s : State) : list Event :=
  if negb (int_of_float cur =? lastBlockHeight s) && negb (lastBlockHeight s =? -1)
  then ageReports walletName (int_of_float cur) (txInfos s)
  else [].

Inductive Stepped (walletName walletUrl : string) (cur : float) (u : Value)
    (s : State) : State -> Prop :=
  | stepped_invalid msg :
      txidOf u = None ->
      Stepped walletName walletUrl cur u s (logged s [ELog (LError msg)])
  | stepped_untracked txid s1 :
      txidOf u = Some txid ->
      Tracked walletName walletUrl cur txid s None s1 ->
      Stepped walletName walletUrl cur u s s1
  | stepped_decided txid info s1 s' :
      txidOf u = Some txid ->
      Tracked walletName walletUrl cur txid s (Some info) s1 ->
      Escalated walletUrl cur txid info (logged s1 (reportsAt walletName cur s1)) s' ->
      Stepped walletName walletUrl cur u s s'.

(** *** Relations between the states of a run, for the statements below *)

(** The entry of an id whose candidate does not clear the minimum
    increment survives every path, and no path asks to bump it. *)
Definition keptUnbumped (k : string) (info : TxInfo) (s s' : State) : Prop :=
  txInfos s !! k = Some info ->
  txInfos s' !! k = Some info /\
  exists new, trace s' = (trace s ++ new)%list /\ count (isBumpfeeOf k) new = 0%nat.

(** The trace shows the escalation of [k]: the dry-run line, or the
    [bumpfee] request for [k] and the line with the replacement id. *)
Definition escalationOf (k : string) (new : list Event) : Prop :=
  (IsBump config = false /\ In (ELog (LIsBumpFalse k)) new) \/
  (IsBump config = true /\
   exists url rounded newTxid,
     In (ERpc url "bumpfee" (bumpfeeParams k rounded)) new /\
     In (ELog (LNewTxid newTxid rounded)) new).

(** What one step may do to the store: leave the entry of an id as it
    is, create it, or remove it on the escalation path. *)
Definition lawful (s s' : State) : Prop :=
  exists new, trace s' = (trace s ++ new)%list /\
  forall k,
    txInfos s' !! k = txInfos s !! k \/
    (txInfos s !! k = None /\ is_Some (txInfos s' !! k)) \/
    (is_Some (txInfos s !! k) /\ txInfos s' !! k = None /\ escalationOf k new).

(** The steps of the main loop: one iteration over an output, or any
    other statement, which leaves the store alone. *)
Inductive Atomic : State -> State -> Prop :=
  | atomic_output walletName walletUrl cur u s :
      Atomic s (snd (processUnspent walletName walletUrl cur u s))
  | atomic_other s s' :
      txInfos s' = txInfos s -> Atomic s s'.

(** The events that are no age report. *)
Definition noReport (new : list Event) : Prop :=
  forallb (fun e => negb (isAgeReport e)) new = true.

(** While the cursor is the sentinel, it stays so through the loop over
    the wallets and nothing reports an age. *)
Definition unreported (s s' : State) : Prop :=
  lastBlockHeight s = -1 ->
  lastBlockHeight s' = -1 /\ exists new, trace s' = (trace s ++ new)%list /\ noReport new.


(** The scan request of a wallet. *)
Definition scanOf (walletName : string) : Event :=
  ERpc (walletUrlOf walletName) "listunspent"
    [VInt 0; VInt 0; VArr []; VBool true; queryOptions].

(** *** What the loop may emit *)

(** The events of the main loop, once the wallets are enumerated: log
    lines, the sleep, the height request to the node, and the scan,
    detail and bump requests to the sub-URL of an enumerated wallet. *)
Inductive LoopEvent (wallets : list Value) : Event -> Prop :=
  | loop_log l : LoopEvent wallets (ELog l)
  | loop_sleep : LoopEvent wallets (ESleep (mul64 (BlockCheckInterval config) second))
  | loop_height : LoopEvent wallets (ERpc (URL config) "getblockcount" [])
  | loop_scan name :
      In (VStr name) wallets -> LoopEvent wallets (scanOf name)
  | loop_detail name txid :
      In (VStr name) wallets ->
      LoopEvent wallets (ERpc (walletUrlOf name) "gettransaction" [VStr txid])
  | loop_bump name txid rounded :
      In (VStr name) wallets ->
      LoopEvent wallets (ERpc (walletUrlOf name) "bumpfee" (bumpfeeParams txid rounded)).

(** The trace of [s'] continues the trace of [s] with loop events. *)
Definition emits (wallets : list Value) (s s' : State) : Prop :=
  exists new, trace s' = trace s ++ new /\ Forall (LoopEvent wallets) new.

(** The events of the loop over the wallets that no iteration over an
    output emits: the scan request of an enumerated wallet, and an
    error line. *)
Inductive ScanEvent (wallets : list Value) : Event -> Prop :=
  | scan_error msg : ScanEvent wallets (ELog (LError msg))
  | scan_request name : In (VStr name) wallets -> ScanEvent wallets (scanOf name).

Definition isListwallets (e : Event) : bool :=
  match e with
  | ERpc _ method _ => String.eqb method "listwallets"
  | _ => false
  end.

Definition isNewBlock (e : Event) : bool :=
  match e with ELog (LNewBlock _) => true | _ => false end.

(** What the loop over the wallets can emit: anything but the
    new-block line, the sleep and the requests to the node itself. *)
Definition isInner (e : Event) : bool :=
  match e with
  | ERpc _ method _ =>
      negb (String.eqb method "getblockcount") && negb (String.eqb method "listwallets")
  | ELog (LNewBlock _) => false
  | ELog _ => true
  | ESleep _ => false
  end.

(** The trace of [s'] continues the trace of [s] with such events. *)
Definition inner (s s' : State) : Prop :=
  exists new, trace s' = trace s ++ new /\ forallb isInner new = true.

(** The wallet names of a [listwallets] answer, when it is a list. *)
Definition walletsOf (r : RpcResult) : option (list Value) :=
  match r with
  | RpcOk v => asArray v
  | RpcErr _ => None
  end.

(** The entry of [k] is as it was, and [k] was neither proposed for
    escalation nor bumped. *)
Definition dormant (k : string) (info : TxInfo) (s s' : State) : Prop :=
  txInfos s !! k = Some info ->
  txInfos s' !! k = Some info /\
  exists new,
    trace s' = trace s ++ new /\
    count (isBumpfeeOf k) new = 0%nat /\
    count (isProposalOf k) new = 0%nat.

(** The events of one iteration over an output of the wallet scanned at
    [walletUrl]: log lines other than the new-block line, and the detail
    and bump requests to that wallet. *)
Inductive OutputEvent (walletUrl : string) : Event -> Prop :=
  | output_log l : isNewBlock (ELog l) = false -> OutputEvent walletUrl (ELog l)
  | output_detail txid :
      OutputEvent walletUrl (ERpc walletUrl "gettransaction" [VStr txid])
  | output_bump txid rounded :
      OutputEvent walletUrl (ERpc walletUrl "bumpfee" (bumpfeeParams txid rounded)).

(** Every entry of the store belongs to an enumerated wallet, was first
    seen at a height that fits an [int], and carries a fee estimate. *)
Definition entriesOf (wallets : list Value) (infos : gmap string TxInfo) : Prop :=
  forall k info,
    infos !! k = Some info ->
    In (VStr (WalletName info)) wallets /\
    in_int64 (FirstBlockHeight info) = true /\
    exists fee hex, CurrentFeerate info = feerate_of fee hex.

(** *** The listings of an id in a cycle *)

(** The output carries the id [k]. *)
Definition listsId (k : string) (u : Value) : bool :=
  match txidOf u with
  | Some txid => String.eqb txid k
  | None => false
  end.

(** The number of outputs carrying [k] in the answer that the scan of
    [wallet] gets from the state [s] (none when the name is no string
    or the answer no list). *)
Definition scanListings (k : string) (wallet : Value) (s : State) : nat :=
  match asString wallet with
  | Some walletName =>
      match unspentOf
              (fst (sendRpcRequest (world s) (walletUrlOf walletName)
                      (Username config) (Password config) "listunspent"
                      [VInt 0; VInt 0; VArr []; VBool true; queryOptions])) with
      | Some unspent => length (List.filter (listsId k) unspent)
      | None => O
      end
  | None => O
  end.

(** The number of outputs carrying [k] that the scans of one pass over
    the wallets return, each scan asked from the state that the wallets
    before it left. *)
Fixpoint listings (k : string) (cur : float) (wallets : list Value) (s : State) : nat :=
  match wallets with
  | [] => O
  | wallet :: rest =>
      (scanListings k wallet s + listings k cur rest (snd (processWallet cur wallet s)))%nat
  end.

(** The entry of [k] is as before and no [bumpfee] was requested for it. *)
Definition idle (k : string) (s s' : State) : Prop :=
  txInfos s' !! k = txInfos s !! k /\
  exists new, trace s' = trace s ++ new /\ List.filter (isBumpfeeOf k) new = [].

(** One [bumpfee] was requested for [k], with the rounded candidate of
    [info]; the entry of [k] is gone, or is [info] as before. *)
Definition bumpedOnce (k : string) (info : TxInfo) (s s' : State) : Prop :=
  exists new url,
    trace s' = trace s ++ new /\
    List.filter (isBumpfeeOf k) new =
      [ERpc url "bumpfee" (bumpfeeParams k (newFeerateRounded info))] /\
    (txInfos s' !! k = None \/ txInfos s' !! k = Some info).

End Monitor.

(** ** The label filter

    The first program of src/unnamed/part_001: it copies to the output
    file the lines of the input file that contain ["label"].  The file
    system is the environment: what reading the configuration, opening
    and scanning the input and creating the output give is an [Env], and
    each [WriteString] on the buffered writer is answered by
    [writeString].  The deferred calls run last, latest first. *)

Module LabelFilter.

Record Config : Type := mkConfig {
  InputFilePath : string;
  OutputFilePath : string
}.

Inductive Result (A : Type) : Type :=
  | Ok (a : A)
  | Err (err : string).
Arguments Ok {A} a.
Arguments Err {A} err.

(** What [scanner.Scan] and [scanner.Text] yield for an opened file, and
    the error [scanner.Err] reports at the end, if any. *)
Record Scanned : Type := mkScanned {
  lines : list string;
  scanErr : option string
}.

Inductive Event : Type :=
  | Println (msg err : string)
  | WriteString (s : string)
  | Flush
  | CloseOutput
  | CloseInput.

(** The one-byte string of Go's ["\n"], the line feed (byte 10). *)
Definition newline : string :=
  String (Ascii.Ascii false true false true false false false false) EmptyString.

(** [strings.HasPrefix(s, sub)] and [strings.Contains(s, sub)]. *)
Fixpoint hasPrefix (s sub : string) : bool :=
  match sub, s with
  | EmptyString, _ => true
  | String c sub', String d s' => Ascii.eqb c d && hasPrefix s' sub'
  | String _ _, EmptyString => false
  end.

Fixpoint contains (s sub : string) : bool :=
  hasPrefix s sub ||
  match s with
  | EmptyString => false
  | String _ s' => contains s' sub
  end.

Section Run.

Context {Sink : Type}.

Record Env : Type := mkEnv {
  configFile : Result string;                  (* ioutil.ReadFile("config.yaml") *)
  unmarshal : string -> Result Config;         (* yaml.Unmarshal *)
  openInput : string -> Result Scanned;        (* os.Open, then the scanner *)
  createOutput : string -> Result Sink;        (* os.Create, then the writer *)
  writeString : Sink -> string -> option string * Sink
}.

Variable env : Env.

(** Lines 52-61: the events of the loop, and whether it ran to its end
    ([false]: it returned on a failed write). *)
Fixpoint scanLoop (ls : list string) (sink : Sink) : list Event * bool :=
  match ls with
  | [] => ([], true)
  | line :: rest =>
      if contains line "label" then
        match writeString env sink (line ++ newline)%string with
        | (Some err, _) =>
            ([WriteString (line ++ newline)%string;
              Println "Error writing to output file:" err], false)
        | (None, sink') =>
            let '(events, finished) := scanLoop rest sink' in
            (WriteString (line ++ newline)%string :: events, finished)
        end
      else scanLoop rest sink
  end.

(** Lines 19-66. *)
Definition main : list Event :=
  match configFile env with
  | Err err => [Println "Error reading config file:" err]
  | Ok bytes =>
      match unmarshal env bytes with
      | Err err => [Println "Error parsing config file:" err]
      | Ok config =>
          match openInput env (InputFilePath config) with
          | Err err => [Println "Error opening input file:" err]
          | Ok scanned =>
              match createOutput env (OutputFilePath config) with
              | Err err => [Println "Error creating output file:" err; CloseInput]
              | Ok sink =>
                  let '(events, finished) := scanLoop (lines scanned) sink in
                  events ++
                  (if finished then
                     match scanErr scanned with
                     | Some err => [Println "Error reading input file:" err]
                     | None => []
                     end
                   else []) ++
                  [Flush; CloseOutput; CloseInput]
              end
          end
      end
  end.

End Run.

(** The strings handed to [WriteString], in order. *)
Fixpoint writesOf (events : list Event) : list string :=
  match events with
  | [] => []
  | WriteString s :: rest => s :: writesOf rest
  | _ :: rest => writesOf rest
  end.

(** The lines that contain ["label"], each with its newline. *)
Definition labelled (ls : list string) : list string :=
  (fun line => (line ++ newline)%string) <$> List.filter (fun line => contains line "label") ls.

Definition isCleanup (e : Event) : bool :=
  match e with
  | Flush | CloseOutput | CloseInput => true
  | _ => false
  end.

End LabelFilter.

(** ** A scripted ledger node, for running the monitor on concrete inputs *)

Module Scenario.

(** The answers still to come for [getblockcount] and [bumpfee]; the
    other methods answer the same way every time. *)
Record Node : Type := mkNode {
  heights : list RpcResult;
  bumps : list RpcResult
}.

Fixpoint zeros (n : nat) : string :=
  match n with
  | O => EmptyString
  | S n' => ("0" ++ zeros n')%string
  end.

(** A transaction of 200 bytes paying a fee of 0.0001. *)
Definition txDetail : Value :=
  VObj (<[ "fee" := VNum (-0.0001)%float ]> {[ "hex" := VStr (zeros 400) ]}).

Definition output (txid : string) : Value := VObj {[ "txid" := VStr txid ]}.

Definition answer (wallets : list string) (unspent : string -> RpcResult)
    (w : Node) (url user password method : string) (params : list Value)
    : RpcResult * Node :=
  if String.eqb method "listwallets" then (RpcOk (VArr (VStr <$> wallets)), w)
  else if String.eqb method "getblockcount" then
    match heights w with
    | [] => (RpcErr "connection refused", w)
    | h :: hs => (h, mkNode hs (bumps w))
    end
  else if String.eqb method "listunspent" then (unspent url, w)
  else if String.eqb method "gettransaction" then (RpcOk txDetail, w)
  else if String.eqb method "bumpfee" then
    match bumps w with
    | [] => (RpcErr "bumpfee failed", w)
    | b :: bs => (b, mkNode (heights w) bs)
    end
  else (RpcErr "Method not found", w).

Definition height (h : float) : RpcResult := RpcOk (VNum h).

(** Poll every 10 seconds, escalate after 5 blocks, by 2, up to the cap. *)
Definition policy (isBump : bool) (feeCap : float) : Config :=
  mkConfig "http://node" "user" "secret" isBump 10 5 2 feeCap.

(** One wallet; every scan lists the given outputs. *)
Definition node (outputs : list Value) :=
  answer ["w1"] (fun _ => RpcOk (VArr outputs)).

(** The state of the specification's scenario: ["t"] tracked at height
    100 with the rate 5, the cursor at 105. *)
Definition tracked5 (w : Node) : @State Node :=
  mkState {[ "t" := mkTxInfo "w1" 100 5 ]} 105 w [].

Definition replaced : RpcResult := RpcOk (VObj {[ "txid" := VStr "t2" ]}).

(** The other scenario of the specification: ["t"] tracked at height
    100 with the rate 9.5, so that the cap of 10 leaves a candidate only
    0.5 above it. *)
Definition tracked95 (w : Node) : @State Node :=
  mkState {[ "t" := mkTxInfo "w1" 100 9.5 ]} 100 w [].


(** The node of [node], except that one method always fails. *)
Definition nodeWithout (failed : string) (outputs : list Value)
    (w : Node) (url user password method : string) (params : list Value)
    : RpcResult * Node :=
  if String.eqb method failed then (RpcErr "timeout", w)
  else node outputs w url user password method params.

(** The policy with an interval of zero blocks. *)
Definition eagerPolicy : Config :=
  mkConfig "http://node" "user" "secret" true 10 0 2 100.

(** An empty store with the cursor at 105. *)
Definition untracked (w : Node) : @State Node := mkState ∅ 105 w [].

(** A label filter run: three lines, the second without "label"; the
    sink keeps what it is given. *)
Definition labelEnv (scanErr : option string) : @LabelFilter.Env (list string) :=
  LabelFilter.mkEnv
    (LabelFilter.Ok "inputFilePath: in.txt")
    (fun _ => LabelFilter.Ok (LabelFilter.mkConfig "in.txt" "out.txt"))
    (fun _ => LabelFilter.Ok
                (LabelFilter.mkScanned ["label a"; "other"; "my label"] scanErr))
    (fun _ => LabelFilter.Ok [])
    (fun sink x => (None, sink ++ [x])).

End Scenario.


(** ** The order of binary64 *)

Ltac cmp_cases :=
  repeat match goal with
  | |- context [Z.compare ?a ?b] => destruct (Z.compare_spec a b); subst
  | H : context [Z.compare ?a ?b] |- _ => destruct (Z.compare_spec a b); subst
  | |- context [Pos.compare_cont Eq ?a ?b] =>
      change (Pos.compare_cont Eq a b) with (Pos.compare a b)
  | H : context [Pos.compare_cont Eq ?a ?b] |- _ =>
      change (Pos.compare_cont Eq a b) with (Pos.compare a b) in H
  | |- context [Pos.compare ?a ?b] => destruct (Pos.compare_spec a b); subst
  | H : context [Pos.compare ?a ?b] |- _ => destruct (Pos.compare_spec a b); subst
  end; simpl in *; try discriminate; try reflexivity; try lia.

Ltac sf_cases x := destruct x as [[]|[]| |[] ? ?].

Lemma SFltb_not_leb x y : SFltb x y = true -> SFleb y x = false.
Proof.
  unfold SFltb, SFleb, SFcompare.
  sf_cases x; sf_cases y; simpl; try discriminate; try reflexivity; cmp_cases.
Qed.

Lemma SFleb_ltb_trans x c n :
  SFleb x c = true -> SFltb c n = true -> SFleb x n = true.
Proof.
  unfold SFltb, SFleb, SFcompare.
  sf_cases x; sf_cases c; sf_cases n; simpl;
    try discriminate; try reflexivity; cmp_cases.
Qed.

Lemma SFleb_not_ltb_trans x n c :
  SFleb x n = true -> c <> S754_nan -> SFltb c n = false -> SFleb x c = true.
Proof.
  unfold SFltb, SFleb, SFcompare.
  sf_cases x; sf_cases c; sf_cases n; simpl;
    try discriminate; try reflexivity; try congruence; cmp_cases.
Qed.

Lemma ltb_not_leb (x y : float) : (x <? y)%float = true -> (y <=? x)%float = false.
Proof. rewrite FloatAxioms.ltb_spec, FloatAxioms.leb_spec. apply SFltb_not_leb. Qed.

Lemma not_nan_spec (c : float) : is_nan c = false -> Prim2SF c <> S754_nan.
Proof.
  unfold is_nan. rewrite FloatAxioms.eqb_spec. intros H E. rewrite E in H. discriminate H.
Qed.

(** The candidate is the greatest lower bound of [r + a] and a cap that
    is a number. *)
Lemma newFeerate_glb (r a c x : float) :
  is_nan c = false ->
  (x <=? newFeerate_of r a c)%float = (x <=? r + a)%float && (x <=? c)%float.
Proof.
  intros Hc. apply not_nan_spec in Hc. unfold newFeerate_of.
  destruct (c <? r + a)%float eqn:Hlt.
  - destruct (x <=? c)%float eqn:Hx.
    + rewrite andb_true_r. symmetry. rewrite FloatAxioms.ltb_spec in Hlt. rewrite FloatAxioms.leb_spec in *.
      eapply SFleb_ltb_trans; eauto.
    + now rewrite andb_false_r.
  - destruct (x <=? r + a)%float eqn:Hx; [|reflexivity].
    simpl. symmetry. rewrite FloatAxioms.ltb_spec in Hlt. rewrite FloatAxioms.leb_spec in *.
    eapply SFleb_not_ltb_trans; eauto.
Qed.

(** ** Running the pieces of the loop body *)

Section MonitorFacts.

Context {World : Type}.
Variable sendRpcRequest :
  World -> string -> string -> string -> string -> list Value -> RpcResult * World.
Variable config : Config.

Abbreviation State := (@State World).
Abbreviation send w url method params :=
  (sendRpcRequest w url (Username config) (Password config) method params).
Abbreviation track := (track sendRpcRequest config).
Abbreviation escalate := (escalate sendRpcRequest config).
Abbreviation processUnspent := (processUnspent sendRpcRequest config).
Abbreviation processWallet := (processWallet sendRpcRequest config).
Abbreviation pollCycle := (pollCycle sendRpcRequest config).
Abbreviation pollCycles := (pollCycles sendRpcRequest config).
Abbreviation candidate := (candidate config).
Abbreviation newFeerateRounded := (newFeerateRounded config).
Abbreviation walletUrlOf := (walletUrlOf config).
Abbreviation escalationOf := (escalationOf config).
Abbreviation lawful := (lawful config).
Abbreviation Atomic := (Atomic sendRpcRequest config).
Abbreviation scanOf := (scanOf config).
Abbreviation LoopEvent := (LoopEvent config).
Abbreviation emits := (emits config).
Abbreviation ScanEvent := (ScanEvent config).
Abbreviation startup := (startup sendRpcRequest config).
Abbreviation main := (main sendRpcRequest config).
Abbreviation scanListings := (scanListings sendRpcRequest config).
Abbreviation listings := (listings sendRpcRequest config).
Abbreviation bumpedOnce := (bumpedOnce config).

Lemma forRange_cons {A} (body : A -> M unit) x l (s : State) :
  snd (forRange body (x :: l) s) = snd (forRange body l (snd (body x s))).
Proof. reflexivity. Qed.

Lemma forRange_app {A} (body : A -> M unit) l1 l2 (s : State) :
  snd (forRange body (l1 ++ l2) s) = snd (forRange body l2 (snd (forRange body l1 s))).
Proof. unfold forRange. simpl. apply fold_left_app. Qed.

Lemma reportAges_run walletName currentBlockCount (s : State) :
  reportAges walletName currentBlockCount s =
    (Some tt, logged s (reportsAt walletName currentBlockCount s)).
Proof.
  unfold reportAges, bind, getLastBlockHeight, getTxInfos, logged, reportsAt.
  destruct (negb _ && negb _).
  2:{ unfold ret. rewrite app_nil_r. now destruct s. }
  unfold forRange, ageReports. f_equal.
  generalize (map_to_list (txInfos s)) as l. clear.
  intros l. revert s. induction l as [|[txid info] l IH]; intros s.
  - simpl. rewrite app_nil_r. now destruct s.
  - simpl fold_left. rewrite IH. destruct (String.eqb_spec (WalletName info) walletName) as [E|E].
    + rewrite filter_cons_True by exact E. simpl. now rewrite <- app_assoc.
    + rewrite filter_cons_False by exact E. reflexivity.
Qed.

(** *** [track] *)

Lemma track_tracked walletName walletUrl cur txid info (s : State) :
  txInfos s !! txid = Some info ->
  track walletName walletUrl cur txid s = (Some info, s).
Proof. intros H. unfold track, bind, getTxInfos. now rewrite H. Qed.

Lemma track_new walletName walletUrl cur txid (s : State) r w' fee hex :
  txInfos s !! txid = None ->
  send (world s) walletUrl "gettransaction" [VStr txid] = (r, w') ->
  txDetailOf r = Some (fee, hex) ->
  track walletName walletUrl cur txid s =
    (Some (mkTxInfo walletName (int_of_float cur) (feerate_of fee hex)),
     mkState (<[txid := mkTxInfo walletName (int_of_float cur) (feerate_of fee hex)]> (txInfos s))
       (lastBlockHeight s) w'
       (trace s ++ [ERpc walletUrl "gettransaction" [VStr txid];
                    ELog (LFoundNew walletName txid (feerate_of fee hex))])).
Proof.
  intros Hnew Hsend Hdet.
  unfold track, bind, getTxInfos, rpc. rewrite Hnew, Hsend.
  unfold txDetailOf in Hdet.
  destruct r as [v|]; [|discriminate].
  destruct (asObject v) as [o|]; [|discriminate]. simpl.
  destruct (asFloat64 (index o "fee")) as [fee'|]; [|discriminate]. simpl.
  destruct (asString (index o "hex")) as [hex'|]; [|discriminate]. simpl.
  injection Hdet as -> ->.
  unfold setTxInfo, logf, emit, ret. simpl. now rewrite <- app_assoc.
Qed.

Lemma track_new_fail walletName walletUrl cur txid (s : State) r w' :
  txInfos s !! txid = None ->
  send (world s) walletUrl "gettransaction" [VStr txid] = (r, w') ->
  txDetailOf r = None ->
  exists msg,
    track walletName walletUrl cur txid s =
      (None, mkState (txInfos s) (lastBlockHeight s) w'
               (trace s ++ [ERpc walletUrl "gettransaction" [VStr txid]; ELog (LError msg)])).
Proof.
  intros Hnew Hsend Hdet.
  unfold track, bind, getTxInfos, rpc. rewrite Hnew, Hsend.
  unfold txDetailOf in Hdet.
  destruct r as [v|]; simpl.
  2:{ eexists. unfold logf, emit, continue. simpl. now rewrite <- app_assoc. }
  destruct (asObject v) as [o|]; simpl.
  2:{ eexists. unfold logf, emit, continue. simpl. now rewrite <- app_assoc. }
  destruct (asFloat64 (index o "fee")) as [fee'|]; simpl.
  2:{ eexists. unfold logf, emit, continue. simpl. now rewrite <- app_assoc. }
  destruct (asString (index o "hex")) as [hex'|]; simpl; [discriminate|].
  eexists. unfold logf, emit, continue. simpl. now rewrite <- app_assoc.
Qed.

(** *** [escalate] *)

Lemma escalate_young walletUrl cur txid info (s : State) :
  (BumpfeeBlockInterval config <=? ageBlocks cur info) = false ->
  escalate walletUrl cur txid info s = (Some tt, s).
Proof. intros H. unfold escalate. unfold ageBlocks in H. now rewrite H. Qed.

Lemma escalate_small walletUrl cur txid info (s : State) :
  (BumpfeeBlockInterval config <=? ageBlocks cur info) = true ->
  (1 <=? candidate info - CurrentFeerate info)%float = false ->
  escalate walletUrl cur txid info s = (Some tt, logged s [ELog LNoBumped]).
Proof.
  intros Ha Hd. unfold escalate. unfold ageBlocks in Ha. unfold candidate in Hd.
  now rewrite Ha, Hd.
Qed.

Lemma escalate_dry walletUrl cur txid info (s : State) :
  (BumpfeeBlockInterval config <=? ageBlocks cur info) = true ->
  (1 <=? candidate info - CurrentFeerate info)%float = true ->
  IsBump config = false ->
  escalate walletUrl cur txid info s =
    (Some tt,
     mkState (delete txid (txInfos s)) (lastBlockHeight s) (world s)
       (trace s ++ [ELog (LBumpfee txid (newFeerateRounded info));
                    ELog (LIsBumpFalse txid);
                    ELog (LSimulated txid (candidate info))])).
Proof.
  intros Ha Hd Hb. unfold escalate. unfold ageBlocks in Ha. unfold candidate in Hd.
  rewrite Ha, Hd, Hb. unfold bind, logf, emit, deleteTxInfo. simpl.
  now rewrite <- !app_assoc.
Qed.

Lemma escalate_bumped walletUrl cur txid info (s : State) r w' newTxid :
  (BumpfeeBlockInterval config <=? ageBlocks cur info) = true ->
  (1 <=? candidate info - CurrentFeerate info)%float = true ->
  IsBump config = true ->
  send (world s) walletUrl "bumpfee" (bumpfeeParams txid (newFeerateRounded info)) = (r, w') ->
  replacementId r = Some newTxid ->
  escalate walletUrl cur txid info s =
    (Some tt,
     mkState (delete txid (txInfos s)) (lastBlockHeight s) w'
       (trace s ++ [ELog (LBumpfee txid (newFeerateRounded info));
                    ERpc walletUrl "bumpfee" (bumpfeeParams txid (newFeerateRounded info));
                    ELog (LNewTxid newTxid (newFeerateRounded info))])).
Proof.
  intros Ha Hd Hb Hsend Hid. unfold escalate. unfold ageBlocks in Ha.
  unfold candidate in Hd. rewrite Ha, Hd, Hb.
  unfold bind, logf, emit, rpc. simpl.
  unfold newFeerateRounded, candidate in Hsend. rewrite Hsend.
  unfold replacementId in Hid.
  destruct r as [v|]; [|discriminate].
  destruct (asObject v) as [o|]; [|discriminate]. simpl. rewrite Hid. simpl.
  unfold deleteTxInfo. simpl. now rewrite <- !app_assoc.
Qed.

Lemma escalate_bump_failed walletUrl cur txid info (s : State) r w' :
  (BumpfeeBlockInterval config <=? ageBlocks cur info) = true ->
  (1 <=? candidate info - CurrentFeerate info)%float = true ->
  IsBump config = true ->
  send (world s) walletUrl "bumpfee" (bumpfeeParams txid (newFeerateRounded info)) = (r, w') ->
  replacementId r = None ->
  exists msg,
    escalate walletUrl cur txid info s =
      (None,
       mkState (txInfos s) (lastBlockHeight s) w'
         (trace s ++ [ELog (LBumpfee txid (newFeerateRounded info));
                      ERpc walletUrl "bumpfee" (bumpfeeParams txid (newFeerateRounded info));
                      ELog (LError msg)])).
Proof.
  intros Ha Hd Hb Hsend Hid. unfold escalate. unfold ageBlocks in Ha.
  unfold candidate in Hd. rewrite Ha, Hd, Hb.
  unfold bind, logf, emit, rpc. simpl.
  unfold newFeerateRounded, candidate in Hsend. rewrite Hsend.
  unfold replacementId in Hid.
  destruct r as [v|]; simpl.
  2:{ eexists. unfold continue. now rewrite <- !app_assoc. }
  destruct (asObject v) as [o|]; simpl.
  2:{ eexists. unfold continue. now rewrite <- !app_assoc. }
  rewrite Hid. simpl. eexists. unfold continue. now rewrite <- !app_assoc.
Qed.

(** *** Every run takes one of the paths *)

Lemma track_paths walletName walletUrl cur txid (s : State) :
  Tracked sendRpcRequest config walletName walletUrl cur txid s
    (fst (track walletName walletUrl cur txid s))
    (snd (track walletName walletUrl cur txid s)).
Proof.
  destruct (txInfos s !! txid) as [info|] eqn:Hk.
  - rewrite (track_tracked _ _ _ _ _ _ Hk). now constructor.
  - destruct (send (world s) walletUrl "gettransaction" [VStr txid]) as [r w'] eqn:Hs.
    destruct (txDetailOf r) as [[fee hex]|] eqn:Hd.
    + rewrite (track_new _ _ _ _ _ _ _ _ _ Hk Hs Hd). simpl. econstructor; eauto.
    + destruct (track_new_fail walletName _ cur _ _ _ _ Hk Hs Hd) as [msg ->].
      simpl. econstructor; eauto.
Qed.

Lemma escalate_paths walletUrl cur txid info (s : State) :
  Escalated sendRpcRequest config walletUrl cur txid info s
    (snd (escalate walletUrl cur txid info s)).
Proof.
  destruct (BumpfeeBlockInterval config <=? ageBlocks cur info) eqn:Ha.
  2:{ rewrite escalate_young by exact Ha. now constructor. }
  destruct (1 <=? candidate info - CurrentFeerate info)%float eqn:Hd.
  2:{ rewrite escalate_small by assumption. now constructor. }
  destruct (IsBump config) eqn:Hb.
  2:{ rewrite escalate_dry by assumption. now constructor. }
  destruct (send (world s) walletUrl "bumpfee" (bumpfeeParams txid (newFeerateRounded info)))
    as [r w'] eqn:Hs.
  destruct (replacementId r) as [newTxid|] eqn:Hr.
  - rewrite (escalate_bumped _ _ _ _ _ _ _ _ Ha Hd Hb Hs Hr). simpl. econstructor; eauto.
  - destruct (escalate_bump_failed _ _ _ _ _ _ _ Ha Hd Hb Hs Hr) as [msg ->].
    simpl. econstructor; eauto.
Qed.

Lemma processUnspent_invalid walletName walletUrl cur u (s : State) :
  txidOf u = None ->
  exists msg, processUnspent walletName walletUrl cur u s = (None, logged s [ELog (LError msg)]).
Proof.
  unfold txidOf, processUnspent, bind. intros H.
  destruct (asObject u) as [o|]; simpl.
  - rewrite H. simpl. eexists. reflexivity.
  - eexists. reflexivity.
Qed.

Lemma processUnspent_valid walletName walletUrl cur u txid (s : State) :
  txidOf u = Some txid ->
  processUnspent walletName walletUrl cur u s =
    match track walletName walletUrl cur txid s with
    | (Some info, s1) =>
        escalate walletUrl cur txid info (logged s1 (reportsAt walletName cur s1))
    | (None, s1) => (None, s1)
    end.
Proof.
  unfold txidOf, processUnspent. intros H.
  destruct (asObject u) as [o|]; [|discriminate].
  unfold bind at 1. simpl. unfold bind at 1. rewrite H. simpl.
  unfold bind at 1. destruct (track _ _ _ _ _) as [[info|] s1]; [|reflexivity].
  unfold bind. now rewrite reportAges_run.
Qed.

Lemma processUnspent_paths walletName walletUrl cur u (s : State) :
  Stepped sendRpcRequest config walletName walletUrl cur u s
    (snd (processUnspent walletName walletUrl cur u s)).
Proof.
  destruct (txidOf u) as [txid|] eqn:Hu.
  - rewrite (processUnspent_valid _ _ _ _ _ _ Hu).
    pose proof (track_paths walletName walletUrl cur txid s) as Ht.
    destruct (track _ _ _ _ _) as [[info|] s1]; simpl in *.
    + eapply stepped_decided; eauto. apply escalate_paths.
    + eapply stepped_untracked; eauto.
  - destruct (processUnspent_invalid walletName walletUrl cur _ s Hu) as [msg ->].
    simpl. now constructor.
Qed.

(** *** The loops *)

Lemma count_app p l1 l2 : count p (l1 ++ l2) = (count p l1 + count p l2)%nat.
Proof. induction l1 as [|e l1 IH]; simpl; [reflexivity|]. destruct (p e); simpl; now rewrite IH. Qed.

Lemma count_none p l : (forall e, In e l -> p e = false) -> count p l = 0%nat.
Proof.
  induction l as [|e l IH]; simpl; intros H; [reflexivity|].
  rewrite (H e) by now left. apply IH. intros e' He'. apply H. now right.
Qed.

Lemma forRange_rel {A} (R : State -> State -> Prop) (body : A -> M unit) :
  (forall s, R s s) ->
  (forall s1 s2 s3, R s1 s2 -> R s2 s3 -> R s1 s3) ->
  (forall x s, R s (snd (body x s))) ->
  forall l s, R s (snd (forRange body l s)).
Proof.
  intros Hrefl Htrans Hbody l. induction l as [|x l IH]; intros s.
  - apply Hrefl.
  - rewrite forRange_cons. eapply Htrans; [apply Hbody | apply IH].
Qed.

Lemma processWallet_invalid cur wallet (s : State) :
  asString wallet = None ->
  exists msg, processWallet cur wallet s = (None, logged s [ELog (LError msg)]).
Proof. intros H. unfold processWallet, bind. rewrite H. simpl. eexists. reflexivity. Qed.

Lemma processWallet_scan_failed cur wallet walletName (s : State) r w' :
  asString wallet = Some walletName ->
  send (world s) (walletUrlOf walletName) "listunspent"
    [VInt 0; VInt 0; VArr []; VBool true; queryOptions] = (r, w') ->
  unspentOf r = None ->
  exists msg,
    processWallet cur wallet s =
      (None, answered s w'
               [ERpc (walletUrlOf walletName) "listunspent"
                  [VInt 0; VInt 0; VArr []; VBool true; queryOptions];
                ELog (LError msg)]).
Proof.
  intros Hn Hs Hu. unfold processWallet, bind. rewrite Hn. simpl.
  unfold rpc. unfold walletUrlOf in Hs. rewrite Hs.
  destruct r as [v|]; simpl in *.
  - rewrite Hu. simpl. eexists. unfold answered. simpl. now rewrite <- app_assoc.
  - eexists. unfold answered. simpl. now rewrite <- app_assoc.
Qed.

Lemma processWallet_scanned cur wallet walletName (s : State) r w' unspent :
  asString wallet = Some walletName ->
  send (world s) (walletUrlOf walletName) "listunspent"
    [VInt 0; VInt 0; VArr []; VBool true; queryOptions] = (r, w') ->
  unspentOf r = Some unspent ->
  processWallet cur wallet s =
    forRange (processUnspent walletName (walletUrlOf walletName) cur) unspent
      (answered s w'
         [ERpc (walletUrlOf walletName) "listunspent"
            [VInt 0; VInt 0; VArr []; VBool true; queryOptions]]).
Proof.
  intros Hn Hs Hu. unfold processWallet, bind. rewrite Hn. simpl.
  unfold rpc. unfold walletUrlOf in Hs. rewrite Hs.
  destruct r as [v|]; simpl in *; [|discriminate].
  rewrite Hu. reflexivity.
Qed.

(** A relation that holds of every iteration over an output and of every
    step of the code around it holds of the loop over the wallets. *)
Lemma wallets_rel (R : State -> State -> Prop) :
  (forall s, R s s) ->
  (forall s1 s2 s3, R s1 s2 -> R s2 s3 -> R s1 s3) ->
  (forall walletName walletUrl cur u s,
      R s (snd (processUnspent walletName walletUrl cur u s))) ->
  (forall s w' new, forallb isGlue new = true -> R s (answered s w' new)) ->
  forall cur wallets s, R s (snd (forRange (processWallet cur) wallets s)).
Proof.
  intros Hrefl Htrans Hstep Hglue cur. apply (forRange_rel R); try assumption.
  intros wallet s.
  destruct (asString wallet) as [walletName|] eqn:Hn.
  2:{ destruct (processWallet_invalid cur _ s Hn) as [msg ->]. simpl.
      apply (Hglue s (world s) [ELog (LError msg)]). reflexivity. }
  destruct (send (world s) (walletUrlOf walletName) "listunspent"
              [VInt 0; VInt 0; VArr []; VBool true; queryOptions]) as [r w'] eqn:Hs.
  destruct (unspentOf r) as [unspent|] eqn:Hu.
  - rewrite (processWallet_scanned _ _ _ _ _ _ _ Hn Hs Hu).
    eapply Htrans; cycle 1.
    + apply (forRange_rel R); try assumption.
      intros u s1. apply Hstep.
    + apply Hglue. reflexivity.
  - destruct (processWallet_scan_failed cur _ _ s _ _ Hn Hs Hu) as [msg ->]. simpl.
    apply Hglue. reflexivity.
Qed.

(** *** One iteration of the main loop *)

Lemma pollCycle_fetched wallets (s : State) r w' cur :
  send (world s) (URL config) "getblockcount" [] = (r, w') ->
  heightOf r = Some cur ->
  pollCycle wallets s =
    (Some tt,
     let s2 := snd (forRange (processWallet cur) wallets
                      (answered s w' (ERpc (URL config) "getblockcount" []
                                        :: newBlockLine cur (lastBlockHeight s)))) in
     mkState (txInfos s2) (int_of_float cur) (world s2)
       (trace s2 ++ [ESleep (mul64 (BlockCheckInterval config) second)])).
Proof.
  intros Hs Hh. unfold pollCycle, bind, rpc. rewrite Hs.
  destruct r as [v|]; simpl in Hh; [|discriminate]. rewrite Hh. simpl.
  unfold newBlockLine, answered.
  destruct (lastBlockHeight s =? -1) eqn:E1; simpl.
  - rewrite <- ?app_assoc. reflexivity.
  - destruct (negb (int_of_float cur =? lastBlockHeight s)) eqn:E2; simpl.
    + rewrite <- ?app_assoc. reflexivity.
    + reflexivity.
Qed.

Lemma pollCycle_unfetched wallets (s : State) r w' :
  send (world s) (URL config) "getblockcount" [] = (r, w') ->
  heightOf r = None ->
  exists msg,
    pollCycle wallets s =
      (None, answered s w' [ERpc (URL config) "getblockcount" []; ELog (LError msg)]).
Proof.
  intros Hs Hh. unfold pollCycle, bind, rpc. rewrite Hs.
  destruct r as [v|]; simpl in Hh.
  - rewrite Hh. simpl. eexists. unfold answered. simpl. rewrite <- ?app_assoc. reflexivity.
  - simpl. eexists. unfold answered. simpl. rewrite <- ?app_assoc. reflexivity.
Qed.

(** Once the height is fetched, whatever fails afterwards, the iteration
    ends by updating the cursor and sleeping. *)
Lemma pollCycle_ends_with_sleep wallets (s : State) r w' cur :
  send (world s) (URL config) "getblockcount" [] = (r, w') ->
  heightOf r = Some cur ->
  fst (pollCycle wallets s) = Some tt /\
  lastBlockHeight (snd (pollCycle wallets s)) = int_of_float cur /\
  exists before,
    trace (snd (pollCycle wallets s)) =
      before ++ [ESleep (mul64 (BlockCheckInterval config) second)].
Proof.
  intros Hs Hh. rewrite (pollCycle_fetched _ _ _ _ _ Hs Hh).
  cbn [fst snd]. cbv zeta. cbn [lastBlockHeight trace]. eauto.
Qed.

Lemma newBlockLine_glue cur last : forallb isGlue (newBlockLine cur last) = true.
Proof.
  unfold newBlockLine. destruct (last =? -1); [reflexivity|].
  now destruct (negb _).
Qed.

(** A relation that holds of every iteration over an output, of every
    step of the code around it and of the end of an iteration of the main
    loop holds of any number of iterations of the main loop. *)
Lemma pollCycles_rel (R : State -> State -> Prop) :
  (forall s, R s s) ->
  (forall s1 s2 s3, R s1 s2 -> R s2 s3 -> R s1 s3) ->
  (forall walletName walletUrl cur u s,
      R s (snd (processUnspent walletName walletUrl cur u s))) ->
  (forall s w' new, forallb isGlue new = true -> R s (answered s w' new)) ->
  (forall (s : State) h d,
      R s (mkState (txInfos s) h (world s) (trace s ++ [ESleep d]))) ->
  forall wallets n s, R s (pollCycles wallets n s).
Proof.
  intros Hrefl Htrans Hstep Hglue Hend wallets n.
  induction n as [|n IH]; intros s; simpl; [apply Hrefl|].
  eapply Htrans; [|apply IH].
  destruct (send (world s) (URL config) "getblockcount" []) as [r w'] eqn:Hs.
  destruct (heightOf r) as [cur|] eqn:Hh.
  - rewrite (pollCycle_fetched _ _ _ _ _ Hs Hh). simpl.
    eapply Htrans; [|apply Hend].
    eapply Htrans; [|apply (wallets_rel R); assumption].
    apply Hglue. simpl. apply newBlockLine_glue.
  - destruct (pollCycle_unfetched wallets _ _ _ Hs Hh) as [msg ->]. simpl.
    apply Hglue. reflexivity.
Qed.

(** *** What the events of a path can be *)

Lemma count_reportsAt p walletName cur (s : State) :
  (forall w k d, p (ELog (LUnconfirmedFor w k d)) = false) ->
  count p (reportsAt walletName cur s) = 0%nat.
Proof.
  intros Hp. apply count_none. intros e. unfold reportsAt, ageReports.
  destruct (negb _ && negb _); [|intros []].
  rewrite in_map_iff. intros (x & <- & _). apply Hp.
Qed.

Lemma glue_not_bumpfeeOf k e : isGlue e = true -> isBumpfeeOf k e = false.
Proof.
  destruct e as [url method params|l|d]; simpl; try reflexivity.
  intros H. destruct params as [|[] params]; try reflexivity.
  destruct (String.eqb_spec method "getblockcount") as [->|_]; [reflexivity|].
  destruct (String.eqb_spec method "listunspent") as [->|_]; [reflexivity|discriminate].
Qed.

Lemma count_glue p new :
  (forall e, isGlue e = true -> p e = false) ->
  forallb isGlue new = true -> count p new = 0%nat.
Proof.
  intros Hp H. apply count_none. intros e He. apply Hp.
  rewrite forallb_forall in H. now apply H.
Qed.

Lemma keptUnbumped_refl k info (s : State) : keptUnbumped k info s s.
Proof. intros H. split; [exact H|]. exists []. now rewrite app_nil_r. Qed.

Lemma keptUnbumped_trans k info (s1 s2 s3 : State) :
  keptUnbumped k info s1 s2 -> keptUnbumped k info s2 s3 -> keptUnbumped k info s1 s3.
Proof.
  intros H12 H23 H1. destruct (H12 H1) as (H2 & n1 & E1 & C1).
  destruct (H23 H2) as (H3 & n2 & E2 & C2). split; [exact H3|].
  exists (n1 ++ n2). rewrite E2, E1, app_assoc, count_app, C1, C2. now split.
Qed.

Ltac trace_split :=
  simpl; eexists; split; [rewrite <- ?app_assoc; reflexivity|];
  rewrite ?count_app; simpl.

Lemma keptUnbumped_step k info walletName walletUrl cur u (s s' : State) :
  (1 <=? candidate info - CurrentFeerate info)%float = false ->
  Stepped sendRpcRequest config walletName walletUrl cur u s s' ->
  keptUnbumped k info s s'.
Proof.
  intros Hsmall Hstep Hk.
  destruct Hstep as [msg Hu | txid s1 Hu Ht | txid info1 s1 s2 Hu Ht He].
  - split; [exact Hk|]. trace_split. reflexivity.
  - inversion Ht; subst. split; [exact Hk|]. trace_split. reflexivity.
  - assert (Hs1 : txInfos s1 !! k = Some info /\
                  (txid = k -> info1 = info) /\
                  exists new, trace s1 = (trace s ++ new)%list /\ count (isBumpfeeOf k) new = 0%nat).
    { inversion Ht; subst.
      - split; [exact Hk|]. split; [intros ->; congruence|].
        exists []. now rewrite app_nil_r.
      - assert (txid <> k) by congruence.
        split; [simpl; now rewrite lookup_insert_ne|]. split; [congruence|].
        trace_split. reflexivity. }
    destruct Hs1 as (Hk1 & Hsame & n1 & E1 & C1).
    assert (Hrep : count (isBumpfeeOf k) (reportsAt walletName cur s1) = 0%nat)
      by (apply count_reportsAt; reflexivity).
    destruct He as [Ha | Ha Hd | Ha Hd Hb | r w' newTxid Ha Hd Hb Hs Hr | r w' msg Ha Hd Hb Hs Hr];
      simpl.
    + split; [exact Hk1|]. rewrite E1. trace_split. now rewrite C1, Hrep.
    + split; [exact Hk1|]. rewrite E1. trace_split. now rewrite C1, Hrep.
    + assert (txid <> k) by (intros E; rewrite (Hsame E) in Hd; congruence).
      split; [now rewrite lookup_delete_ne|]. rewrite E1. trace_split. now rewrite C1, Hrep.
    + assert (txid <> k) by (intros E; rewrite (Hsame E) in Hd; congruence).
      split; [now rewrite lookup_delete_ne|]. rewrite E1. trace_split.
      rewrite C1, Hrep. simpl. now rewrite (proj2 (String.eqb_neq txid k)).
    + assert (txid <> k) by (intros E; rewrite (Hsame E) in Hd; congruence).
      split; [exact Hk1|]. rewrite E1. trace_split.
      rewrite C1, Hrep. simpl. now rewrite (proj2 (String.eqb_neq txid k)).
Qed.

Lemma keptUnbumped_cycles k info wallets n (s : State) :
  (1 <=? candidate info - CurrentFeerate info)%float = false ->
  keptUnbumped k info s (pollCycles wallets n s).
Proof.
  intros Hsmall. apply (pollCycles_rel (keptUnbumped k info)).
  - apply keptUnbumped_refl.
  - apply keptUnbumped_trans.
  - intros. eapply keptUnbumped_step; eauto. apply processUnspent_paths.
  - intros s0 w' new Hg Hk. split; [exact Hk|]. exists new. split; [reflexivity|].
    apply count_glue; [apply glue_not_bumpfeeOf | exact Hg].
  - intros s0 h d Hk. split; [exact Hk|]. exists [ESleep d]. now split.
Qed.

(** *** The life of a store entry *)

Ltac trace_new :=
  simpl; eexists; split; [rewrite <- ?app_assoc; reflexivity|].

Lemma lawful_step walletName walletUrl cur u (s s' : State) :
  Stepped sendRpcRequest config walletName walletUrl cur u s s' -> lawful s s'.
Proof.
  intros Hstep.
  destruct Hstep as [msg Hu | txid s1 Hu Ht | txid info1 s1 s2 Hu Ht He].
  - trace_new. intros k. now left.
  - inversion Ht; subst. trace_new. intros k. now left.
  - assert (Hs1 : exists n1, trace s1 = (trace s ++ n1)%list /\
              ((txInfos s1 = txInfos s /\ txInfos s !! txid = Some info1) \/
               (txInfos s1 = <[txid := info1]> (txInfos s) /\ txInfos s !! txid = None))).
    { inversion Ht; subst.
      - exists []. rewrite app_nil_r. split; [reflexivity|]. now left.
      - trace_new. now right. }
    destruct Hs1 as (n1 & E1 & Hstore).
    (* the paths that end with the store that [track] left *)
    assert (Hkept : forall k,
              txInfos s1 !! k = txInfos s !! k \/
              (txInfos s !! k = None /\ is_Some (txInfos s1 !! k)) \/
              (is_Some (txInfos s !! k) /\ txInfos s1 !! k = None /\ False)).
    { intros k. destruct Hstore as [[-> _]|[-> Hnone]]; [now left|].
      destruct (decide (k = txid)) as [->|Hne].
      - right. left. split; [exact Hnone|]. rewrite lookup_insert_eq. eauto.
      - left. now rewrite lookup_insert_ne. }
    (* the paths that end with the entry of [txid] deleted *)
    assert (Hdel : forall new, (txInfos s !! txid <> None -> escalationOf txid new) ->
              forall k,
              delete txid (txInfos s1) !! k = txInfos s !! k \/
              (txInfos s !! k = None /\ is_Some (delete txid (txInfos s1) !! k)) \/
              (is_Some (txInfos s !! k) /\ delete txid (txInfos s1) !! k = None /\
               escalationOf k new)).
    { intros new Hesc k. destruct (decide (k = txid)) as [->|Hne].
      - rewrite lookup_delete_eq.
        destruct Hstore as [[_ Hsome]|[_ Hnone]]; [|left; now rewrite Hnone].
        right. right. split; [rewrite Hsome; eauto|]. split; [reflexivity|].
        apply Hesc. congruence.
      - rewrite lookup_delete_ne by congruence.
        destruct Hstore as [[-> _]|[-> Hnone]]; [now left|].
        left. now rewrite lookup_insert_ne. }
    destruct He as [Ha | Ha Hd | Ha Hd Hb | r w' newTxid Ha Hd Hb Hs Hr | r w' msg Ha Hd Hb Hs Hr];
      unfold lawful; eexists;
      (split; [simpl; rewrite E1; rewrite <- ?app_assoc; reflexivity|]); simpl.
    + intros k. destruct (Hkept k) as [?|[?|(_ & _ & [])]]; tauto.
    + intros k. destruct (Hkept k) as [?|[?|(_ & _ & [])]]; tauto.
    + apply Hdel. intros _. left. split; [exact Hb|].
      rewrite !in_app_iff. simpl. tauto.
    + apply Hdel. intros _. right. split; [exact Hb|].
      exists walletUrl, (newFeerateRounded info1), newTxid.
      rewrite !in_app_iff. simpl. tauto.
    + intros k. destruct (Hkept k) as [?|[?|(_ & _ & [])]]; tauto.
Qed.

(** *** Age reports *)

Lemma ageReports_In walletName h (m : gmap string TxInfo) e :
  In e (ageReports walletName h m) <->
  exists k i, m !! k = Some i /\ WalletName i = walletName /\
              e = ELog (LUnconfirmedFor walletName k (sub64 h (FirstBlockHeight i))).
Proof.
  unfold ageReports. rewrite <- list_elem_of_In, list_elem_of_fmap. split.
  - intros ([k i] & -> & Hin). apply list_elem_of_filter in Hin as [Hw Hin].
    apply elem_of_map_to_list in Hin. simpl in *. exists k, i. now rewrite Hw.
  - intros (k & i & Hk & Hw & ->). exists (k, i). simpl. rewrite Hw. split; [reflexivity|].
    apply list_elem_of_filter. split; [exact Hw|]. now apply elem_of_map_to_list.
Qed.

Lemma ageReports_NoDup walletName h (m : gmap string TxInfo) :
  List.NoDup (ageReports walletName h m).
Proof.
  unfold ageReports. apply NoDup_ListNoDup, NoDup_fmap_2_strong.
  - intros [k1 i1] [k2 i2] H1 H2 E. simpl in E. injection E as _ Ek _. subst k2.
    apply list_elem_of_filter in H1 as [_ H1]. apply list_elem_of_filter in H2 as [_ H2].
    apply elem_of_map_to_list in H1. apply elem_of_map_to_list in H2. congruence.
  - apply NoDup_filter, NoDup_map_to_list.
Qed.

Lemma ageReports_filter walletName h (m : gmap string TxInfo) :
  List.filter isAgeReport (ageReports walletName h m) = ageReports walletName h m.
Proof.
  unfold ageReports. induction (filter _ (map_to_list m)) as [|x l IH]; [reflexivity|].
  rewrite fmap_cons. cbn [List.filter isAgeReport]. f_equal. exact IH.
Qed.

Lemma noReport_filter new : noReport new -> List.filter isAgeReport new = [].
Proof.
  unfold noReport. induction new as [|e new IH]; simpl; [reflexivity|].
  destruct (isAgeReport e); simpl; [discriminate|exact IH].
Qed.

Lemma noReport_count new : noReport new -> count isAgeReport new = 0%nat.
Proof.
  unfold noReport. induction new as [|e new IH]; simpl; [reflexivity|].
  destruct (isAgeReport e); simpl; [discriminate|exact IH].
Qed.

Lemma noReport_app n1 n2 : noReport n1 -> noReport n2 -> noReport (n1 ++ n2).
Proof. unfold noReport. rewrite forallb_app. now intros -> ->. Qed.

Lemma tracked_events walletName walletUrl cur txid (s : State) o s1 :
  Tracked sendRpcRequest config walletName walletUrl cur txid s o s1 ->
  lastBlockHeight s1 = lastBlockHeight s /\
  exists n1, trace s1 = (trace s ++ n1)%list /\ noReport n1.
Proof.
  intros Ht. inversion Ht; subst; (split; [reflexivity|]).
  - exists []. now rewrite app_nil_r.
  - eexists. split; reflexivity.
  - eexists. split; reflexivity.
Qed.

Lemma escalated_events walletUrl cur txid info (s s' : State) :
  Escalated sendRpcRequest config walletUrl cur txid info s s' ->
  lastBlockHeight s' = lastBlockHeight s /\
  exists n2, trace s' = (trace s ++ n2)%list /\ noReport n2.
Proof.
  intros He. inversion He; subst; (split; [reflexivity|]).
  - exists []. now rewrite app_nil_r.
  - eexists. split; reflexivity.
  - eexists. split; reflexivity.
  - eexists. split; reflexivity.
  - eexists. split; reflexivity.
Qed.

Lemma unreported_refl (s : State) : unreported s s.
Proof. intros H. split; [exact H|]. exists []. now rewrite app_nil_r. Qed.

Lemma unreported_trans (s1 s2 s3 : State) : unreported s1 s2 -> unreported s2 s3 -> unreported s1 s3.
Proof.
  intros H12 H23 H1. destruct (H12 H1) as (H2 & n1 & E1 & N1).
  destruct (H23 H2) as (H3 & n2 & E2 & N2). split; [exact H3|].
  exists (n1 ++ n2). rewrite E2, E1, app_assoc. split; [reflexivity|].
  now apply noReport_app.
Qed.

Lemma glue_noReport new : forallb isGlue new = true -> noReport new.
Proof.
  unfold noReport. induction new as [|e new IH]; simpl; [reflexivity|].
  intros H. apply andb_true_iff in H as [He H]. rewrite (IH H), andb_true_r.
  destruct e as [| [] |]; simpl in *; congruence.
Qed.

Lemma unreported_step walletName walletUrl cur u (s : State) :
  unreported s (snd (processUnspent walletName walletUrl cur u s)).
Proof.
  intros Hlast.
  destruct (processUnspent_paths walletName walletUrl cur u s)
    as [msg Hu | txid s1 Hu Ht | txid info1 s1 s2 Hu Ht He].
  - split; [exact Hlast|]. eexists. split; reflexivity.
  - apply tracked_events in Ht as (E & n1 & En & N1). split; [congruence|]. eauto.
  - apply tracked_events in Ht as (E & n1 & En & N1).
    apply escalated_events in He as (E2 & n2 & En2 & N2). simpl in *.
    split; [congruence|].
    assert (Hr : reportsAt walletName cur s1 = []).
    { unfold reportsAt. rewrite E, Hlast. simpl. now rewrite andb_false_r. }
    rewrite Hr, app_nil_r in En2. exists (n1 ++ n2). rewrite En2, En, app_assoc.
    split; [reflexivity|]. now apply noReport_app.
Qed.

Lemma sub64_exact a b : in_int64 (a - b) = true -> sub64 a b = a - b.
Proof.
  unfold in_int64, sub64, wrap64, min_int64, max_int64. intros H.
  apply andb_true_iff in H as [H1 H2]. apply Z.leb_le in H1, H2.
  rewrite Z.mod_small; lia.
Qed.

Lemma pollCycle_unreported wallets (s : State) :
  lastBlockHeight s = -1 ->
  exists new, trace (snd (pollCycle wallets s)) = (trace s ++ new)%list /\ noReport new.
Proof.
  intros Hlast.
  destruct (send (world s) (URL config) "getblockcount" []) as [r w'] eqn:Hs.
  destruct (heightOf r) as [cur|] eqn:Hh.
  - rewrite (pollCycle_fetched _ _ _ _ _ Hs Hh). cbn [snd]. cbv zeta. cbn [trace].
    set (s1 := answered s w' _).
    destruct (wallets_rel unreported unreported_refl unreported_trans
                (fun wn wu c u s0 => unreported_step wn wu c u s0)
                (fun s0 w0 new Hg Hl =>
                   conj Hl (ex_intro _ new (conj eq_refl (glue_noReport new Hg))))
                cur wallets s1 Hlast) as (_ & n & En & Nn).
    rewrite En. subst s1. simpl. eexists. split; [rewrite <- !app_assoc; reflexivity|].
    simpl. apply (noReport_app (_ :: _) (n ++ _)).
    + apply (glue_noReport (_ :: _)). simpl. apply newBlockLine_glue.
    + apply noReport_app; [exact Nn|reflexivity].
  - destruct (pollCycle_unfetched wallets _ _ _ Hs Hh) as [msg ->]. simpl.
    eexists. split; reflexivity.
Qed.

(** *** An output of a tracked transaction that qualifies *)

Lemma processUnspent_tracked walletName walletUrl cur u txid info (s : State) :
  txidOf u = Some txid ->
  txInfos s !! txid = Some info ->
  processUnspent walletName walletUrl cur u s =
    escalate walletUrl cur txid info (logged s (reportsAt walletName cur s)).
Proof.
  intros Hu Hk. rewrite (processUnspent_valid _ _ _ _ _ _ Hu).
  now rewrite (track_tracked _ _ _ _ _ _ Hk).
Qed.

Lemma qualifying_apply walletName walletUrl cur u txid info (s : State) r w' :
  txidOf u = Some txid ->
  txInfos s !! txid = Some info ->
  (BumpfeeBlockInterval config <=? ageBlocks cur info) = true ->
  (1 <=? candidate info - CurrentFeerate info)%float = true ->
  IsBump config = true ->
  send (world s) walletUrl "bumpfee" (bumpfeeParams txid (newFeerateRounded info)) = (r, w') ->
  exists line,
    snd (processUnspent walletName walletUrl cur u s) =
      mkState
        (match replacementId r with
         | Some _ => delete txid (txInfos s)
         | None => txInfos s
         end)
        (lastBlockHeight s) w'
        (trace s ++ reportsAt walletName cur s ++
           [ELog (LBumpfee txid (newFeerateRounded info));
            ERpc walletUrl "bumpfee" (bumpfeeParams txid (newFeerateRounded info));
            ELog line]).
Proof.
  intros Hu Hk Ha Hd Hb Hs.
  rewrite (processUnspent_tracked _ _ _ _ _ _ _ Hu Hk).
  destruct (replacementId r) as [newTxid|] eqn:Hr.
  - rewrite (escalate_bumped _ _ _ _ (logged s _) r w' newTxid Ha Hd Hb Hs Hr).
    eexists. cbn [snd logged txInfos lastBlockHeight trace]. now rewrite <- app_assoc.
  - destruct (escalate_bump_failed _ _ _ _ (logged s (reportsAt walletName cur s)) r w'
                Ha Hd Hb Hs Hr) as [msg ->].
    eexists. unfold answered. cbn [snd logged txInfos lastBlockHeight trace].
    now rewrite <- app_assoc.
Qed.

Lemma qualifying_dry walletName walletUrl cur u txid info (s : State) :
  txidOf u = Some txid ->
  txInfos s !! txid = Some info ->
  (BumpfeeBlockInterval config <=? ageBlocks cur info) = true ->
  (1 <=? candidate info - CurrentFeerate info)%float = true ->
  IsBump config = false ->
  snd (processUnspent walletName walletUrl cur u s) =
    mkState (delete txid (txInfos s)) (lastBlockHeight s) (world s)
      (trace s ++ reportsAt walletName cur s ++
         [ELog (LBumpfee txid (newFeerateRounded info));
          ELog (LIsBumpFalse txid);
          ELog (LSimulated txid (candidate info))]).
Proof.
  intros Hu Hk Ha Hd Hb.
  rewrite (processUnspent_tracked _ _ _ _ _ _ _ Hu Hk).
  rewrite (escalate_dry _ _ _ _ (logged s _) Ha Hd Hb).
  cbn [snd logged txInfos lastBlockHeight trace world]. now rewrite <- app_assoc.
Qed.

Lemma filter_reportsAt p walletName cur (s : State) :
  (forall w k d, p (ELog (LUnconfirmedFor w k d)) = false) ->
  List.filter p (reportsAt walletName cur s) = [].
Proof.
  intros Hp. unfold reportsAt, ageReports. destruct (negb _ && negb _); [|reflexivity].
  induction (filter _ (map_to_list (txInfos s))) as [|x l IH]; [reflexivity|].
  rewrite fmap_cons. cbn [List.filter]. now rewrite Hp.
Qed.

(** *** The trace only grows *)








(** *** The requests to bump one id *)

Lemma listsId_true k u : listsId k u = true -> txidOf u = Some k.
Proof.
  unfold listsId. destruct (txidOf u) as [txid|]; [|discriminate].
  intros H. apply String.eqb_eq in H. now subst.
Qed.

Lemma listsId_false k u txid : listsId k u = false -> txidOf u = Some txid -> txid <> k.
Proof. unfold listsId. intros H Hu. rewrite Hu in H. now apply String.eqb_neq. Qed.

Lemma idle_refl k (s : State) : idle k s s.
Proof. split; [reflexivity|]. exists []. now rewrite app_nil_r. Qed.

Lemma idle_trans k (s1 s2 s3 : State) : idle k s1 s2 -> idle k s2 s3 -> idle k s1 s3.
Proof.
  intros (L1 & n1 & E1 & F1) (L2 & n2 & E2 & F2). split; [congruence|].
  exists (n1 ++ n2). rewrite E2, E1, app_assoc, List.filter_app, F1, F2. now split.
Qed.

Lemma idle_answered k (s : State) w' new :
  List.filter (isBumpfeeOf k) new = [] -> idle k s (answered s w' new).
Proof. intros F. split; [reflexivity|]. now exists new. Qed.

(** An iteration over an output that does not carry [k] leaves the
    entry of [k] alone and requests no bump of [k]. *)
Lemma idle_step k walletName walletUrl cur u (s : State) :
  listsId k u = false ->
  idle k s (snd (processUnspent walletName walletUrl cur u s)).
Proof.
  intros Hl.
  destruct (processUnspent_paths walletName walletUrl cur u s)
    as [msg Hu | txid s1 Hu Ht | txid info1 s1 s2 Hu Ht He].
  - apply (idle_answered k s (world s) [_]). reflexivity.
  - inversion Ht; subst. now apply idle_answered.
  - pose proof (listsId_false _ _ _ Hl Hu) as Hne.
    pose proof (proj2 (String.eqb_neq txid k) Hne) as Heqb.
    assert (H1 : idle k s s1).
    { inversion Ht; subst; [apply idle_refl|]. split.
      - cbn [txInfos]. now rewrite lookup_insert_ne.
      - eexists. split; [reflexivity|]. reflexivity. }
    eapply idle_trans; [exact H1|].
    assert (Hr : List.filter (isBumpfeeOf k) (reportsAt walletName cur s1) = [])
      by (apply filter_reportsAt; reflexivity).
    destruct He; (split; [cbn [logged answered txInfos]; rewrite ?lookup_delete_ne by exact Hne;
                          reflexivity|]);
      cbn [logged answered trace]; rewrite <- ?app_assoc;
      (eexists; split; [reflexivity|]);
      rewrite ?List.filter_app, Hr; cbn [List.filter isBumpfeeOf bumpfeeParams app];
      rewrite ?Heqb; reflexivity.
Qed.

Lemma idle_outputs k walletName walletUrl cur outputs (s : State) :
  Forall (fun u => listsId k u = false) outputs ->
  idle k s (snd (forRange (processUnspent walletName walletUrl cur) outputs s)).
Proof.
  intros F. revert s. induction F as [|u outputs Hu _ IH]; intros s.
  - apply idle_refl.
  - rewrite forRange_cons.
    apply (idle_trans k s (snd (processUnspent walletName walletUrl cur u s)));
      [apply idle_step; exact Hu|apply IH].
Qed.

Lemma filter_none {A} (p : A -> bool) l :
  length (List.filter p l) = 0%nat -> Forall (fun x => p x = false) l.
Proof.
  induction l as [|x l IH]; [constructor|]. cbn [List.filter].
  destruct (p x) eqn:E; [discriminate|]. intros H. constructor; [exact E|now apply IH].
Qed.

Lemma filter_one {A} (p : A -> bool) l :
  length (List.filter p l) = 1%nat ->
  exists before x after,
    l = before ++ x :: after /\ p x = true /\
    Forall (fun y => p y = false) before /\ Forall (fun y => p y = false) after.
Proof.
  induction l as [|x l IH]; [discriminate|]. cbn [List.filter].
  destruct (p x) eqn:E.
  - intros H. injection H as H. exists [], x, l. repeat split; [exact E|constructor|].
    now apply filter_none.
  - intros H. destruct (IH H) as (before & y & after & -> & Hy & Hb & Ha).
    exists (x :: before), y, after. repeat split; try assumption. now constructor.
Qed.

(** An iteration over an output that carries [k], tracked and
    qualifying, with the apply policy on. *)
Lemma bumpedOnce_step k info walletName walletUrl cur u (s : State) :
  listsId k u = true ->
  txInfos s !! k = Some info ->
  (BumpfeeBlockInterval config <=? ageBlocks cur info) = true ->
  (1 <=? candidate info - CurrentFeerate info)%float = true ->
  IsBump config = true ->
  bumpedOnce k info s (snd (processUnspent walletName walletUrl cur u s)).
Proof.
  intros Hl Hk Ha Hd Hb. apply listsId_true in Hl.
  destruct (send (world s) walletUrl "bumpfee" (bumpfeeParams k (newFeerateRounded info)))
    as [r w'] eqn:Hs.
  destruct (qualifying_apply walletName _ _ _ _ _ _ _ _ Hl Hk Ha Hd Hb Hs) as [line ->].
  eexists. exists walletUrl. cbn [trace txInfos]. split; [reflexivity|]. split.
  - rewrite List.filter_app, filter_reportsAt by reflexivity.
    cbn [List.filter isBumpfeeOf bumpfeeParams app]. rewrite ?String.eqb_refl. reflexivity.
  - destruct (replacementId r); [left; apply lookup_delete_eq|now right].
Qed.

Lemma idle_bumpedOnce k info (s1 s2 s3 : State) :
  idle k s1 s2 -> bumpedOnce k info s2 s3 -> bumpedOnce k info s1 s3.
Proof.
  intros (L1 & n1 & E1 & F1) (n2 & url & E2 & F2 & L2). exists (n1 ++ n2), url.
  rewrite E2, E1, app_assoc, List.filter_app, F1, F2. now repeat split.
Qed.

Lemma bumpedOnce_idle k info (s1 s2 s3 : State) :
  bumpedOnce k info s1 s2 -> idle k s2 s3 -> bumpedOnce k info s1 s3.
Proof.
  intros (n1 & url & E1 & F1 & L1) (L2 & n2 & E2 & F2). exists (n1 ++ n2), url.
  rewrite E2, E1, app_assoc, List.filter_app, F1, F2, L2. now repeat split.
Qed.

(** A wallet whose scan lists no output carrying [k]. *)
Lemma idle_wallet k cur wallet (s : State) :
  scanListings k wallet s = 0%nat ->
  idle k s (snd (processWallet cur wallet s)).
Proof.
  unfold scanListings. intros H.
  destruct (asString wallet) as [name|] eqn:Hn.
  2:{ destruct (processWallet_invalid cur _ s Hn) as [msg ->]. cbn [snd].
      apply (idle_answered k s (world s) [_]). reflexivity. }
  destruct (send (world s) (walletUrlOf name) "listunspent"
              [VInt 0; VInt 0; VArr []; VBool true; queryOptions]) as [r w'] eqn:Hs.
  cbn [fst] in H. destruct (unspentOf r) as [unspent|] eqn:Hu.
  - rewrite (processWallet_scanned _ _ _ _ _ _ _ Hn Hs Hu).
    match goal with
    | |- idle _ _ (snd (forRange _ _ ?s1)) => apply (idle_trans k s s1)
    end; [apply idle_answered; reflexivity|].
    apply idle_outputs. now apply filter_none.
  - destruct (processWallet_scan_failed cur _ _ s _ _ Hn Hs Hu) as [msg ->]. cbn [snd].
    apply idle_answered. reflexivity.
Qed.

Lemma listings_cons k cur wallet rest (s : State) :
  listings k cur (wallet :: rest) s =
    (scanListings k wallet s + listings k cur rest (snd (processWallet cur wallet s)))%nat.
Proof. reflexivity. Qed.

Lemma idle_wallets k cur wallets (s : State) :
  listings k cur wallets s = 0%nat ->
  idle k s (snd (forRange (processWallet cur) wallets s)).
Proof.
  revert s. induction wallets as [|wallet rest IH]; intros s H; [apply idle_refl|].
  rewrite listings_cons in H. rewrite forRange_cons.
  apply (idle_trans k s (snd (processWallet cur wallet s)));
    [apply idle_wallet; lia|apply IH; lia].
Qed.

(** The outputs of one scan, one of which carries [k]. *)
Lemma bumpedOnce_outputs k info walletName walletUrl cur outputs (s : State) :
  length (List.filter (listsId k) outputs) = 1%nat ->
  txInfos s !! k = Some info ->
  (BumpfeeBlockInterval config <=? ageBlocks cur info) = true ->
  (1 <=? candidate info - CurrentFeerate info)%float = true ->
  IsBump config = true ->
  bumpedOnce k info s (snd (forRange (processUnspent walletName walletUrl cur) outputs s)).
Proof.
  intros H Hk Ha Hd Hb.
  destruct (filter_one _ _ H) as (before & u & after & -> & Hu & Hbefore & Hafter).
  rewrite forRange_app, forRange_cons.
  pose proof (idle_outputs k walletName walletUrl cur before s Hbefore) as I1.
  set (s1 := snd (forRange (processUnspent walletName walletUrl cur) before s)) in *.
  assert (Hk1 : txInfos s1 !! k = Some info) by (rewrite (proj1 I1); exact Hk).
  pose proof (bumpedOnce_step k info walletName walletUrl cur u s1 Hu Hk1 Ha Hd Hb) as B.
  apply (idle_bumpedOnce k info s s1 _ I1).
  apply (bumpedOnce_idle k info s1 _ _ B). now apply idle_outputs.
Qed.

(** A wallet whose scan lists one output carrying [k]. *)
Lemma bumpedOnce_wallet k info cur wallet (s : State) :
  scanListings k wallet s = 1%nat ->
  txInfos s !! k = Some info ->
  (BumpfeeBlockInterval config <=? ageBlocks cur info) = true ->
  (1 <=? candidate info - CurrentFeerate info)%float = true ->
  IsBump config = true ->
  bumpedOnce k info s (snd (processWallet cur wallet s)).
Proof.
  unfold scanListings. intros H Hk Ha Hd Hb.
  destruct (asString wallet) as [name|] eqn:Hn; [|discriminate].
  destruct (send (world s) (walletUrlOf name) "listunspent"
              [VInt 0; VInt 0; VArr []; VBool true; queryOptions]) as [r w'] eqn:Hs.
  cbn [fst] in H. destruct (unspentOf r) as [unspent|] eqn:Hu; [|discriminate].
  rewrite (processWallet_scanned _ _ _ _ _ _ _ Hn Hs Hu).
  match goal with
  | |- bumpedOnce _ _ _ (snd (forRange _ _ ?s1)) => apply (idle_bumpedOnce k info s s1)
  end; [apply idle_answered; reflexivity|].
  now apply bumpedOnce_outputs.
Qed.

(** One pass over the wallets whose scans list [k] once in all. *)
Lemma bumpedOnce_wallets k info cur wallets (s : State) :
  listings k cur wallets s = 1%nat ->
  txInfos s !! k = Some info ->
  (BumpfeeBlockInterval config <=? ageBlocks cur info) = true ->
  (1 <=? candidate info - CurrentFeerate info)%float = true ->
  IsBump config = true ->
  bumpedOnce k info s (snd (forRange (processWallet cur) wallets s)).
Proof.
  intros H Hk Ha Hd Hb. revert s H Hk.
  induction wallets as [|wallet rest IH]; intros s H Hk; [discriminate|].
  rewrite listings_cons in H. rewrite forRange_cons.
  destruct (scanListings k wallet s) as [|[|n]] eqn:E; [| |lia].
  - pose proof (idle_wallet k cur wallet s E) as I.
    apply (idle_bumpedOnce k info s _ _ I). apply IH; [exact H|].
    rewrite (proj1 I). exact Hk.
  - apply (bumpedOnce_idle k info s (snd (processWallet cur wallet s))).
    + now apply bumpedOnce_wallet.
    + apply idle_wallets. lia.
Qed.

(** The events that a fetched height adds before the wallet loop. *)
Lemma height_events_not_bumpfee k cur last :
  List.filter (isBumpfeeOf k) (ERpc (URL config) "getblockcount" [] :: newBlockLine cur last) = [].
Proof.
  unfold newBlockLine. cbn [List.filter isBumpfeeOf].
  destruct (last =? -1); [reflexivity|].
  destruct (negb (int_of_float cur =? last)); reflexivity.
Qed.

Lemma idle_slept k (s2 : State) last ns :
  idle k s2 (mkState (txInfos s2) last (world s2) (trace s2 ++ [ESleep ns])).
Proof. split; [reflexivity|]. now exists [ESleep ns]. Qed.

(** A cycle that fetches the height [cur] and whose scans list [k]
    once. *)
Lemma bumpedOnce_cycle k info wallets (s : State) r w' cur :
  send (world s) (URL config) "getblockcount" [] = (r, w') ->
  heightOf r = Some cur ->
  txInfos s !! k = Some info ->
  (BumpfeeBlockInterval config <=? ageBlocks cur info) = true ->
  (1 <=? candidate info - CurrentFeerate info)%float = true ->
  IsBump config = true ->
  listings k cur wallets
    (answered s w' (ERpc (URL config) "getblockcount" []
                      :: newBlockLine cur (lastBlockHeight s))) = 1%nat ->
  bumpedOnce k info s (snd (pollCycle wallets s)).
Proof.
  intros Hs Hh Hk Ha Hd Hb Hl.
  rewrite (pollCycle_fetched wallets s r w' cur Hs Hh). cbn [snd]. cbv zeta.
  set (s0 := answered s w' _) in *.
  apply (idle_bumpedOnce k info s s0);
    [apply idle_answered, height_events_not_bumpfee|].
  apply (bumpedOnce_idle k info s0 (snd (forRange (processWallet cur) wallets s0)));
    [|apply idle_slept].
  now apply bumpedOnce_wallets.
Qed.

(** A cycle that fetches the height [cur] and whose scans do not list
    [k]. *)
Lemma idle_cycle k wallets (s : State) r w' cur :
  send (world s) (URL config) "getblockcount" [] = (r, w') ->
  heightOf r = Some cur ->
  listings k cur wallets
    (answered s w' (ERpc (URL config) "getblockcount" []
                      :: newBlockLine cur (lastBlockHeight s))) = 0%nat ->
  idle k s (snd (pollCycle wallets s)).
Proof.
  intros Hs Hh Hl.
  rewrite (pollCycle_fetched wallets s r w' cur Hs Hh). cbn [snd]. cbv zeta.
  set (s0 := answered s w' _) in *.
  apply (idle_trans k s s0); [apply idle_answered, height_events_not_bumpfee|].
  apply (idle_trans k s0 (snd (forRange (processWallet cur) wallets s0)));
    [now apply idle_wallets|apply idle_slept].
Qed.

(** ** The claims *)

(** C1 (amended). On the first sighting of a transaction whose detail is
    fetched with a numeric [fee] and a string [hex], the entry stored
    for it has the fee rate
    [abs(fee) * 1e8 / float64(len(hex)) * 2]: the divisor is the length
    of the hex string itself, so the factor 2 is what turns hex digits
    into bytes.  The entry carries the wallet being processed and the
    current height. *)
Theorem C1_estimate_on_first_sighting walletName walletUrl cur txid (s : State) r w' fee hex :
  txInfos s !! txid = None ->
  send (world s) walletUrl "gettransaction" [VStr txid] = (r, w') ->
  txDetailOf r = Some (fee, hex) ->
  exists info s1,
    track walletName walletUrl cur txid s = (Some info, s1) /\
    txInfos s1 !! txid = Some info /\
    CurrentFeerate info =
      (abs fee * 1e8 / float_of_int (Z.of_nat (String.length hex)) * 2)%float /\
    FirstBlockHeight info = int_of_float cur /\
    WalletName info = walletName.
Proof.
  intros Hnew Hs Hd. eexists. eexists.
  split; [exact (track_new walletName _ cur _ _ _ _ _ _ Hnew Hs Hd)|].
  cbn [txInfos]. rewrite lookup_insert_eq. repeat split.
Qed.

(** C2 (amended). Each time an output of a tracked transaction is
    processed with the age at or past the threshold, the candidate at
    least 1 above the tracked rate and the apply policy on, the
    iteration issues exactly one [bumpfee] request, for that id and with
    the rounded candidate rate; when the answer carries a replacement
    id the entry is removed and nothing is added to the store, and when
    it does not (transport, protocol or schema error) the store is left
    as it was.  An iteration over an output of another transaction
    requests no bump of the id and leaves its entry alone.  Hence, in a
    cycle that fetches the height and whose scans list the id exactly
    once, exactly one [bumpfee] request is issued for it, with the
    rounded candidate rate, and its entry is gone or left as it was; in
    a cycle whose scans do not list it, none is issued and the entry is
    as before. *)
Theorem C2_one_bumpfee_per_output :
  (forall walletName walletUrl cur u txid info (s : State) r w',
      txidOf u = Some txid ->
      txInfos s !! txid = Some info ->
      (BumpfeeBlockInterval config <=? ageBlocks cur info) = true ->
      (1 <=? candidate info - CurrentFeerate info)%float = true ->
      IsBump config = true ->
      send (world s) walletUrl "bumpfee" (bumpfeeParams txid (newFeerateRounded info))
        = (r, w') ->
      exists new,
        trace (snd (processUnspent walletName walletUrl cur u s)) = trace s ++ new /\
        List.filter isBumpfee new =
          [ERpc walletUrl "bumpfee"
             [VStr txid;
              VObj {[ "fee_rate" := VInt (int_of_float (math_Round (candidate info))) ]}]] /\
        (forall newTxid, replacementId r = Some newTxid ->
           txInfos (snd (processUnspent walletName walletUrl cur u s))
             = delete txid (txInfos s)) /\
        (replacementId r = None ->
           txInfos (snd (processUnspent walletName walletUrl cur u s)) = txInfos s)) /\
  (forall walletName walletUrl cur u txid (s : State),
      listsId txid u = false ->
      txInfos (snd (processUnspent walletName walletUrl cur u s)) !! txid
        = txInfos s !! txid /\
      exists new,
        trace (snd (processUnspent walletName walletUrl cur u s)) = trace s ++ new /\
        List.filter (isBumpfeeOf txid) new = []) /\
  (forall wallets txid info (s : State) r w' cur,
      send (world s) (URL config) "getblockcount" [] = (r, w') ->
      heightOf r = Some cur ->
      txInfos s !! txid = Some info ->
      (BumpfeeBlockInterval config <=? ageBlocks cur info) = true ->
      (1 <=? candidate info - CurrentFeerate info)%float = true ->
      IsBump config = true ->
      listings txid cur wallets
        (answered s w' (ERpc (URL config) "getblockcount" []
                          :: newBlockLine cur (lastBlockHeight s))) = 1%nat ->
      exists new url,
        trace (snd (pollCycle wallets s)) = trace s ++ new /\
        List.filter (isBumpfeeOf txid) new =
          [ERpc url "bumpfee"
             [VStr txid;
              VObj {[ "fee_rate" := VInt (int_of_float (math_Round (candidate info))) ]}]] /\
        (txInfos (snd (pollCycle wallets s)) !! txid = None \/
         txInfos (snd (pollCycle wallets s)) !! txid = Some info)) /\
  (forall wallets txid (s : State) r w' cur,
      send (world s) (URL config) "getblockcount" [] = (r, w') ->
      heightOf r = Some cur ->
      listings txid cur wallets
        (answered s w' (ERpc (URL config) "getblockcount" []
                          :: newBlockLine cur (lastBlockHeight s))) = 0%nat ->
      txInfos (snd (pollCycle wallets s)) !! txid = txInfos s !! txid /\
      exists new,
        trace (snd (pollCycle wallets s)) = trace s ++ new /\
        List.filter (isBumpfeeOf txid) new = []).
Proof.
  split; [|split; [|split]].
  - intros walletName walletUrl cur u txid info s r w' Hu Hk Ha Hd Hb Hs.
    destruct (qualifying_apply walletName _ _ _ _ _ _ _ _ Hu Hk Ha Hd Hb Hs) as [line ->].
    eexists. split; [reflexivity|]. split; [|split].
    + rewrite List.filter_app, filter_reportsAt by reflexivity. reflexivity.
    + intros newTxid ->. reflexivity.
    + intros ->. reflexivity.
  - intros walletName walletUrl cur u txid s Hl.
    exact (idle_step txid walletName walletUrl cur u s Hl).
  - intros wallets txid info s r w' cur Hs Hh Hk Ha Hd Hb Hl.
    exact (bumpedOnce_cycle txid info wallets s r w' cur Hs Hh Hk Ha Hd Hb Hl).
  - intros wallets txid s r w' cur Hs Hh Hl.
    exact (idle_cycle txid wallets s r w' cur Hs Hh Hl).
Qed.

(** C3 (amended). When an output of a tracked transaction is processed
    with the age at or past the threshold, the candidate at least 1
    above the tracked rate and the apply policy off, the iteration makes
    no RPC call, logs the proposal once and removes the entry.  The id
    is then simply unknown to the store: whenever [track] later meets
    it while it is unknown and its detail is fetched, it is tracked
    again as new, from the height of that cycle.  It is proposed again,
    and forgotten again, in every later iteration over one of its
    outputs that finds an entry for it passing the age threshold and
    the minimum-increment test; an iteration that finds an entry past
    the age threshold whose candidate is less than 1 above its rate
    proposes nothing and keeps the entry. *)
Theorem C3_dry_run_forgets_until_rescanned walletName walletUrl cur u txid info (s : State) :
  txidOf u = Some txid ->
  txInfos s !! txid = Some info ->
  (BumpfeeBlockInterval config <=? ageBlocks cur info) = true ->
  (1 <=? candidate info - CurrentFeerate info)%float = true ->
  IsBump config = false ->
  (exists new,
     trace (snd (processUnspent walletName walletUrl cur u s)) = trace s ++ new /\
     count isRpc new = 0%nat /\
     count (isProposalOf txid) new = 1%nat) /\
  txInfos (snd (processUnspent walletName walletUrl cur u s)) = delete txid (txInfos s) /\
  txInfos (snd (processUnspent walletName walletUrl cur u s)) !! txid = None /\
  (forall walletName2 walletUrl2 cur2 (s2 : State) r w2 fee hex,
      txInfos s2 !! txid = None ->
      send (world s2) walletUrl2 "gettransaction" [VStr txid] = (r, w2) ->
      txDetailOf r = Some (fee, hex) ->
      txInfos (snd (track walletName2 walletUrl2 cur2 txid s2)) !! txid =
        Some (mkTxInfo walletName2 (int_of_float cur2) (feerate_of fee hex))) /\
  (forall walletName3 walletUrl3 cur3 u3 info3 (s3 : State),
      txidOf u3 = Some txid ->
      txInfos s3 !! txid = Some info3 ->
      (BumpfeeBlockInterval config <=? ageBlocks cur3 info3) = true ->
      (1 <=? candidate info3 - CurrentFeerate info3)%float = true ->
      (exists new,
         trace (snd (processUnspent walletName3 walletUrl3 cur3 u3 s3)) = trace s3 ++ new /\
         count isRpc new = 0%nat /\
         count (isProposalOf txid) new = 1%nat) /\
      txInfos (snd (processUnspent walletName3 walletUrl3 cur3 u3 s3)) !! txid = None) /\
  (forall walletName3 walletUrl3 cur3 u3 info3 (s3 : State),
      txidOf u3 = Some txid ->
      txInfos s3 !! txid = Some info3 ->
      (BumpfeeBlockInterval config <=? ageBlocks cur3 info3) = true ->
      (1 <=? candidate info3 - CurrentFeerate info3)%float = false ->
      (exists new,
         trace (snd (processUnspent walletName3 walletUrl3 cur3 u3 s3)) = trace s3 ++ new /\
         count isRpc new = 0%nat /\
         count (isProposalOf txid) new = 0%nat) /\
      txInfos (snd (processUnspent walletName3 walletUrl3 cur3 u3 s3)) !! txid = Some info3).
Proof.
  intros Hu Hk Ha Hd Hb.
  assert (Hagain : forall walletName3 walletUrl3 cur3 u3 info3 (s3 : State),
             txidOf u3 = Some txid ->
             txInfos s3 !! txid = Some info3 ->
             (BumpfeeBlockInterval config <=? ageBlocks cur3 info3) = true ->
             (1 <=? candidate info3 - CurrentFeerate info3)%float = true ->
             (exists new,
                trace (snd (processUnspent walletName3 walletUrl3 cur3 u3 s3))
                  = trace s3 ++ new /\
                count isRpc new = 0%nat /\
                count (isProposalOf txid) new = 1%nat) /\
             txInfos (snd (processUnspent walletName3 walletUrl3 cur3 u3 s3))
               = delete txid (txInfos s3)).
  { intros walletName3 walletUrl3 cur3 u3 info3 s3 Hu3 Hk3 Ha3 Hd3.
    rewrite (qualifying_dry walletName3 _ _ _ _ _ _ Hu3 Hk3 Ha3 Hd3 Hb). cbn [trace txInfos].
    split; [|reflexivity].
    eexists. split; [reflexivity|]. rewrite !count_app.
    rewrite !count_reportsAt by reflexivity. simpl. now rewrite String.eqb_refl. }
  destruct (Hagain walletName walletUrl cur u info s Hu Hk Ha Hd) as [Hnew Hstore].
  split; [exact Hnew|]. split; [exact Hstore|].
  split; [rewrite Hstore; apply lookup_delete_eq|]. split; [|split].
  - intros walletName2 walletUrl2 cur2 s2 r w2 fee hex Hnone Hs Hdet.
    rewrite (track_new walletName2 _ cur2 _ _ _ _ _ _ Hnone Hs Hdet).
    cbn [snd txInfos]. apply lookup_insert_eq.
  - intros walletName3 walletUrl3 cur3 u3 info3 s3 Hu3 Hk3 Ha3 Hd3.
    destruct (Hagain walletName3 walletUrl3 cur3 u3 info3 s3 Hu3 Hk3 Ha3 Hd3) as [H1 H2].
    split; [exact H1|]. rewrite H2. apply lookup_delete_eq.
  - intros walletName3 walletUrl3 cur3 u3 info3 s3 Hu3 Hk3 Ha3 Hd3.
    rewrite (processUnspent_tracked _ _ _ _ _ _ _ Hu3 Hk3).
    rewrite (escalate_small _ _ _ _ (logged s3 _) Ha3 Hd3).
    cbn [snd logged txInfos trace]. split; [|exact Hk3].
    rewrite <- app_assoc. eexists. split; [reflexivity|]. rewrite !count_app.
    rewrite !count_reportsAt by reflexivity. split; reflexivity.
Qed.

(** C5. A tracked transaction whose candidate rate is less than 1 above
    its tracked rate is not bumped and keeps its entry: over any number
    of poll cycles (so in the cycle where it is past the age threshold,
    and in every later one) no [bumpfee] request is issued for its id,
    and the store still maps the id to the same entry, every field as
    it was. *)
Theorem C5_below_increment_retained wallets n txid info (s : State) :
  txInfos s !! txid = Some info ->
  (candidate info - CurrentFeerate info <? 1)%float = true ->
  txInfos (pollCycles wallets n s) !! txid = Some info /\
  exists new,
    trace (pollCycles wallets n s) = (trace s ++ new)%list /\
    count (isBumpfeeOf txid) new = 0%nat.
Proof.
  intros Hk Hlt. apply ltb_not_leb in Hlt.
  exact (keptUnbumped_cycles txid info wallets n s Hlt Hk).
Qed.

(** C6. The store is a finite map, so it holds at most one entry per
    transaction id.  One iteration over an output leaves the entry of
    every id as it is, creates it, or removes it on the escalation path
    (dry-run line, or [bumpfee] request and replacement line, in the
    events of that iteration); it never changes a field of an entry.
    Every run of the main loop is a sequence of such iterations and of
    steps that leave the store alone. *)
Theorem C6_store_lifecycle :
  (forall s : State, NoDup (map_to_list (txInfos s)).*1) /\
  (forall walletName walletUrl cur u (s : State),
      lawful s (snd (processUnspent walletName walletUrl cur u s))) /\
  (forall wallets n (s : State), rtc Atomic s (pollCycles wallets n s)).
Proof.
  split; [|split].
  - intros s. apply NoDup_fst_map_to_list.
  - intros. eapply lawful_step. apply processUnspent_paths.
  - intros wallets n s. apply (pollCycles_rel (rtc Atomic)).
    + intros s0. apply rtc_refl.
    + intros s1 s2 s3. apply rtc_trans.
    + intros. apply rtc_once. constructor.
    + intros s0 w' new _. apply rtc_once. now apply atomic_other.
    + intros s0 h d. apply rtc_once. now apply atomic_other.
Qed.

(** C7 (amended). In the iteration over an output whose transaction is
    tracked (known already, or tracked just now), when the height
    differs from the cursor and the cursor is not -1, the age reports of
    the iteration are, without repetition, exactly one per entry of the
    store that belongs to the wallet being processed, with the age
    [int64(currentBlockCount) - int64(FirstBlockHeight)] (the plain
    difference whenever that fits 64 bits).  An iteration that ends
    before (an output without a string id, an id whose detail cannot be
    fetched) reports no age, and neither does a wallet whose name is no
    string, whose scan fails or whose scan lists no output.  While the
    cursor is -1 a whole poll cycle emits no age report. *)
Theorem C7_age_reports :
  (forall walletName walletUrl cur u txid info (s s1 : State),
      txidOf u = Some txid ->
      track walletName walletUrl cur txid s = (Some info, s1) ->
      int_of_float cur <> lastBlockHeight s ->
      lastBlockHeight s <> -1 ->
      exists new,
        trace (snd (processUnspent walletName walletUrl cur u s)) = (trace s ++ new)%list /\
        List.NoDup (List.filter isAgeReport new) /\
        forall e,
          In e (List.filter isAgeReport new) <->
          exists k i,
            txInfos s1 !! k = Some i /\ WalletName i = walletName /\
            e = ELog (LUnconfirmedFor walletName k
                        (sub64 (int_of_float cur) (FirstBlockHeight i)))) /\
  (forall a b, in_int64 (a - b) = true -> sub64 a b = a - b) /\
  (forall wallets (s : State),
      lastBlockHeight s = -1 ->
      exists new,
        trace (snd (pollCycle wallets s)) = (trace s ++ new)%list /\
        count isAgeReport new = 0%nat) /\
  (forall walletName walletUrl cur u (s : State),
      txidOf u = None \/
      (exists txid, txidOf u = Some txid /\
                    fst (track walletName walletUrl cur txid s) = None) ->
      exists new,
        trace (snd (processUnspent walletName walletUrl cur u s)) = (trace s ++ new)%list /\
        count isAgeReport new = 0%nat) /\
  (forall cur wallet (s : State),
      asString wallet = None \/
      (exists walletName,
          asString wallet = Some walletName /\
          let r := fst (send (world s) (walletUrlOf walletName) "listunspent"
                          [VInt 0; VInt 0; VArr []; VBool true; queryOptions]) in
          unspentOf r = None \/ unspentOf r = Some []) ->
      exists new,
        trace (snd (processWallet cur wallet s)) = (trace s ++ new)%list /\
        count isAgeReport new = 0%nat).
Proof.
  split; [|split; [|split; [|split]]].
  - intros walletName walletUrl cur u txid info s s1 Hu Ht Hmoved Hseen.
    rewrite (processUnspent_valid _ _ _ _ _ _ Hu), Ht.
    pose proof (track_paths walletName walletUrl cur txid s) as Hp.
    rewrite Ht in Hp. simpl in Hp.
    apply tracked_events in Hp as (El & n1 & En1 & N1).
    destruct (escalated_events _ _ _ _ _ _
                (escalate_paths walletUrl cur txid info
                   (logged s1 (reportsAt walletName cur s1)))) as (_ & n2 & En2 & N2).
    assert (Hr : reportsAt walletName cur s1 =
                 ageReports walletName (int_of_float cur) (txInfos s1)).
    { unfold reportsAt. rewrite El.
      apply Z.eqb_neq in Hmoved, Hseen. now rewrite Hmoved, Hseen. }
    exists (n1 ++ ageReports walletName (int_of_float cur) (txInfos s1) ++ n2).
    assert (Hf : List.filter isAgeReport
                   (n1 ++ ageReports walletName (int_of_float cur) (txInfos s1) ++ n2) =
                 ageReports walletName (int_of_float cur) (txInfos s1)).
    { rewrite !List.filter_app, (noReport_filter _ N1), (noReport_filter _ N2).
      rewrite ageReports_filter. simpl. now rewrite app_nil_r. }
    rewrite Hf. split; [|split].
    + rewrite En2. simpl. rewrite En1, Hr. now rewrite <- !app_assoc.
    + apply ageReports_NoDup.
    + intros e. apply ageReports_In.
  - apply sub64_exact.
  - intros wallets s Hlast.
    destruct (pollCycle_unreported wallets s Hlast) as (new & E & N).
    exists new. split; [exact E|]. now apply noReport_count.
  - intros walletName walletUrl cur u s [Hu | (txid & Hu & Ht)].
    + destruct (processUnspent_invalid walletName walletUrl cur u s Hu) as [msg ->].
      eexists. split; reflexivity.
    + rewrite (processUnspent_valid _ _ _ _ _ _ Hu).
      pose proof (track_paths walletName walletUrl cur txid s) as Hp.
      destruct (track walletName walletUrl cur txid s) as [o s1].
      cbn [fst] in Ht. subst o. cbn [fst snd] in *.
      apply tracked_events in Hp as (_ & n1 & En1 & N1).
      exists n1. split; [exact En1|]. now apply noReport_count.
  - intros cur wallet s [Hn | (walletName & Hn & Hr)].
    + destruct (processWallet_invalid cur wallet s Hn) as [msg ->].
      eexists. split; reflexivity.
    + destruct (send (world s) (walletUrlOf walletName) "listunspent"
                  [VInt 0; VInt 0; VArr []; VBool true; queryOptions]) as [r w'] eqn:Hs.
      cbn [fst] in Hr. cbv zeta in Hr. destruct Hr as [Hu | Hu].
      * destruct (processWallet_scan_failed cur _ _ s _ _ Hn Hs Hu) as [msg ->].
        eexists. split; reflexivity.
      * rewrite (processWallet_scanned _ _ _ _ _ _ _ Hn Hs Hu).
        eexists. split; reflexivity.
Qed.

(** C8, on the failing path.  When the height cannot be fetched (an RPC
    error, or an answer that is no number) the iteration of the main
    loop ends at once: the cursor is not updated and nothing sleeps, so
    the next iteration asks for the height again immediately. *)
Theorem C8_height_failure_skips_sleep wallets (s : State) r w' :
  send (world s) (URL config) "getblockcount" [] = (r, w') ->
  heightOf r = None ->
  lastBlockHeight (snd (pollCycle wallets s)) = lastBlockHeight s /\
  exists msg,
    trace (snd (pollCycle wallets s)) =
      trace s ++ [ERpc (URL config) "getblockcount" []; ELog (LError msg)] /\
    trace (pollCycles wallets 1 s) = trace (snd (pollCycle wallets s)) /\
    count isSleep (trace (snd (pollCycle wallets s))) = count isSleep (trace s).
Proof.
  intros Hs Hh. destruct (pollCycle_unfetched wallets _ _ _ Hs Hh) as [msg E].
  rewrite E. cbn [snd answered lastBlockHeight trace]. split; [reflexivity|].
  exists msg. split; [reflexivity|]. split.
  - simpl. now rewrite E.
  - rewrite count_app. simpl. lia.
Qed.


(** C10. When the [bumpfee] call returns without error but its result
    is no object with a string ["txid"], the iteration leaves the store
    exactly as it was, although the request was sent.  The entry
    therefore qualifies again: whenever an output of the same id is
    processed later with that entry still in the store and the age at or
    past the threshold, one more [bumpfee] request is issued for the
    same id. *)
Theorem C10_malformed_answer_keeps_entry walletName walletUrl cur u txid info (s : State) v w' :
  txidOf u = Some txid ->
  txInfos s !! txid = Some info ->
  (BumpfeeBlockInterval config <=? ageBlocks cur info) = true ->
  (1 <=? candidate info - CurrentFeerate info)%float = true ->
  IsBump config = true ->
  send (world s) walletUrl "bumpfee" (bumpfeeParams txid (newFeerateRounded info))
    = (RpcOk v, w') ->
  replacementId (RpcOk v) = None ->
  txInfos (snd (processUnspent walletName walletUrl cur u s)) = txInfos s /\
  (exists new,
     trace (snd (processUnspent walletName walletUrl cur u s)) = trace s ++ new /\
     count (isBumpfeeOf txid) new = 1%nat) /\
  forall walletName2 walletUrl2 cur2 u2 (s2 : State),
    txidOf u2 = Some txid ->
    txInfos s2 !! txid = txInfos (snd (processUnspent walletName walletUrl cur u s)) !! txid ->
    (BumpfeeBlockInterval config <=? ageBlocks cur2 info) = true ->
    exists new,
      trace (snd (processUnspent walletName2 walletUrl2 cur2 u2 s2)) = trace s2 ++ new /\
      count (isBumpfeeOf txid) new = 1%nat.
Proof.
  intros Hu Hk Ha Hd Hb Hs Hr.
  assert (Hcount : forall wn wu c u0 (s0 : State),
            txidOf u0 = Some txid -> txInfos s0 !! txid = Some info ->
            (BumpfeeBlockInterval config <=? ageBlocks c info) = true ->
            exists new,
              trace (snd (processUnspent wn wu c u0 s0)) = trace s0 ++ new /\
              count (isBumpfeeOf txid) new = 1%nat).
  { intros wn wu c u0 s0 Hu0 Hk0 Ha0.
    destruct (send (world s0) wu "bumpfee" (bumpfeeParams txid (newFeerateRounded info)))
      as [r0 w0] eqn:Hs0.
    destruct (qualifying_apply wn _ _ _ _ _ _ _ _ Hu0 Hk0 Ha0 Hd Hb Hs0) as [line ->].
    eexists. split; [reflexivity|]. rewrite count_app, count_reportsAt by reflexivity.
    simpl. now rewrite String.eqb_refl. }
  assert (Hstore : txInfos (snd (processUnspent walletName walletUrl cur u s)) = txInfos s).
  { destruct (qualifying_apply walletName _ _ _ _ _ _ _ _ Hu Hk Ha Hd Hb Hs) as [line ->].
    now rewrite Hr. }
  split; [exact Hstore|]. split; [now apply Hcount|].
  intros walletName2 walletUrl2 cur2 u2 s2 Hu2 Hk2 Ha2.
  apply Hcount; [exact Hu2| |exact Ha2]. now rewrite Hk2, Hstore.
Qed.

(** ** Further properties of the loop *)

(** *** Lifting with the wallet names in hand *)

Lemma forRange_rel_in {A} (R : State -> State -> Prop) (body : A -> M unit) l :
  (forall s, R s s) ->
  (forall s1 s2 s3, R s1 s2 -> R s2 s3 -> R s1 s3) ->
  (forall x s, In x l -> R s (snd (body x s))) ->
  forall s, R s (snd (forRange body l s)).
Proof.
  intros Hrefl Htrans. induction l as [|x l IH]; intros Hbody s.
  - apply Hrefl.
  - rewrite forRange_cons. eapply Htrans; [apply Hbody; now left|].
    apply IH. intros y s0 Hy. apply Hbody. now right.
Qed.

Lemma asString_VStr wallet name : asString wallet = Some name -> wallet = VStr name.
Proof. destruct wallet; simpl; congruence. Qed.

(** The loop over the wallets at one height: it is enough to look at
    the iterations over the outputs of enumerated wallets and at the
    scan requests and error lines around them. *)
Lemma walletLoop_rel (R : State -> State -> Prop) cur wallets :
  (forall s, R s s) ->
  (forall s1 s2 s3, R s1 s2 -> R s2 s3 -> R s1 s3) ->
  (forall name u s,
      In (VStr name) wallets ->
      R s (snd (processUnspent name (walletUrlOf name) cur u s))) ->
  (forall s w' new, Forall (ScanEvent wallets) new -> R s (answered s w' new)) ->
  forall s, R s (snd (forRange (processWallet cur) wallets s)).
Proof.
  intros Hrefl Htrans Hstep Hglue. apply (forRange_rel_in R); try assumption.
  intros wallet s Hin.
  destruct (asString wallet) as [name|] eqn:Hn.
  2:{ destruct (processWallet_invalid cur _ s Hn) as [msg ->]. cbn [snd].
      apply (Hglue s (world s) [ELog (LError msg)]). repeat constructor. }
  pose proof (asString_VStr _ _ Hn) as ->.
  destruct (send (world s) (walletUrlOf name) "listunspent"
              [VInt 0; VInt 0; VArr []; VBool true; queryOptions]) as [r w'] eqn:Hs.
  destruct (unspentOf r) as [unspent|] eqn:Hu.
  - rewrite (processWallet_scanned _ _ _ _ _ _ _ Hn Hs Hu).
    eapply Htrans; cycle 1.
    + apply (forRange_rel R); try assumption. intros u s1. now apply Hstep.
    + apply Hglue. repeat constructor. exact Hin.
  - destruct (processWallet_scan_failed cur _ _ s _ _ Hn Hs Hu) as [msg ->]. cbn [snd].
    apply Hglue. repeat constructor. exact Hin.
Qed.

Lemma ScanEvent_loop wallets new :
  Forall (ScanEvent wallets) new -> Forall (LoopEvent wallets) new.
Proof.
  intros H. eapply Forall_impl; [exact H|].
  intros e [msg|name Hin]; [constructor|now constructor].
Qed.

Lemma ScanEvent_glue wallets new :
  Forall (ScanEvent wallets) new -> forallb isGlue new = true.
Proof.
  induction 1 as [|e new He _ IH]; [reflexivity|].
  simpl. rewrite IH, andb_true_r. now destruct He.
Qed.

Lemma ScanEvent_inner wallets new :
  Forall (ScanEvent wallets) new -> forallb isInner new = true.
Proof.
  induction 1 as [|e new He _ IH]; [reflexivity|].
  simpl. rewrite IH, andb_true_r. now destruct He.
Qed.

Lemma newBlockLine_loop wallets cur last :
  Forall (LoopEvent wallets) (newBlockLine cur last).
Proof.
  unfold newBlockLine. destruct (last =? -1); [repeat constructor|].
  destruct (negb _); repeat constructor.
Qed.

(** Any number of iterations of the main loop. *)
Lemma run_rel (R : State -> State -> Prop) wallets :
  (forall s, R s s) ->
  (forall s1 s2 s3, R s1 s2 -> R s2 s3 -> R s1 s3) ->
  (forall name cur u s,
      In (VStr name) wallets ->
      R s (snd (processUnspent name (walletUrlOf name) cur u s))) ->
  (forall s w' new,
      Forall (LoopEvent wallets) new -> forallb isGlue new = true ->
      R s (answered s w' new)) ->
  (forall (s : State) cur,
      R s (mkState (txInfos s) (int_of_float cur) (world s)
             (trace s ++ [ESleep (mul64 (BlockCheckInterval config) second)]))) ->
  forall n s, R s (pollCycles wallets n s).
Proof.
  intros Hrefl Htrans Hstep Hglue Hend n.
  induction n as [|n IH]; intros s; simpl; [apply Hrefl|].
  eapply Htrans; [|apply IH].
  destruct (send (world s) (URL config) "getblockcount" []) as [r w'] eqn:Hs.
  destruct (heightOf r) as [cur|] eqn:Hh.
  - rewrite (pollCycle_fetched _ _ _ _ _ Hs Hh). cbn [snd]. cbv zeta.
    eapply Htrans; [|apply Hend].
    eapply Htrans;
      [|apply (walletLoop_rel R cur wallets); auto;
        intros s0 w0 new Hn; apply Hglue;
        [now apply ScanEvent_loop|now apply (ScanEvent_glue wallets)]].
    apply Hglue.
    + constructor; [constructor|apply newBlockLine_loop].
    + simpl. apply newBlockLine_glue.
  - destruct (pollCycle_unfetched wallets _ _ _ Hs Hh) as [msg ->]. cbn [snd].
    apply Hglue; [|reflexivity]. repeat constructor.
Qed.

(** *** The events of an iteration over an output *)

Lemma reportsAt_output walletUrl walletName cur (s : State) :
  Forall (OutputEvent walletUrl) (reportsAt walletName cur s).
Proof.
  unfold reportsAt, ageReports. destruct (negb _ && negb _); [|constructor].
  apply Forall_forall. intros e He. apply list_elem_of_fmap in He as (x & -> & _).
  now constructor.
Qed.

Lemma processUnspent_events walletName walletUrl cur u (s : State) :
  exists new,
    trace (snd (processUnspent walletName walletUrl cur u s)) = trace s ++ new /\
    Forall (OutputEvent walletUrl) new.
Proof.
  destruct (processUnspent_paths walletName walletUrl cur u s)
    as [msg Hu | txid s1 Hu Ht | txid info1 s1 s2 Hu Ht He].
  - eexists. split; [reflexivity|]. repeat constructor.
  - inversion Ht; subst. eexists. split; [reflexivity|]. repeat constructor.
  - assert (H1 : exists n1, trace s1 = trace s ++ n1 /\ Forall (OutputEvent walletUrl) n1).
    { inversion Ht; subst.
      - exists []. rewrite app_nil_r. now split.
      - eexists. split; [reflexivity|]. repeat constructor. }
    destruct H1 as (n1 & E1 & F1).
    pose proof (reportsAt_output walletUrl walletName cur s1) as Fr.
    destruct He as [Ha | Ha Hd | Ha Hd Hb | r w' newTxid Ha Hd Hb Hs Hr | r w' msg Ha Hd Hb Hs Hr];
      cbn [logged answered trace]; rewrite E1, <- ?app_assoc;
      (eexists; split; [reflexivity|]);
      repeat (apply Forall_app; split; [assumption|]);
      try assumption; repeat constructor.
Qed.

Lemma OutputEvent_loop wallets name e :
  In (VStr name) wallets -> OutputEvent (walletUrlOf name) e -> LoopEvent wallets e.
Proof. intros Hin [l _|txid|txid rounded]; now constructor. Qed.

Lemma OutputEvent_inner walletUrl new :
  Forall (OutputEvent walletUrl) new -> forallb isInner new = true.
Proof.
  induction 1 as [|e new He _ IH]; [reflexivity|].
  simpl. rewrite IH, andb_true_r. destruct He as [[] Hl| |]; simpl in *; congruence.
Qed.

Lemma emits_refl wallets (s : State) : emits wallets s s.
Proof. exists []. rewrite app_nil_r. now split. Qed.

Lemma emits_trans wallets (s1 s2 s3 : State) :
  emits wallets s1 s2 -> emits wallets s2 s3 -> emits wallets s1 s3.
Proof.
  intros (n1 & E1 & F1) (n2 & E2 & F2). exists (n1 ++ n2).
  rewrite E2, E1, app_assoc. split; [reflexivity|]. apply Forall_app. now split.
Qed.

Lemma emits_cycles wallets n (s : State) : emits wallets s (pollCycles wallets n s).
Proof.
  apply (run_rel (emits wallets)).
  - apply emits_refl.
  - apply emits_trans.
  - intros name cur u s0 Hin.
    destruct (processUnspent_events name (walletUrlOf name) cur u s0) as (new & E & F).
    exists new. split; [exact E|]. eapply Forall_impl; [exact F|].
    intros e. now apply OutputEvent_loop.
  - intros s0 w' new F _. now exists new.
  - intros s0 cur. eexists. split; [reflexivity|]. repeat constructor.
Qed.

Lemma inner_refl (s : State) : inner s s.
Proof. exists []. rewrite app_nil_r. now split. Qed.

Lemma inner_trans (s1 s2 s3 : State) : inner s1 s2 -> inner s2 s3 -> inner s1 s3.
Proof.
  intros (n1 & E1 & F1) (n2 & E2 & F2). exists (n1 ++ n2).
  rewrite E2, E1, app_assoc. split; [reflexivity|]. rewrite forallb_app. now rewrite F1, F2.
Qed.

Lemma inner_wallets cur wallets (s : State) :
  inner s (snd (forRange (processWallet cur) wallets s)).
Proof.
  apply (walletLoop_rel inner cur wallets).
  - apply inner_refl.
  - apply inner_trans.
  - intros name u s0 _.
    destruct (processUnspent_events name (walletUrlOf name) cur u s0) as (new & E & F).
    exists new. split; [exact E|]. now apply (OutputEvent_inner (walletUrlOf name)).
  - intros s0 w' new F. exists new. split; [reflexivity|]. now apply (ScanEvent_inner wallets).
Qed.

(** *** Start-up *)

Lemma startup_enumerated w r w' wallets :
  send w (URL config) "listwallets" [] = (r, w') ->
  walletsOf r = Some wallets ->
  startup w = (wallets, mkState ∅ (-1) w' [ERpc (URL config) "listwallets" []]).
Proof.
  intros Hs Hw. unfold startup, rpc. cbn [world txInfos lastBlockHeight trace].
  rewrite Hs. destruct r as [v|]; [|discriminate]. simpl in Hw. now rewrite Hw.
Qed.

Lemma startup_failed w r w' :
  send w (URL config) "listwallets" [] = (r, w') ->
  walletsOf r = None ->
  exists lines,
    startup w = ([], mkState ∅ (-1) w' (ERpc (URL config) "listwallets" [] :: (ELog <$> lines))).
Proof.
  intros Hs Hw. unfold startup, rpc. cbn [world txInfos lastBlockHeight trace].
  rewrite Hs. destruct r as [v|]; simpl in Hw.
  - rewrite Hw. now exists [LError "Invalid wallet list response"].
  - now exists [LError "Error listing wallets"; LError "Invalid wallet list response"].
Qed.

Lemma startup_shape w :
  exists lines w',
    snd (startup w) =
      mkState ∅ (-1) w' (ERpc (URL config) "listwallets" [] :: (ELog <$> lines)).
Proof.
  destruct (send w (URL config) "listwallets" []) as [r w'] eqn:Hs.
  destruct (walletsOf r) as [wallets|] eqn:Hw.
  - rewrite (startup_enumerated _ _ _ _ Hs Hw). now exists [], w'.
  - destruct (startup_failed _ _ _ Hs Hw) as [lines ->]. now exists lines, w'.
Qed.

Lemma main_unfold w n : main w n = pollCycles (fst (startup w)) n (snd (startup w)).
Proof. unfold main. now destruct (startup w). Qed.

Lemma LoopEvent_not_listwallets wallets new :
  Forall (LoopEvent wallets) new -> count isListwallets new = 0%nat.
Proof.
  intros F. apply count_none. intros e He.
  rewrite Forall_forall in F. apply list_elem_of_In in He.
  destruct (F e He); reflexivity.
Qed.

Lemma lines_loop wallets (lines : list LogLine) : Forall (LoopEvent wallets) (ELog <$> lines).
Proof. apply Forall_fmap, Forall_forall. intros l _. constructor. Qed.

(** X1. Whatever the node answers, the whole run makes one
    [listwallets] request, which is its first request (no request is
    among the events before it), and after it only log lines, the sleep,
    [getblockcount] requests to the node, and [listunspent],
    [gettransaction] and [bumpfee] requests to the sub-URL of a wallet
    named in that first answer: wallets are never enumerated again and
    no other wallet or method is ever addressed. *)
Theorem X1_requests_of_a_run w n :
  exists before new,
    trace (main w n) = before ++ ERpc (URL config) "listwallets" [] :: new /\
    count isRpc before = 0%nat /\
    Forall (LoopEvent (fst (startup w))) new /\
    count isListwallets (trace (main w n)) = 1%nat.
Proof.
  rewrite main_unfold.
  destruct (emits_cycles (fst (startup w)) n (snd (startup w))) as (new & E & F).
  destruct (startup_shape w) as (lines & w' & Es). rewrite E, Es. cbn [trace].
  exists [], ((ELog <$> lines) ++ new). split; [reflexivity|]. split; [reflexivity|].
  assert (Fall : Forall (LoopEvent (fst (startup w))) ((ELog <$> lines) ++ new)).
  { apply Forall_app. split; [apply lines_loop|exact F]. }
  split; [exact Fall|].
  change (count isListwallets
            ([ERpc (URL config) "listwallets" []] ++ ((ELog <$> lines) ++ new)) = 1%nat).
  rewrite count_app, (LoopEvent_not_listwallets _ _ Fall). reflexivity.
Qed.

(** X2. When the [listwallets] call of start-up fails, or its result is
    no list, the wallet list stays empty for the whole run: the store
    stays empty and the only requests ever made after it are
    [getblockcount] requests to the node. *)
Theorem X2_failed_enumeration_is_final w n r w' :
  send w (URL config) "listwallets" [] = (r, w') ->
  walletsOf r = None ->
  txInfos (main w n) = ∅ /\
  forall e,
    In e (trace (main w n)) -> isRpc e = true ->
    e = ERpc (URL config) "listwallets" [] \/ e = ERpc (URL config) "getblockcount" [].
Proof.
  intros Hs Hw. rewrite main_unfold.
  destruct (startup_failed _ _ _ Hs Hw) as [lines Es]. rewrite Es. cbn [fst snd].
  split.
  - apply (run_rel (fun s s' : State => txInfos s' = txInfos s) []); try reflexivity.
    + intros s1 s2 s3 E1 E2. congruence.
    + intros name cur u s0 [].
  - destruct (emits_cycles [] n
                (mkState ∅ (-1) w' (ERpc (URL config) "listwallets" [] :: (ELog <$> lines))))
      as (new & E & F).
    rewrite E. cbn [trace]. intros e He Hr.
    destruct He as [<-|He]; [now left|]. right.
    apply in_app_iff in He as [He|He].
    + apply in_map_iff in He as (l & <- & _). discriminate Hr.
    + rewrite Forall_forall in F. apply list_elem_of_In in He.
      destruct (F e He) as [l| | |name []|name txid []|name txid rounded []];
        [discriminate Hr|discriminate Hr|reflexivity].
Qed.

(** *** One successful iteration of the main loop *)

Lemma newBlockLine_when cur last :
  newBlockLine cur last =
    if (last =? -1) || negb (int_of_float cur =? last)
    then [ELog (LNewBlock (int_of_float cur))] else [].
Proof. unfold newBlockLine. destruct (last =? -1); [reflexivity|]. now destruct (negb _). Qed.

(** X3. A poll cycle whose height request is answered with a number
    makes that one [getblockcount] request, logs the new-block line once
    if the cursor is -1 or differs from the height and not at all
    otherwise, runs the loop over the wallets (which makes no request to
    the node itself and neither sleeps nor logs a new block), and ends
    with exactly one sleep of the configured interval, the cursor set to
    the height, whatever failed in between. *)
Theorem X3_successful_cycle_shape wallets (s : State) r w' cur :
  send (world s) (URL config) "getblockcount" [] = (r, w') ->
  heightOf r = Some cur ->
  lastBlockHeight (snd (pollCycle wallets s)) = int_of_float cur /\
  exists body,
    trace (snd (pollCycle wallets s)) =
      trace s ++
      [ERpc (URL config) "getblockcount" []] ++
      (if (lastBlockHeight s =? -1) || negb (int_of_float cur =? lastBlockHeight s)
       then [ELog (LNewBlock (int_of_float cur))] else []) ++
      body ++
      [ESleep (wrap64 (BlockCheckInterval config * 1000000000))] /\
    forallb isInner body = true.
Proof.
  intros Hs Hh. rewrite (pollCycle_fetched _ _ _ _ _ Hs Hh). cbn [snd]. cbv zeta.
  cbn [lastBlockHeight trace]. split; [reflexivity|].
  destruct (inner_wallets cur wallets
              (answered s w' (ERpc (URL config) "getblockcount" []
                                :: newBlockLine cur (lastBlockHeight s))))
    as (body & E & F).
  exists body. rewrite E. cbn [answered trace]. rewrite newBlockLine_when.
  split; [|exact F]. rewrite <- !app_assoc. reflexivity.
Qed.

(** *** A cycle at the height of the cursor *)

Lemma quiet_step walletName walletUrl cur u (s : State) :
  lastBlockHeight s = int_of_float cur ->
  lastBlockHeight (snd (processUnspent walletName walletUrl cur u s)) = int_of_float cur /\
  exists new,
    trace (snd (processUnspent walletName walletUrl cur u s)) = trace s ++ new /\
    noReport new.
Proof.
  intros Hlast.
  destruct (processUnspent_paths walletName walletUrl cur u s)
    as [msg Hu | txid s1 Hu Ht | txid info1 s1 s2 Hu Ht He].
  - split; [exact Hlast|]. eexists. split; reflexivity.
  - apply tracked_events in Ht as (E & n1 & En & N1). split; [congruence|]. eauto.
  - apply tracked_events in Ht as (E & n1 & En & N1).
    apply escalated_events in He as (E2 & n2 & En2 & N2). simpl in *.
    split; [congruence|].
    assert (Hr : reportsAt walletName cur s1 = []).
    { unfold reportsAt. rewrite E, Hlast, Z.eqb_refl. reflexivity. }
    rewrite Hr, app_nil_r in En2. exists (n1 ++ n2). rewrite En2, En, app_assoc.
    split; [reflexivity|]. now apply noReport_app.
Qed.

(** X4. In a poll cycle whose height equals the cursor, no age report
    is emitted, for any wallet and any number of outputs. *)
Theorem X4_unchanged_height_no_age_report wallets (s : State) r w' cur :
  send (world s) (URL config) "getblockcount" [] = (r, w') ->
  heightOf r = Some cur ->
  int_of_float cur = lastBlockHeight s ->
  exists new,
    trace (snd (pollCycle wallets s)) = trace s ++ new /\
    count isAgeReport new = 0%nat.
Proof.
  intros Hs Hh Hsame. rewrite (pollCycle_fetched _ _ _ _ _ Hs Hh). cbn [snd]. cbv zeta.
  cbn [trace].
  set (s1 := answered s w' _).
  pose (R := fun a b : State =>
               lastBlockHeight a = int_of_float cur ->
               lastBlockHeight b = int_of_float cur /\
               exists new, trace b = trace a ++ new /\ noReport new).
  assert (HR : R s1 (snd (forRange (processWallet cur) wallets s1))).
  { apply (walletLoop_rel R cur wallets).
    - intros a Ha. split; [exact Ha|]. exists []. now rewrite app_nil_r.
    - intros a b c Hab Hbc Ha. destruct (Hab Ha) as (Hb & n1 & E1 & N1).
      destruct (Hbc Hb) as (Hc & n2 & E2 & N2). split; [exact Hc|].
      exists (n1 ++ n2). rewrite E2, E1, app_assoc. split; [reflexivity|].
      now apply noReport_app.
    - intros name u a _ Ha. now apply quiet_step.
    - intros a w0 new F Ha. split; [exact Ha|]. exists new. split; [reflexivity|].
      apply glue_noReport. now apply (ScanEvent_glue wallets). }
  destruct HR as (_ & n & En & Nn); [subst s1; cbn [answered lastBlockHeight]; congruence|].
  rewrite En. subst s1. cbn [answered trace].
  eexists. split; [rewrite <- !app_assoc; reflexivity|].
  apply noReport_count. apply (noReport_app (_ :: _) (n ++ _)).
  - apply (glue_noReport (_ :: _)). simpl. apply newBlockLine_glue.
  - apply noReport_app; [exact Nn|reflexivity].
Qed.

(** *** An entry below the age threshold *)

Lemma dormant_step k info walletName walletUrl cur u (s : State) :
  (BumpfeeBlockInterval config <=? ageBlocks cur info) = false ->
  dormant k info s (snd (processUnspent walletName walletUrl cur u s)).
Proof.
  intros Hyoung Hk.
  destruct (processUnspent_paths walletName walletUrl cur u s)
    as [msg Hu | txid s1 Hu Ht | txid info1 s1 s2 Hu Ht He].
  - split; [exact Hk|]. eexists. split; [reflexivity|]. now split.
  - inversion Ht; subst. split; [exact Hk|]. eexists. split; [reflexivity|]. now split.
  - assert (Hs1 : txInfos s1 !! k = Some info /\
                  (txid = k -> info1 = info) /\
                  exists new, trace s1 = trace s ++ new /\
                    count (isBumpfeeOf k) new = 0%nat /\
                    count (isProposalOf k) new = 0%nat).
    { inversion Ht; subst.
      - split; [exact Hk|]. split; [intros ->; congruence|].
        exists []. now rewrite app_nil_r.
      - assert (txid <> k) by congruence.
        split; [simpl; now rewrite lookup_insert_ne|]. split; [congruence|].
        eexists. split; [reflexivity|]. now split. }
    destruct Hs1 as (Hk1 & Hsame & n1 & E1 & C1 & P1).
    assert (Hrb : count (isBumpfeeOf k) (reportsAt walletName cur s1) = 0%nat)
      by (apply count_reportsAt; reflexivity).
    assert (Hrp : count (isProposalOf k) (reportsAt walletName cur s1) = 0%nat)
      by (apply count_reportsAt; reflexivity).
    assert (Hne : (BumpfeeBlockInterval config <=? ageBlocks cur info1) = true -> txid <> k).
    { intros Ha E. rewrite (Hsame E) in Ha. congruence. }
    destruct He as [Ha | Ha Hd | Ha Hd Hb | r w' newTxid Ha Hd Hb Hs Hr | r w' msg Ha Hd Hb Hs Hr];
      cbn [logged answered trace txInfos];
      try (pose proof (Hne Ha) as Hneq;
           pose proof (proj2 (String.eqb_neq txid k) Hneq) as Heqb);
      (split; [try exact Hk1; now rewrite lookup_delete_ne|]);
      rewrite E1, <- ?app_assoc; (eexists; split; [reflexivity|]);
      rewrite !count_app, C1, P1, Hrb, Hrp; simpl; rewrite ?Heqb; now split.
Qed.

(** X5. In a poll cycle at whose height a tracked transaction is
    younger than the interval, the transaction is neither proposed for
    escalation nor bumped, however often it is listed, and its entry is
    still there, unchanged, at the end of the cycle. *)
Theorem X5_young_entry_dormant wallets (s : State) r w' cur k info :
  send (world s) (URL config) "getblockcount" [] = (r, w') ->
  heightOf r = Some cur ->
  txInfos s !! k = Some info ->
  (BumpfeeBlockInterval config <=? ageBlocks cur info) = false ->
  txInfos (snd (pollCycle wallets s)) !! k = Some info /\
  exists new,
    trace (snd (pollCycle wallets s)) = trace s ++ new /\
    count (isBumpfeeOf k) new = 0%nat /\
    count (isProposalOf k) new = 0%nat.
Proof.
  intros Hs Hh Hk Hyoung. rewrite (pollCycle_fetched _ _ _ _ _ Hs Hh). cbn [snd]. cbv zeta.
  cbn [trace txInfos].
  set (s1 := answered s w' _).
  assert (HR : dormant k info s1 (snd (forRange (processWallet cur) wallets s1))).
  { apply (walletLoop_rel (dormant k info) cur wallets).
    - intros a Ha. split; [exact Ha|]. exists []. now rewrite app_nil_r.
    - intros a b c Hab Hbc Ha. destruct (Hab Ha) as (Hb & n1 & E1 & C1 & P1).
      destruct (Hbc Hb) as (Hc & n2 & E2 & C2 & P2). split; [exact Hc|].
      exists (n1 ++ n2). rewrite E2, E1, app_assoc, !count_app, C1, C2, P1, P2. now split.
    - intros name u a _. now apply dormant_step.
    - intros a w0 new F Ha. split; [exact Ha|]. exists new. split; [reflexivity|].
      split; apply count_none; intros e He;
        rewrite Forall_forall in F; apply list_elem_of_In in He;
        destruct (F e He); reflexivity. }
  destruct (HR Hk) as (Hk' & n & En & Cn & Pn).
  split; [exact Hk'|]. rewrite En. subst s1. cbn [answered trace].
  eexists. split; [rewrite <- !app_assoc; reflexivity|].
  assert (Hnb : forall p, (forall h, p (ELog (LNewBlock h)) = false) ->
                 count p (newBlockLine cur (lastBlockHeight s)) = 0%nat).
  { intros p Hp. rewrite newBlockLine_when. destruct (_ || _); simpl; [now rewrite Hp|reflexivity]. }
  change (ERpc (URL config) "getblockcount" [] :: newBlockLine cur (lastBlockHeight s))
    with ([ERpc (URL config) "getblockcount" []] ++ newBlockLine cur (lastBlockHeight s)).
  rewrite !count_app, !Hnb, Cn, Pn by reflexivity. now split.
Qed.

(** *** The first sighting of a transaction *)

Lemma ageBlocks_first walletName cur rate :
  ageBlocks cur (mkTxInfo walletName (int_of_float cur) rate) = 0.
Proof. unfold ageBlocks, sub64. cbn [FirstBlockHeight]. now rewrite Z.sub_diag. Qed.

(** X6. With a positive interval, an output of a transaction that is
    not in the store and whose detail is fetched with a fee and a hex
    string adds exactly the new entry to the store; the only request of
    the iteration is the [gettransaction] one, so a transaction is never
    bumped in the iteration that first sees it. *)
Theorem X6_first_sighting_only_tracks walletName walletUrl cur u txid (s : State) r w' fee hex :
  txidOf u = Some txid ->
  txInfos s !! txid = None ->
  send (world s) walletUrl "gettransaction" [VStr txid] = (r, w') ->
  txDetailOf r = Some (fee, hex) ->
  0 < BumpfeeBlockInterval config ->
  txInfos (snd (processUnspent walletName walletUrl cur u s)) =
    <[txid := mkTxInfo walletName (int_of_float cur) (feerate_of fee hex)]> (txInfos s) /\
  exists new,
    trace (snd (processUnspent walletName walletUrl cur u s)) = trace s ++ new /\
    List.filter isRpc new = [ERpc walletUrl "gettransaction" [VStr txid]].
Proof.
  intros Hu Hnew Hs Hd Hpos.
  rewrite (processUnspent_valid _ _ _ _ _ _ Hu).
  rewrite (track_new walletName _ cur _ _ _ _ _ _ Hnew Hs Hd).
  rewrite escalate_young.
  2:{ rewrite ageBlocks_first. now apply Z.leb_gt. }
  cbn [snd logged txInfos trace]. split; [reflexivity|].
  eexists. split; [rewrite <- app_assoc; reflexivity|].
  rewrite List.filter_app, filter_reportsAt by reflexivity. reflexivity.
Qed.

(** X7. With an interval of zero or less the escalation test is passed
    at the first sighting: when the candidate of the new entry clears
    the minimum increment and the apply policy is on, the iteration that
    fetches the detail also sends the [bumpfee] request, with the
    rounded candidate of the entry just created. *)
Theorem X7_zero_interval_bumps_at_once walletName walletUrl cur u txid (s : State) r w' fee hex :
  txidOf u = Some txid ->
  txInfos s !! txid = None ->
  send (world s) walletUrl "gettransaction" [VStr txid] = (r, w') ->
  txDetailOf r = Some (fee, hex) ->
  BumpfeeBlockInterval config <= 0 ->
  (1 <=? candidate (mkTxInfo walletName (int_of_float cur) (feerate_of fee hex))
         - feerate_of fee hex)%float = true ->
  IsBump config = true ->
  exists new,
    trace (snd (processUnspent walletName walletUrl cur u s)) = trace s ++ new /\
    List.filter isRpc new =
      [ERpc walletUrl "gettransaction" [VStr txid];
       ERpc walletUrl "bumpfee"
         (bumpfeeParams txid
            (newFeerateRounded (mkTxInfo walletName (int_of_float cur) (feerate_of fee hex))))].
Proof.
  intros Hu Hnew Hs Hd Hz Hdelta Hb.
  rewrite (processUnspent_valid _ _ _ _ _ _ Hu).
  rewrite (track_new walletName _ cur _ _ _ _ _ _ Hnew Hs Hd).
  set (info := mkTxInfo walletName (int_of_float cur) (feerate_of fee hex)) in *.
  set (s1 := mkState _ _ _ _).
  assert (Ha : (BumpfeeBlockInterval config <=? ageBlocks cur info) = true).
  { subst info. rewrite ageBlocks_first. now apply Z.leb_le. }
  assert (Hrep : List.filter isRpc (reportsAt walletName cur s1) = [])
    by (apply filter_reportsAt; reflexivity).
  destruct (send (world (logged s1 (reportsAt walletName cur s1))) walletUrl "bumpfee"
              (bumpfeeParams txid (newFeerateRounded info))) as [r2 w2] eqn:Hs2.
  destruct (replacementId r2) as [newTxid|] eqn:Hr.
  - rewrite (escalate_bumped _ _ _ _ _ _ _ _ Ha Hdelta Hb Hs2 Hr).
    subst s1. cbn [snd logged trace]. eexists. split; [rewrite <- !app_assoc; reflexivity|].
    rewrite !List.filter_app, Hrep. reflexivity.
  - destruct (escalate_bump_failed _ _ _ _ _ _ _ Ha Hdelta Hb Hs2 Hr) as [msg ->].
    subst s1. cbn [snd logged answered trace].
    eexists. split; [rewrite <- !app_assoc; reflexivity|].
    rewrite !List.filter_app, Hrep. reflexivity.
Qed.

(** *** Units of work that are skipped *)

(** X8. A scanned output that is no object, or has no string ["txid"],
    costs one error line and nothing else: the outputs listed after it
    are processed from the state the outputs before it left, with the
    same store and no request made for it. *)
Theorem X8_invalid_output_skipped walletName walletUrl cur before u after (s : State) :
  txidOf u = None ->
  exists msg,
    snd (forRange (processUnspent walletName walletUrl cur) (before ++ u :: after) s) =
    snd (forRange (processUnspent walletName walletUrl cur) after
           (logged (snd (forRange (processUnspent walletName walletUrl cur) before s))
              [ELog (LError msg)])).
Proof.
  intros Hu.
  destruct (processUnspent_invalid walletName walletUrl cur u
              (snd (forRange (processUnspent walletName walletUrl cur) before s)) Hu)
    as [msg E].
  exists msg. now rewrite forRange_app, forRange_cons, E.
Qed.

(** X9. When the detail of a transaction that is not in the store
    cannot be fetched (an RPC error, or an answer without a numeric fee
    and a string hex), the transaction is not tracked: the iteration
    adds its request and one error line to the trace, leaves the store
    as it was, and the outputs listed after it are processed from
    there. *)
Theorem X9_failed_detail_not_tracked walletName walletUrl cur before u after txid (s : State) r w' :
  txidOf u = Some txid ->
  txInfos (snd (forRange (processUnspent walletName walletUrl cur) before s)) !! txid = None ->
  send (world (snd (forRange (processUnspent walletName walletUrl cur) before s)))
    walletUrl "gettransaction" [VStr txid] = (r, w') ->
  txDetailOf r = None ->
  exists msg,
    snd (forRange (processUnspent walletName walletUrl cur) (before ++ u :: after) s) =
    snd (forRange (processUnspent walletName walletUrl cur) after
           (answered (snd (forRange (processUnspent walletName walletUrl cur) before s)) w'
              [ERpc walletUrl "gettransaction" [VStr txid]; ELog (LError msg)])).
Proof.
  intros Hu Hnew Hs Hd.
  destruct (track_new_fail walletName _ cur _ _ _ _ Hnew Hs Hd) as [msg E].
  exists msg. rewrite forRange_app, forRange_cons.
  now rewrite (processUnspent_valid _ _ _ _ _ _ Hu), E.
Qed.

(** X10. An entry of the wallet list that is no string costs one error
    line and nothing else: no request is made for it and the entries
    after it are processed from the state the entries before it left. *)
Theorem X10_invalid_wallet_entry_skipped cur before wallet after (s : State) :
  asString wallet = None ->
  exists msg,
    snd (forRange (processWallet cur) (before ++ wallet :: after) s) =
    snd (forRange (processWallet cur) after
           (logged (snd (forRange (processWallet cur) before s)) [ELog (LError msg)])).
Proof.
  intros Hn.
  destruct (processWallet_invalid cur wallet (snd (forRange (processWallet cur) before s)) Hn)
    as [msg E].
  exists msg. now rewrite forRange_app, forRange_cons, E.
Qed.

(** *** What an iteration does to the store *)

Lemma processUnspent_lookup walletName walletUrl cur u (s : State) k info :
  txInfos (snd (processUnspent walletName walletUrl cur u s)) !! k = Some info ->
  txInfos s !! k = Some info \/
  (txInfos s !! k = None /\ txidOf u = Some k /\
   exists fee hex, info = mkTxInfo walletName (int_of_float cur) (feerate_of fee hex)).
Proof.
  destruct (processUnspent_paths walletName walletUrl cur u s)
    as [msg Hu | txid s1 Hu Ht | txid info1 s1 s2 Hu Ht He].
  - cbn [logged txInfos]. now left.
  - inversion Ht; subst. cbn [answered txInfos]. now left.
  - assert (H1 : forall i, txInfos s1 !! k = Some i ->
              txInfos s !! k = Some i \/
              (txInfos s !! k = None /\ txidOf u = Some k /\
               exists fee hex, i = mkTxInfo walletName (int_of_float cur) (feerate_of fee hex))).
    { intros i. inversion Ht; subst; [now left|]. cbn [txInfos].
      destruct (decide (k = txid)) as [->|Hne].
      - rewrite lookup_insert_eq. intros [= <-]. right. eauto 6.
      - rewrite lookup_insert_ne by congruence. now left. }
    destruct He; cbn [logged answered txInfos]; intros Hk; try (now apply H1).
    + apply H1. destruct (decide (k = txid)) as [->|Hne].
      * rewrite lookup_delete_eq in Hk. discriminate Hk.
      * now rewrite lookup_delete_ne in Hk by congruence.
    + apply H1. destruct (decide (k = txid)) as [->|Hne].
      * rewrite lookup_delete_eq in Hk. discriminate Hk.
      * now rewrite lookup_delete_ne in Hk by congruence.
Qed.

Lemma int_of_float_range f : in_int64 (int_of_float f) = true.
Proof.
  unfold int_of_float. destruct (trunc_float f) as [z|]; [|reflexivity].
  destruct (in_int64 z) eqn:E; [exact E|reflexivity].
Qed.

(** X13. At every point of a run, every entry of the store belongs to
    a wallet of the list enumerated at start-up, has a first-seen height
    within the range of [int], and a fee rate that was computed by the
    estimate from some fee and hex string. *)
Theorem X13_entries_of_enumerated_wallets w n :
  entriesOf (fst (startup w)) (txInfos (main w n)).
Proof.
  rewrite main_unfold.
  assert (H0 : entriesOf (fst (startup w)) (txInfos (snd (startup w)))).
  { destruct (startup_shape w) as (lines & w' & ->). intros k info Hk.
    cbn [txInfos] in Hk. now rewrite lookup_empty in Hk. }
  revert H0. generalize (snd (startup w)). generalize (fst (startup w)) as wallets.
  intros wallets s.
  apply (run_rel (fun a b : State =>
                    entriesOf wallets (txInfos a) -> entriesOf wallets (txInfos b)) wallets).
  - auto.
  - auto.
  - intros name cur u a Hin Ha k info Hk.
    apply processUnspent_lookup in Hk as [Hk|(_ & _ & fee & hex & ->)];
      [exact (Ha k info Hk)|].
    cbn [WalletName FirstBlockHeight CurrentFeerate].
    split; [exact Hin|]. split; [apply int_of_float_range|eauto].
  - intros a w' new _ _ Ha. exact Ha.
  - intros a cur Ha. exact Ha.
Qed.

(** X14. An iteration over an output touches at most the entry of the
    id that the output carries: the entry of every other id, and every
    entry when the output carries no id, is exactly as before. *)
Theorem X14_other_entries_untouched walletName walletUrl cur u (s : State) k :
  txidOf u <> Some k ->
  txInfos (snd (processUnspent walletName walletUrl cur u s)) !! k = txInfos s !! k.
Proof.
  intros Hne.
  destruct (processUnspent_paths walletName walletUrl cur u s)
    as [msg Hu | txid s1 Hu Ht | txid info1 s1 s2 Hu Ht He].
  - reflexivity.
  - inversion Ht; subst. reflexivity.
  - assert (Hk : txid <> k) by congruence.
    assert (H1 : txInfos s1 !! k = txInfos s !! k).
    { inversion Ht; subst; [reflexivity|]. cbn [txInfos]. now rewrite lookup_insert_ne. }
    destruct He; cbn [logged answered txInfos]; rewrite ?lookup_delete_ne by exact Hk;
      exact H1.
Qed.

End MonitorFacts.

(** C4 (amended). The candidate is [r + a] when that does not exceed
    the cap and the cap otherwise: with a cap that is a number it is the
    minimum of the two, that is, a rate is at most the candidate exactly
    when it is at most [r + a] and at most the cap.  (So the candidate
    is at least [r], or at least 0, exactly when both [r + a] and the
    cap are.) *)
Theorem C4_candidate_is_min (r a c : float) :
  is_nan c = false ->
  (newFeerate_of r a c = (r + a)%float \/ newFeerate_of r a c = c) /\
  forall x : float,
    (x <=? newFeerate_of r a c)%float = (x <=? r + a)%float && (x <=? c)%float.
Proof.
  intros Hc. split.
  - unfold newFeerate_of. destruct (c <? r + a)%float; [now right|now left].
  - intros x. now apply newFeerate_glb.
Qed.

(** ** The label filter *)

Section LabelFilterFacts.

Import LabelFilter.

Context {Sink : Type}.
Variable env : @Env Sink.

Lemma hasPrefix_spec s sub :
  hasPrefix s sub = true <-> exists post, s = (sub ++ post)%string.
Proof.
  revert s. induction sub as [|c sub IH]; intros s; simpl.
  - split; [intros _; now exists s|intros _; now destruct s].
  - destruct s as [|d s]; simpl.
    + split; [discriminate|]. intros [post H]. discriminate H.
    + rewrite andb_true_iff, IH. split.
      * intros [Hc [post ->]]. apply Ascii.eqb_eq in Hc as ->. now exists post.
      * intros [post H]. injection H as -> ->. split; [apply Ascii.eqb_refl|now exists post].
Qed.

Lemma contains_spec s sub :
  contains s sub = true <-> exists pre post, s = (pre ++ sub ++ post)%string.
Proof.
  induction s as [|d s IH].
  - cbn [contains]. rewrite orb_false_r, hasPrefix_spec. split.
    + intros [post H]. now exists EmptyString, post.
    + intros (pre & post & H). destruct pre; [now exists post|discriminate H].
  - cbn [contains]. rewrite orb_true_iff, IH, hasPrefix_spec. split.
    + intros [[post H]|(pre & post & ->)].
      * now exists EmptyString, post.
      * now exists (String d pre), post.
    + intros (pre & post & H). destruct pre as [|c pre].
      * left. now exists post.
      * right. injection H as _ ->. now exists pre, post.
Qed.

Lemma labelled_cons line ls :
  labelled (line :: ls) =
    if contains line "label" then (line ++ newline)%string :: labelled ls else labelled ls.
Proof. unfold labelled. cbn [List.filter]. now destruct (contains line "label"). Qed.

(** The loop either writes every labelled line and runs to its end, or
    stops right after the first write that fails. *)
Lemma scanLoop_outcome ls sink :
  (snd (scanLoop env ls sink) = true /\
   fst (scanLoop env ls sink) = WriteString <$> labelled ls) \/
  (snd (scanLoop env ls sink) = false /\
   exists k err,
     (k < length (labelled ls))%nat /\
     fst (scanLoop env ls sink) =
       (WriteString <$> take (S k) (labelled ls)) ++
       [Println "Error writing to output file:" err]).
Proof.
  revert sink. induction ls as [|line ls IH]; intros sink.
  - left. now split.
  - cbn [scanLoop]. rewrite labelled_cons.
    destruct (contains line "label"); [|apply IH].
    destruct (writeString env sink (line ++ newline)%string) as [[err|] sink'].
    + right. split; [reflexivity|]. exists 0%nat, err. split; [simpl; lia|reflexivity].
    + specialize (IH sink'). destruct (scanLoop env ls sink') as [events finished].
      cbn [fst snd] in *. destruct IH as [[-> ->]|(-> & k & err & Hk & ->)].
      * left. now split.
      * right. split; [reflexivity|]. exists (S k), err. split; [simpl; lia|reflexivity].
Qed.

Lemma scanLoop_all_written ls sink :
  (forall snk x, fst (writeString env snk x) = None) ->
  snd (scanLoop env ls sink) = true.
Proof.
  intros Hok. revert sink. induction ls as [|line ls IH]; intros sink; [reflexivity|].
  cbn [scanLoop]. destruct (contains line "label"); [|apply IH].
  specialize (Hok sink (line ++ newline)%string).
  destruct (writeString env sink (line ++ newline)%string) as [[err|] sink'];
    [discriminate Hok|].
  specialize (IH sink'). now destruct (scanLoop env ls sink').
Qed.

Lemma writesOf_app l1 l2 : writesOf (l1 ++ l2) = writesOf l1 ++ writesOf l2.
Proof.
  induction l1 as [|e l1 IH]; [reflexivity|]. destruct e; simpl; now rewrite IH.
Qed.

Lemma writesOf_writes l : writesOf (WriteString <$> l) = l.
Proof.
  induction l as [|x l IH]; [reflexivity|].
  rewrite fmap_cons. cbn [writesOf]. now rewrite IH.
Qed.

Lemma labelled_In x ls :
  In x (labelled ls) ->
  exists line pre post,
    In line ls /\ line = (pre ++ "label" ++ post)%string /\ x = (line ++ newline)%string.
Proof.
  unfold labelled. rewrite <- list_elem_of_In, list_elem_of_fmap.
  intros (line & -> & Hin). apply list_elem_of_In, filter_In in Hin as [Hin Hc].
  apply contains_spec in Hc as (pre & post & E). now exists line, pre, post.
Qed.

(** The run once the configuration is read and both files are open. *)
Lemma main_opened bytes config scanned sink :
  configFile env = Ok bytes ->
  unmarshal env bytes = Ok config ->
  openInput env (InputFilePath config) = Ok scanned ->
  createOutput env (OutputFilePath config) = Ok sink ->
  main env =
    fst (scanLoop env (lines scanned) sink) ++
    (if snd (scanLoop env (lines scanned) sink) then
       match scanErr scanned with
       | Some err => [Println "Error reading input file:" err]
       | None => []
       end
     else []) ++
    [Flush; CloseOutput; CloseInput].
Proof.
  intros Hc Hu Ho Hk. unfold main. rewrite Hc, Hu, Ho, Hk.
  now destruct (scanLoop env (lines scanned) sink).
Qed.

(** X11. Once the configuration is read and both files are open, the
    strings handed to the writer are, in input order, lines of the
    input that contain the bytes of "label" somewhere, each followed by
    one line feed; they are an initial part of the list of all such
    lines, and the whole list when no write fails.  Lines without
    "label" are never written. *)
Theorem X11_written_lines bytes config scanned sink :
  configFile env = Ok bytes ->
  unmarshal env bytes = Ok config ->
  openInput env (InputFilePath config) = Ok scanned ->
  createOutput env (OutputFilePath config) = Ok sink ->
  (exists k, writesOf (main env) = take k (labelled (lines scanned))) /\
  ((forall snk x, fst (writeString env snk x) = None) ->
   writesOf (main env) = labelled (lines scanned)) /\
  (forall x,
     In x (writesOf (main env)) ->
     exists line pre post,
       In line (lines scanned) /\
       line = (pre ++ "label" ++ post)%string /\
       x = (line ++ newline)%string).
Proof.
  intros Hc Hu Ho Hk.
  assert (Hw : writesOf (main env) = writesOf (fst (scanLoop env (lines scanned) sink))).
  { rewrite (main_opened _ _ _ _ Hc Hu Ho Hk), !writesOf_app.
    destruct (snd _); [destruct (scanErr scanned)|]; simpl; now rewrite app_nil_r. }
  assert (Hpre : exists k, writesOf (main env) = take k (labelled (lines scanned))).
  { rewrite Hw.
    destruct (scanLoop_outcome (lines scanned) sink) as [[_ ->]|(_ & k & err & _ & ->)].
    - exists (length (labelled (lines scanned))). now rewrite writesOf_writes, firstn_all.
    - exists (S k). rewrite writesOf_app, writesOf_writes. simpl. now rewrite app_nil_r. }
  split; [exact Hpre|]. split.
  - intros Hok. rewrite Hw.
    destruct (scanLoop_outcome (lines scanned) sink) as [[_ ->]|(Hf & _)].
    + apply writesOf_writes.
    + rewrite (scanLoop_all_written _ _ Hok) in Hf. discriminate Hf.
  - intros x Hx. destruct Hpre as [k Ek]. rewrite Ek in Hx.
    apply labelled_In. apply list_elem_of_In in Hx.
    apply elem_of_take in Hx as (i & Hi & _).
    apply list_elem_of_In, list_elem_of_lookup. now exists i.
Qed.

(** X12. Once the input file is open, every run closes it last.  When
    the output file cannot be created, nothing else happens after the
    error line.  When it is created, the run ends by flushing the
    writer, closing the output and closing the input, in that order,
    and before that it either wrote every labelled line and reported
    the scanner's error, if any, or stopped at the first failed write
    with that error line alone, the scanner's error unreported. *)
Theorem X12_run_outcomes bytes config scanned :
  configFile env = Ok bytes ->
  unmarshal env bytes = Ok config ->
  openInput env (InputFilePath config) = Ok scanned ->
  match createOutput env (OutputFilePath config) with
  | Err err => main env = [Println "Error creating output file:" err; CloseInput]
  | Ok _ =>
      main env =
        (WriteString <$> labelled (lines scanned)) ++
        match scanErr scanned with
        | Some err => [Println "Error reading input file:" err]
        | None => []
        end ++
        [Flush; CloseOutput; CloseInput]
      \/
      exists k err,
        (k < length (labelled (lines scanned)))%nat /\
        main env =
          (WriteString <$> take (S k) (labelled (lines scanned))) ++
          [Println "Error writing to output file:" err; Flush; CloseOutput; CloseInput]
  end.
Proof.
  intros Hc Hu Ho.
  destruct (createOutput env (OutputFilePath config)) as [sink|err] eqn:Hk.
  2:{ unfold main. now rewrite Hc, Hu, Ho, Hk. }
  rewrite (main_opened _ _ _ _ Hc Hu Ho Hk).
  destruct (scanLoop_outcome (lines scanned) sink) as [[-> ->]|(-> & k & err & Hlt & ->)].
  - now left.
  - right. exists k, err. split; [exact Hlt|]. now rewrite <- app_assoc.
Qed.

End LabelFilterFacts.

(** ** The claims on concrete runs *)

Import Scenario.

Lemma C4_candidate_is_min_witness :
  is_nan 10%float = false /\
  (newFeerate_of 9.5 2 10 = (9.5 + 2)%float \/ newFeerate_of 9.5 2 10 = 10%float) /\
  forall x : float,
    (x <=? newFeerate_of 9.5 2 10)%float = (x <=? 9.5 + 2)%float && (x <=? 10)%float.
Proof.
  split; [reflexivity|]. apply (C4_candidate_is_min 9.5 2 10). reflexivity.
Defined.

(** With a tracked rate of 5 and an increment of 2, a cap of 3 gives a
    candidate of 3, below the tracked rate; a cap of -1 gives a negative
    candidate. *)
Lemma C4_counterexample :
  newFeerate_of 5 2 3 = 3%float /\
  (newFeerate_of 5 2 3 <? 5)%float = true /\
  newFeerate_of 5 2 (-1) = (-1)%float /\
  (newFeerate_of 5 2 (-1) <? 0)%float = true.
Proof. repeat split; vm_compute; reflexivity. Qed.

(** A transaction of 200 bytes (400 hex digits) with a fee of 0.0001:
    the entry stored for it has the rate 50, twice less than the rate
    the specification's formula gives. *)
Lemma C1_counterexample :
  CurrentFeerate <$>
    fst (track (node [output "t"]) (policy true 100) "w1" "http://node/wallet/w1" 100 "t"
           (mkState ∅ (-1) (mkNode [] []) []))
  = Some 50%float /\
  spec_estimate (-0.0001) (zeros 400) = 100%float /\
  feerate_of (-0.0001) (zeros 400) <> spec_estimate (-0.0001) (zeros 400).
Proof.
  repeat split; try (vm_compute; reflexivity).
  intros H. apply (f_equal (fun x => (x <? 75)%float)) in H.
  vm_compute in H. discriminate H.
Qed.

Lemma C1_estimate_on_first_sighting_witness :
  exists info s1,
    track (node [output "t"]) (policy true 100) "w1" "http://node/wallet/w1" 100 "t"
      (mkState ∅ (-1) (mkNode [] []) []) = (Some info, s1) /\
    txInfos s1 !! "t" = Some info /\
    CurrentFeerate info =
      (abs (-0.0001) * 1e8 / float_of_int (Z.of_nat (String.length (zeros 400))) * 2)%float /\
    FirstBlockHeight info = int_of_float 100 /\
    WalletName info = "w1".
Proof.
  apply (C1_estimate_on_first_sighting (node [output "t"]) (policy true 100)
           "w1" "http://node/wallet/w1" 100 "t" (mkState ∅ (-1) (mkNode [] []) [])
           (RpcOk txDetail) (mkNode [] []) (-0.0001)%float (zeros 400));
    vm_compute; reflexivity.
Defined.

(** One output of the tracked transaction processed at height 106, and
    a whole cycle at that height whose one scan lists it once. *)
Lemma C2_one_bumpfee_per_output_witness :
  (exists new,
     trace (snd (processUnspent (node [output "t"]) (policy true 10)
                   "w1" "http://node/wallet/w1" 106 (output "t")
                   (tracked5 (mkNode [] [replaced]))))
       = trace (tracked5 (mkNode [] [replaced])) ++ new /\
     List.filter isBumpfee new =
       [ERpc "http://node/wallet/w1" "bumpfee"
          [VStr "t";
           VObj {[ "fee_rate" :=
                     VInt (int_of_float (math_Round
                             (candidate (policy true 10) (mkTxInfo "w1" 100 5)))) ]}]] /\
     (forall newTxid, replacementId replaced = Some newTxid ->
        txInfos (snd (processUnspent (node [output "t"]) (policy true 10)
                        "w1" "http://node/wallet/w1" 106 (output "t")
                        (tracked5 (mkNode [] [replaced]))))
          = delete "t" (txInfos (tracked5 (mkNode [] [replaced])))) /\
     (replacementId replaced = None ->
        txInfos (snd (processUnspent (node [output "t"]) (policy true 10)
                        "w1" "http://node/wallet/w1" 106 (output "t")
                        (tracked5 (mkNode [] [replaced]))))
          = txInfos (tracked5 (mkNode [] [replaced])))) /\
  (exists new url,
     trace (snd (pollCycle (node [output "other"; output "t"]) (policy true 10) [VStr "w1"]
                   (tracked5 (mkNode [height 106] [replaced]))))
       = trace (tracked5 (mkNode [height 106] [replaced])) ++ new /\
     List.filter (isBumpfeeOf "t") new =
       [ERpc url "bumpfee"
          [VStr "t";
           VObj {[ "fee_rate" :=
                     VInt (int_of_float (math_Round
                             (candidate (policy true 10) (mkTxInfo "w1" 100 5)))) ]}]] /\
     (txInfos (snd (pollCycle (node [output "other"; output "t"]) (policy true 10)
                      [VStr "w1"] (tracked5 (mkNode [height 106] [replaced])))) !! "t" = None \/
      txInfos (snd (pollCycle (node [output "other"; output "t"]) (policy true 10)
                      [VStr "w1"] (tracked5 (mkNode [height 106] [replaced])))) !! "t"
        = Some (mkTxInfo "w1" 100 5))).
Proof.
  split.
  - apply (proj1 (C2_one_bumpfee_per_output (node [output "t"]) (policy true 10))
             "w1" "http://node/wallet/w1" 106%float (output "t") "t" (mkTxInfo "w1" 100 5)
             (tracked5 (mkNode [] [replaced])) replaced (mkNode [] []));
      vm_compute; reflexivity.
  - apply (proj1 (proj2 (proj2 (C2_one_bumpfee_per_output
                                  (node [output "other"; output "t"]) (policy true 10))))
             [VStr "w1"] "t" (mkTxInfo "w1" 100 5)
             (tracked5 (mkNode [height 106] [replaced])) (height 106)
             (mkNode [] [replaced]) 106%float);
      vm_compute; reflexivity.
Defined.

(** Two unconfirmed outputs of the same transaction and a [bumpfee] that
    fails: the transaction is tracked in the first cycle (height 100) and
    qualifies in the second (height 106), where two [bumpfee] requests
    are issued for it. *)
Lemma C2_counterexample :
  txInfos (main (node [output "t"; output "t"]) (policy true 100)
             (mkNode [height 100; height 106] []) 1) !! "t"
    = Some (mkTxInfo "w1" 100 50) /\
  count (isBumpfeeOf "t")
    (trace (main (node [output "t"; output "t"]) (policy true 100)
              (mkNode [height 100; height 106] []) 1)) = 0%nat /\
  count (isBumpfeeOf "t")
    (trace (main (node [output "t"; output "t"]) (policy true 100)
              (mkNode [height 100; height 106] []) 2)) = 2%nat.
Proof. repeat split; vm_compute; reflexivity. Qed.

Lemma C3_dry_run_forgets_until_rescanned_witness :
  (exists new,
     trace (snd (processUnspent (node [output "t"]) (policy false 10)
                   "w1" "http://node/wallet/w1" 106 (output "t")
                   (tracked5 (mkNode [] []))))
       = trace (tracked5 (mkNode [] [])) ++ new /\
     count isRpc new = 0%nat /\
     count (isProposalOf "t") new = 1%nat) /\
  txInfos (snd (processUnspent (node [output "t"]) (policy false 10)
                  "w1" "http://node/wallet/w1" 106 (output "t")
                  (tracked5 (mkNode [] []))))
    = delete "t" (txInfos (tracked5 (mkNode [] []))) /\
  txInfos (snd (processUnspent (node [output "t"]) (policy false 10)
                  "w1" "http://node/wallet/w1" 106 (output "t")
                  (tracked5 (mkNode [] [])))) !! "t" = None /\
  (forall walletName2 walletUrl2 cur2 (s2 : @State Node) r w2 fee hex,
      txInfos s2 !! "t" = None ->
      node [output "t"] (world s2) walletUrl2 "user" "secret" "gettransaction" [VStr "t"]
        = (r, w2) ->
      txDetailOf r = Some (fee, hex) ->
      txInfos (snd (track (node [output "t"]) (policy false 10)
                      walletName2 walletUrl2 cur2 "t" s2)) !! "t" =
        Some (mkTxInfo walletName2 (int_of_float cur2) (feerate_of fee hex))) /\
  (forall walletName3 walletUrl3 cur3 u3 info3 (s3 : @State Node),
      txidOf u3 = Some "t" ->
      txInfos s3 !! "t" = Some info3 ->
      (5 <=? ageBlocks cur3 info3) = true ->
      (1 <=? candidate (policy false 10) info3 - CurrentFeerate info3)%float = true ->
      (exists new,
         trace (snd (processUnspent (node [output "t"]) (policy false 10)
                       walletName3 walletUrl3 cur3 u3 s3)) = trace s3 ++ new /\
         count isRpc new = 0%nat /\
         count (isProposalOf "t") new = 1%nat) /\
      txInfos (snd (processUnspent (node [output "t"]) (policy false 10)
                      walletName3 walletUrl3 cur3 u3 s3)) !! "t" = None) /\
  (forall walletName3 walletUrl3 cur3 u3 info3 (s3 : @State Node),
      txidOf u3 = Some "t" ->
      txInfos s3 !! "t" = Some info3 ->
      (5 <=? ageBlocks cur3 info3) = true ->
      (1 <=? candidate (policy false 10) info3 - CurrentFeerate info3)%float = false ->
      (exists new,
         trace (snd (processUnspent (node [output "t"]) (policy false 10)
                       walletName3 walletUrl3 cur3 u3 s3)) = trace s3 ++ new /\
         count isRpc new = 0%nat /\
         count (isProposalOf "t") new = 0%nat) /\
      txInfos (snd (processUnspent (node [output "t"]) (policy false 10)
                      walletName3 walletUrl3 cur3 u3 s3)) !! "t" = Some info3).
Proof.
  apply (C3_dry_run_forgets_until_rescanned (node [output "t"]) (policy false 10)
           "w1" "http://node/wallet/w1" 106 (output "t") "t" (mkTxInfo "w1" 100 5)
           (tracked5 (mkNode [] [])));
    vm_compute; reflexivity.
Defined.

(** A dry run over the heights 100, 105, 106 and 111: the transaction is
    proposed for escalation at height 105 and forgotten, tracked again
    at 106 and proposed again at 111; no [bumpfee] request is ever
    sent. *)
Lemma C3_counterexample :
  count (isProposalOf "t")
    (trace (main (node [output "t"]) (policy false 100)
              (mkNode [height 100; height 105; height 106; height 111] []) 2)) = 1%nat /\
  txInfos (main (node [output "t"]) (policy false 100)
             (mkNode [height 100; height 105; height 106; height 111] []) 3) !! "t"
    = Some (mkTxInfo "w1" 106 50) /\
  count (isProposalOf "t")
    (trace (main (node [output "t"]) (policy false 100)
              (mkNode [height 100; height 105; height 106; height 111] []) 4)) = 2%nat /\
  count isBumpfee
    (trace (main (node [output "t"]) (policy false 100)
              (mkNode [height 100; height 105; height 106; height 111] []) 4)) = 0%nat.
Proof. repeat split; vm_compute; reflexivity. Qed.

Lemma C5_below_increment_retained_witness :
  txInfos (tracked95 (mkNode [height 105] [])) !! "t" = Some (mkTxInfo "w1" 100 9.5) /\
  (candidate (policy true 10) (mkTxInfo "w1" 100 9.5) - 9.5 <? 1)%float = true /\
  txInfos (pollCycles (node [output "t"]) (policy true 10) [VStr "w1"] 1
             (tracked95 (mkNode [height 105] []))) !! "t"
    = Some (mkTxInfo "w1" 100 9.5) /\
  exists new,
    trace (pollCycles (node [output "t"]) (policy true 10) [VStr "w1"] 1
             (tracked95 (mkNode [height 105] [])))
      = trace (tracked95 (mkNode [height 105] [])) ++ new /\
    count (isBumpfeeOf "t") new = 0%nat.
Proof.
  split; [vm_compute; reflexivity|]. split; [vm_compute; reflexivity|].
  apply (C5_below_increment_retained (node [output "t"]) (policy true 10)
           [VStr "w1"] 1 "t" (mkTxInfo "w1" 100 9.5) (tracked95 (mkNode [height 105] [])));
    vm_compute; reflexivity.
Defined.

Lemma C7_age_reports_witness :
  exists new,
    trace (snd (processUnspent (node [output "t"]) (policy true 10)
                  "w1" "http://node/wallet/w1" 106 (output "t")
                  (tracked5 (mkNode [] []))))
      = trace (tracked5 (mkNode [] [])) ++ new /\
    List.NoDup (List.filter isAgeReport new) /\
    forall e,
      In e (List.filter isAgeReport new) <->
      exists k i,
        txInfos (tracked5 (mkNode [] [])) !! k = Some i /\ WalletName i = "w1" /\
        e = ELog (LUnconfirmedFor "w1" k (sub64 (int_of_float 106) (FirstBlockHeight i))).
Proof.
  apply (proj1 (C7_age_reports (node [output "t"]) (policy true 10))
           "w1" "http://node/wallet/w1" 106%float (output "t") "t" (mkTxInfo "w1" 100 5)
           (tracked5 (mkNode [] [])) (tracked5 (mkNode [] [])));
    vm_compute; try reflexivity; discriminate.
Defined.

(** One transaction tracked for the wallet, the cursor at 100 and the
    height at 105 (the candidate is too close to the tracked rate for a
    bump, so the entry stays).  A scan that lists two outputs of the
    transaction reports its age twice in the cycle; a scan that lists
    no output does not report it at all. *)
Lemma C7_counterexample :
  lastBlockHeight (tracked95 (mkNode [height 105] [])) = 100 /\
  txInfos (tracked95 (mkNode [height 105] [])) = {[ "t" := mkTxInfo "w1" 100 9.5 ]} /\
  List.filter isAgeReport
    (trace (snd (pollCycle (node [output "t"; output "t"]) (policy true 10) [VStr "w1"]
                   (tracked95 (mkNode [height 105] [])))))
    = [ELog (LUnconfirmedFor "w1" "t" 5); ELog (LUnconfirmedFor "w1" "t" 5)] /\
  txInfos (snd (pollCycle (node [output "t"; output "t"]) (policy true 10) [VStr "w1"]
                  (tracked95 (mkNode [height 105] []))))
    = {[ "t" := mkTxInfo "w1" 100 9.5 ]} /\
  List.filter isAgeReport
    (trace (snd (pollCycle (node []) (policy true 10) [VStr "w1"]
                   (tracked95 (mkNode [height 105] [])))))
    = [] /\
  txInfos (snd (pollCycle (node []) (policy true 10) [VStr "w1"]
                  (tracked95 (mkNode [height 105] []))))
    = {[ "t" := mkTxInfo "w1" 100 9.5 ]}.
Proof. repeat split; vm_compute; reflexivity. Qed.

Lemma C8_height_failure_skips_sleep_witness :
  lastBlockHeight (snd (pollCycle (node [output "t"]) (policy true 10) [VStr "w1"]
                          (tracked5 (mkNode [] []))))
    = lastBlockHeight (tracked5 (mkNode [] [])) /\
  exists msg,
    trace (snd (pollCycle (node [output "t"]) (policy true 10) [VStr "w1"]
                  (tracked5 (mkNode [] []))))
      = trace (tracked5 (mkNode [] [])) ++
          [ERpc "http://node" "getblockcount" []; ELog (LError msg)] /\
    trace (pollCycles (node [output "t"]) (policy true 10) [VStr "w1"] 1
             (tracked5 (mkNode [] [])))
      = trace (snd (pollCycle (node [output "t"]) (policy true 10) [VStr "w1"]
                      (tracked5 (mkNode [] [])))) /\
    count isSleep
      (trace (snd (pollCycle (node [output "t"]) (policy true 10) [VStr "w1"]
                     (tracked5 (mkNode [] [])))))
      = count isSleep (trace (tracked5 (mkNode [] []))).
Proof.
  apply (C8_height_failure_skips_sleep (node [output "t"]) (policy true 10) [VStr "w1"]
           (tracked5 (mkNode [] [])) (RpcErr "connection refused") (mkNode [] []));
    vm_compute; reflexivity.
Defined.

(** A node that is down: two iterations of the main loop follow each
    other without a sleep and leave the cursor at its initial value. *)
Lemma C8_two_failed_cycles :
  trace (main (node [output "t"]) (policy true 10) (mkNode [] []) 2)
    = [ERpc "http://node" "listwallets" [];
       ERpc "http://node" "getblockcount" [];
       ELog (LError "Error getting current block count");
       ERpc "http://node" "getblockcount" [];
       ELog (LError "Error getting current block count")] /\
  lastBlockHeight (main (node [output "t"]) (policy true 10) (mkNode [] []) 2) = -1.
Proof. split; vm_compute; reflexivity. Qed.


Lemma C10_malformed_answer_keeps_entry_witness :
  txInfos (snd (processUnspent (node [output "t"]) (policy true 10)
                  "w1" "http://node/wallet/w1" 106 (output "t")
                  (tracked5 (mkNode [] [RpcOk (VObj ∅)]))))
    = txInfos (tracked5 (mkNode [] [RpcOk (VObj ∅)])) /\
  (exists new,
     trace (snd (processUnspent (node [output "t"]) (policy true 10)
                   "w1" "http://node/wallet/w1" 106 (output "t")
                   (tracked5 (mkNode [] [RpcOk (VObj ∅)]))))
       = trace (tracked5 (mkNode [] [RpcOk (VObj ∅)])) ++ new /\
     count (isBumpfeeOf "t") new = 1%nat) /\
  forall walletName2 walletUrl2 cur2 u2 (s2 : @State Node),
    txidOf u2 = Some "t" ->
    txInfos s2 !! "t" =
      txInfos (snd (processUnspent (node [output "t"]) (policy true 10)
                      "w1" "http://node/wallet/w1" 106 (output "t")
                      (tracked5 (mkNode [] [RpcOk (VObj ∅)])))) !! "t" ->
    (BumpfeeBlockInterval (policy true 10) <=? ageBlocks cur2 (mkTxInfo "w1" 100 5)) = true ->
    exists new,
      trace (snd (processUnspent (node [output "t"]) (policy true 10)
                    walletName2 walletUrl2 cur2 u2 s2)) = trace s2 ++ new /\
      count (isBumpfeeOf "t") new = 1%nat.
Proof.
  apply (C10_malformed_answer_keeps_entry (node [output "t"]) (policy true 10)
           "w1" "http://node/wallet/w1" 106 (output "t") "t" (mkTxInfo "w1" 100 5)
           (tracked5 (mkNode [] [RpcOk (VObj ∅)])) (VObj ∅) (mkNode [] []));
    vm_compute; reflexivity.
Defined.

(** ** The further properties on concrete runs *)

Lemma X2_failed_enumeration_is_final_witness :
  txInfos (main (nodeWithout "listwallets" [output "t"]) (policy true 10)
             (mkNode [height 100; height 106] []) 2) = ∅ /\
  forall e,
    In e (trace (main (nodeWithout "listwallets" [output "t"]) (policy true 10)
                   (mkNode [height 100; height 106] []) 2)) ->
    isRpc e = true ->
    e = ERpc "http://node" "listwallets" [] \/ e = ERpc "http://node" "getblockcount" [].
Proof.
  apply (X2_failed_enumeration_is_final (nodeWithout "listwallets" [output "t"])
           (policy true 10) (mkNode [height 100; height 106] []) 2
           (RpcErr "timeout") (mkNode [height 100; height 106] []));
    vm_compute; reflexivity.
Defined.

Lemma X3_successful_cycle_shape_witness :
  lastBlockHeight (snd (pollCycle (node [output "t"]) (policy true 10) [VStr "w1"]
                          (tracked5 (mkNode [height 106] [])))) = int_of_float 106 /\
  exists body,
    trace (snd (pollCycle (node [output "t"]) (policy true 10) [VStr "w1"]
                  (tracked5 (mkNode [height 106] [])))) =
      trace (tracked5 (mkNode [height 106] [])) ++
      [ERpc "http://node" "getblockcount" []] ++
      (if (lastBlockHeight (tracked5 (mkNode [height 106] [])) =? -1)
          || negb (int_of_float 106 =? lastBlockHeight (tracked5 (mkNode [height 106] [])))
       then [ELog (LNewBlock (int_of_float 106))] else []) ++
      body ++
      [ESleep (wrap64 (BlockCheckInterval (policy true 10) * 1000000000))] /\
    forallb isInner body = true.
Proof.
  apply (X3_successful_cycle_shape (node [output "t"]) (policy true 10) [VStr "w1"]
           (tracked5 (mkNode [height 106] [])) (height 106) (mkNode [] []) 106%float);
    vm_compute; reflexivity.
Defined.

Lemma X4_unchanged_height_no_age_report_witness :
  exists new,
    trace (snd (pollCycle (node [output "t"]) (policy true 10) [VStr "w1"]
                  (tracked5 (mkNode [height 105] [])))) =
      trace (tracked5 (mkNode [height 105] [])) ++ new /\
    count isAgeReport new = 0%nat.
Proof.
  apply (X4_unchanged_height_no_age_report (node [output "t"]) (policy true 10) [VStr "w1"]
           (tracked5 (mkNode [height 105] [])) (height 105) (mkNode [] []) 105%float);
    vm_compute; reflexivity.
Defined.

Lemma X5_young_entry_dormant_witness :
  txInfos (snd (pollCycle (node [output "t"]) (policy true 10) [VStr "w1"]
                  (tracked5 (mkNode [height 104] [])))) !! "t"
    = Some (mkTxInfo "w1" 100 5) /\
  exists new,
    trace (snd (pollCycle (node [output "t"]) (policy true 10) [VStr "w1"]
                  (tracked5 (mkNode [height 104] [])))) =
      trace (tracked5 (mkNode [height 104] [])) ++ new /\
    count (isBumpfeeOf "t") new = 0%nat /\
    count (isProposalOf "t") new = 0%nat.
Proof.
  apply (X5_young_entry_dormant (node [output "t"]) (policy true 10) [VStr "w1"]
           (tracked5 (mkNode [height 104] [])) (height 104) (mkNode [] []) 104%float
           "t" (mkTxInfo "w1" 100 5));
    vm_compute; reflexivity.
Defined.

Lemma X6_first_sighting_only_tracks_witness :
  txInfos (snd (processUnspent (node [output "t"]) (policy true 10)
                  "w1" "http://node/wallet/w1" 106 (output "t") (untracked (mkNode [] []))))
    = <["t" := mkTxInfo "w1" (int_of_float 106) (feerate_of (-0.0001) (zeros 400))]>
        (txInfos (untracked (mkNode [] []))) /\
  exists new,
    trace (snd (processUnspent (node [output "t"]) (policy true 10)
                  "w1" "http://node/wallet/w1" 106 (output "t") (untracked (mkNode [] []))))
      = trace (untracked (mkNode [] [])) ++ new /\
    List.filter isRpc new = [ERpc "http://node/wallet/w1" "gettransaction" [VStr "t"]].
Proof.
  apply (X6_first_sighting_only_tracks (node [output "t"]) (policy true 10)
           "w1" "http://node/wallet/w1" 106 (output "t") "t" (untracked (mkNode [] []))
           (RpcOk txDetail) (mkNode [] []) (-0.0001)%float (zeros 400));
    vm_compute; reflexivity.
Defined.

Lemma X7_zero_interval_bumps_at_once_witness :
  exists new,
    trace (snd (processUnspent (node [output "t"]) eagerPolicy
                  "w1" "http://node/wallet/w1" 106 (output "t") (untracked (mkNode [] []))))
      = trace (untracked (mkNode [] [])) ++ new /\
    List.filter isRpc new =
      [ERpc "http://node/wallet/w1" "gettransaction" [VStr "t"];
       ERpc "http://node/wallet/w1" "bumpfee"
         (bumpfeeParams "t"
            (newFeerateRounded eagerPolicy
               (mkTxInfo "w1" (int_of_float 106) (feerate_of (-0.0001) (zeros 400)))))].
Proof.
  apply (X7_zero_interval_bumps_at_once (node [output "t"]) eagerPolicy
           "w1" "http://node/wallet/w1" 106 (output "t") "t" (untracked (mkNode [] []))
           (RpcOk txDetail) (mkNode [] []) (-0.0001)%float (zeros 400));
    vm_compute; try reflexivity; discriminate.
Defined.

Lemma X8_invalid_output_skipped_witness :
  exists msg,
    snd (forRange (processUnspent (node [output "t"]) (policy true 10)
                     "w1" "http://node/wallet/w1" 106)
           ([] ++ VNil :: [output "t"]) (untracked (mkNode [] []))) =
    snd (forRange (processUnspent (node [output "t"]) (policy true 10)
                     "w1" "http://node/wallet/w1" 106)
           [output "t"]
           (logged
              (snd (forRange (processUnspent (node [output "t"]) (policy true 10)
                               "w1" "http://node/wallet/w1" 106)
                      [] (untracked (mkNode [] []))))
              [ELog (LError msg)])).
Proof.
  apply (X8_invalid_output_skipped (node [output "t"]) (policy true 10)
           "w1" "http://node/wallet/w1" 106 [] VNil [output "t"] (untracked (mkNode [] []))).
  reflexivity.
Defined.

Lemma X9_failed_detail_not_tracked_witness :
  exists msg,
    snd (forRange (processUnspent (nodeWithout "gettransaction" []) (policy true 10)
                     "w1" "http://node/wallet/w1" 106)
           ([] ++ output "t" :: [output "u"]) (untracked (mkNode [] []))) =
    snd (forRange (processUnspent (nodeWithout "gettransaction" []) (policy true 10)
                     "w1" "http://node/wallet/w1" 106)
           [output "u"]
           (answered
              (snd (forRange (processUnspent (nodeWithout "gettransaction" [])
                               (policy true 10) "w1" "http://node/wallet/w1" 106)
                      [] (untracked (mkNode [] []))))
              (mkNode [] [])
              [ERpc "http://node/wallet/w1" "gettransaction" [VStr "t"]; ELog (LError msg)])).
Proof.
  apply (X9_failed_detail_not_tracked (nodeWithout "gettransaction" []) (policy true 10)
           "w1" "http://node/wallet/w1" 106 [] (output "t") [output "u"] "t"
           (untracked (mkNode [] [])) (RpcErr "timeout") (mkNode [] []));
    vm_compute; reflexivity.
Defined.

Lemma X10_invalid_wallet_entry_skipped_witness :
  exists msg,
    snd (forRange (processWallet (node [output "t"]) (policy true 10) 106)
           ([] ++ VNum 1 :: [VStr "w1"]) (untracked (mkNode [] []))) =
    snd (forRange (processWallet (node [output "t"]) (policy true 10) 106)
           [VStr "w1"]
           (logged
              (snd (forRange (processWallet (node [output "t"]) (policy true 10) 106)
                      [] (untracked (mkNode [] []))))
              [ELog (LError msg)])).
Proof.
  apply (X10_invalid_wallet_entry_skipped (node [output "t"]) (policy true 10)
           106 [] (VNum 1) [VStr "w1"] (untracked (mkNode [] []))).
  reflexivity.
Defined.

Lemma X11_written_lines_witness :
  (exists k,
     LabelFilter.writesOf (LabelFilter.main (labelEnv None)) =
       take k (LabelFilter.labelled ["label a"; "other"; "my label"])) /\
  ((forall snk x, fst (LabelFilter.writeString (labelEnv None) snk x) = None) ->
   LabelFilter.writesOf (LabelFilter.main (labelEnv None)) =
     LabelFilter.labelled ["label a"; "other"; "my label"]) /\
  (forall x,
     In x (LabelFilter.writesOf (LabelFilter.main (labelEnv None))) ->
     exists line pre post,
       In line ["label a"; "other"; "my label"] /\
       line = (pre ++ "label" ++ post)%string /\
       x = (line ++ LabelFilter.newline)%string).
Proof.
  apply (X11_written_lines (labelEnv None) "inputFilePath: in.txt"
           (LabelFilter.mkConfig "in.txt" "out.txt")
           (LabelFilter.mkScanned ["label a"; "other"; "my label"] None) []);
    reflexivity.
Defined.

Lemma X12_run_outcomes_witness :
  LabelFilter.main (labelEnv (Some "token too long")) =
    (LabelFilter.WriteString <$> LabelFilter.labelled ["label a"; "other"; "my label"]) ++
    [LabelFilter.Println "Error reading input file:" "token too long"] ++
    [LabelFilter.Flush; LabelFilter.CloseOutput; LabelFilter.CloseInput]
  \/
  exists k err,
    (k < length (LabelFilter.labelled ["label a"; "other"; "my label"]))%nat /\
    LabelFilter.main (labelEnv (Some "token too long")) =
      (LabelFilter.WriteString <$> take (S k)
         (LabelFilter.labelled ["label a"; "other"; "my label"])) ++
      [LabelFilter.Println "Error writing to output file:" err;
       LabelFilter.Flush; LabelFilter.CloseOutput; LabelFilter.CloseInput].
Proof.
  apply (X12_run_outcomes (labelEnv (Some "token too long")) "inputFilePath: in.txt"
           (LabelFilter.mkConfig "in.txt" "out.txt")
           (LabelFilter.mkScanned ["label a"; "other"; "my label"]
              (Some "token too long")));
    reflexivity.
Defined.

Lemma X14_other_entries_untouched_witness :
  txInfos (snd (processUnspent (node [output "u"]) (policy false 10)
                  "w1" "http://node/wallet/w1" 106 (output "u")
                  (tracked5 (mkNode [] [])))) !! "t"
    = txInfos (tracked5 (mkNode [] [])) !! "t".
Proof.
  apply (X14_other_entries_untouched (node [output "u"]) (policy false 10)
           "w1" "http://node/wallet/w1" 106 (output "u") (tracked5 (mkNode [] [])) "t").
  intros H. vm_compute in H. discriminate H.
Defined.
